(** * birt-consumer: the row-to-document pipeline

    A shallow embedding of [records/record.py], [records/migration.py],
    [records/taxonomy.py] and [tools/birt_file_reader.py], and the
    properties of the specification that concern them.

    Python values are an inductive type, exceptions are an error monad,
    the ordered field mapping of a record is an association list with the
    update-in-place behaviour of [collections.OrderedDict], and floats are
    IEEE 754 binary64 values ([spec_float] with [prec = 53], [emax = 1024]). *)

From Stdlib Require Import ZArith List String Ascii Bool Lia Sorted.
From Stdlib Require Import Floats.SpecFloat.
Import ListNotations.

Set Warnings "-register-all".

Local Open Scope string_scope.
Local Open Scope Z_scope.

(* ================================================================== *)
(** * Exceptions and the error monad *)
(* ================================================================== *)

(** The exception classes that the modelled code raises or lets through.
    [InvalidRecordProperty] and [InvalidRecordLength] are the two custom
    classes of [records/record.py]; the others are Python built-ins.
    [AttributeError] carries the name of the attribute that is looked up
    and not found. *)
Inductive exn : Type :=
| InvalidRecordProperty (message : string)
| InvalidRecordLength (message : string)
| IndexError
| KeyError (key : string)
| TypeError
| ValueError
| OverflowError
| AttributeError (attribute : string).

Inductive result (A : Type) : Type :=
| Ok (a : A)
| Raise (e : exn).

Arguments Ok {A} a.
Arguments Raise {A} e.

Definition bind {A B : Type} (m : result A) (k : A -> result B) : result B :=
  match m with
  | Ok a => k a
  | Raise e => Raise e
  end.

Notation "x <- m ;; k" := (bind m (fun x => k))
  (at level 61, m at next level, right associativity).

Definition raises {A : Type} (m : result A) : bool :=
  match m with
  | Ok _ => false
  | Raise _ => true
  end.

(* ================================================================== *)
(** * Strings as Python 2 byte strings *)
(* ================================================================== *)

Module PyStr.

(** [str.isspace] on one byte. *)
Definition is_space (c : ascii) : bool :=
  let n := nat_of_ascii c in
  (Nat.eqb n 32 || (Nat.leb 9 n && Nat.leb n 13))%bool.

Definition is_digit (c : ascii) : bool :=
  let n := nat_of_ascii c in (Nat.leb 48 n && Nat.leb n 57)%bool.

Definition is_upper (c : ascii) : bool :=
  let n := nat_of_ascii c in (Nat.leb 65 n && Nat.leb n 90)%bool.

Definition is_lower (c : ascii) : bool :=
  let n := nat_of_ascii c in (Nat.leb 97 n && Nat.leb n 122)%bool.

Definition is_alnum (c : ascii) : bool :=
  (is_digit c || is_upper c || is_lower c)%bool.

Definition lower_char (c : ascii) : ascii :=
  if is_upper c then ascii_of_nat (nat_of_ascii c + 32) else c.

(** [s.lower()] *)
Fixpoint lower (s : string) : string :=
  match s with
  | EmptyString => EmptyString
  | String c r => String (lower_char c) (lower r)
  end.

Fixpoint lstrip (s : string) : string :=
  match s with
  | EmptyString => EmptyString
  | String c r => if is_space c then lstrip r else s
  end.

(** Drops the trailing white space: a character is kept when it is not
    white space or when something is kept after it. *)
Fixpoint rstrip (s : string) : string :=
  match s with
  | EmptyString => EmptyString
  | String c r =>
      match rstrip r with
      | EmptyString => if is_space c then EmptyString else String c EmptyString
      | r' => String c r'
      end
  end.

(** [s.strip()] *)
Definition strip (s : string) : string := rstrip (lstrip s).

(** [not s.strip()] *)
Definition blank (s : string) : bool :=
  match strip s with
  | EmptyString => true
  | _ => false
  end.

Definition digit_val (c : ascii) : Z := Z.of_nat (nat_of_ascii c) - 48.

(** Reads a maximal run of decimal digits: its value (after the
    accumulator), how many there were, and the rest. *)
Fixpoint digits (s : string) (acc : Z) (count : Z) : Z * Z * string :=
  match s with
  | String c r =>
      if is_digit c then digits r (10 * acc + digit_val c) (count + 1)
      else (acc, count, s)
  | EmptyString => (acc, count, s)
  end.

(** The double quote character, as a string. *)
Definition quote : string := String (ascii_of_nat 34) EmptyString.

(** An optional sign: [true] for [-]. *)
Definition sign (s : string) : bool * string :=
  match s with
  | String "-" r => (true, r)
  | String "+" r => (false, r)
  | _ => (false, s)
  end.

End PyStr.

(* ================================================================== *)
(** * The built-ins [int] and [float] on strings *)
(* ================================================================== *)

Module PyNum.

(** A 64-bit build: Python 2 [int] is a C [long], [sys.maxint] is
    [2^63 - 1]; a C [int] has 32 bits. *)
Definition sys_maxint : Z := 2 ^ 63 - 1.
Definition c_int_max : Z := 2 ^ 31 - 1.

Definition is_machine_int (n : Z) : bool :=
  ((- sys_maxint - 1 <=? n) && (n <=? sys_maxint))%bool.

(** [int(s)] for a string in base 10: surrounding white space, an
    optional sign and at least one digit; [None] is [ValueError].  The
    value is not bounded here (beyond [sys.maxint] Python 2 answers a
    [long]). *)
Definition int_of_string (s : string) : option Z :=
  let (neg, r) := PyStr.sign (PyStr.strip s) in
  match PyStr.digits r 0 0 with
  | (n, count, EmptyString) =>
      if 0 <? count then Some (if neg then - n else n) else None
  | _ => None
  end.

Definition float := spec_float.

Definition prec : Z := 53.
Definition emax : Z := 1024.

(** [float(n)] for an integer: round to nearest, ties to even. *)
Definition float_of_Z (n : Z) : float := binary_normalize prec emax n 0 false.

(** The correctly rounded value of [(-1)^neg * m * 10^e]. *)
Definition float_of_decimal (neg : bool) (m : Z) (e : Z) : float :=
  match m with
  | Zpos p =>
      if 0 <=? e then binary_round prec emax neg (p * Z.to_pos (10 ^ e))%positive 0
      else SFdiv prec emax (S754_finite neg p 0)
                           (S754_finite false (Z.to_pos (10 ^ (- e))) 0)
  | _ => S754_zero neg
  end.

(** The exponent part of a decimal literal: [e] or [E], an optional
    sign, at least one digit, and nothing after. *)
Definition exponent (s : string) : option Z :=
  match s with
  | EmptyString => Some 0
  | String c r =>
      if (Ascii.eqb c "e" || Ascii.eqb c "E")%bool then
        let (neg, r') := PyStr.sign r in
        match PyStr.digits r' 0 0 with
        | (n, count, EmptyString) =>
            if 0 <? count then Some (if neg then - n else n) else None
        | _ => None
        end
      else None
  end.

(** A decimal literal without its sign: digits, an optional point and
    more digits (at least one digit in all), an optional exponent. *)
Definition decimal (neg : bool) (s : string) : option float :=
  let '(ip, icount, r) := PyStr.digits s 0 0 in
  let '(m, fcount, r') :=
    match r with
    | String "." r1 => PyStr.digits r1 ip 0
    | _ => (ip, 0, r)
    end in
  if 0 <? icount + fcount then
    match exponent r' with
    | Some e => Some (float_of_decimal neg m (e - fcount))
    | None => None
    end
  else None.

(** [float(s)] for a string; [None] is [ValueError]. *)
Definition float_of_string (s : string) : option float :=
  let (neg, r) := PyStr.sign (PyStr.strip s) in
  let w := PyStr.lower r in
  if (String.eqb w "inf" || String.eqb w "infinity")%bool then Some (S754_infinity neg)
  else if String.eqb w "nan" then Some S754_nan
  else decimal neg r.

Definition flt (x y : float) : bool := SFltb x y.
Definition fgt (x y : float) : bool := SFltb y x.
Definition fle (x y : float) : bool := SFleb x y.

End PyNum.

(* ================================================================== *)
(** * Python values *)
(* ================================================================== *)

(** A [datetime.datetime]: the proleptic Gregorian ordinal of its day
    (1 is 0001-01-01) and the microseconds since midnight. *)
Record datetime : Type := mk_datetime { dt_ordinal : Z; dt_micros : Z }.

(** [PInt n] is an [int] when [n] fits a machine word and a [long]
    otherwise.  [PStr] stands for both [str] and [unicode]. *)
Inductive pyval : Type :=
| PNone
| PBool (b : bool)
| PInt (n : Z)
| PFloat (f : PyNum.float)
| PStr (s : string)
| PDatetime (d : datetime)
| PList (items : list pyval)
| PDict (entries : list (string * pyval)).

(** [collections.OrderedDict] with string keys: assignment to a key that
    is present replaces its value in place, a new key goes to the end. *)
Module ODict.

Definition t : Type := list (string * pyval).

Definition empty : t := [].

Fixpoint get (d : t) (k : string) : option pyval :=
  match d with
  | [] => None
  | (k', v) :: r => if String.eqb k' k then Some v else get r k
  end.

Fixpoint set (d : t) (k : string) (v : pyval) : t :=
  match d with
  | [] => [(k, v)]
  | (k', v') :: r =>
      if String.eqb k' k then (k, v) :: r else (k', v') :: set r k v
  end.

Definition mem (d : t) (k : string) : bool :=
  match get d k with
  | Some _ => true
  | None => false
  end.

Definition keys (d : t) : list string := map fst d.

End ODict.

Module Py.

(** [isinstance(v, int)]; [bool] is a subclass of [int]. *)
Definition is_int (v : pyval) : bool :=
  match v with
  | PInt n => PyNum.is_machine_int n
  | PBool _ => true
  | _ => false
  end.

(** [isinstance(v, (int, long))] *)
Definition is_int_or_long (v : pyval) : bool :=
  match v with
  | PInt _ | PBool _ => true
  | _ => false
  end.

Definition is_str (v : pyval) : bool :=
  match v with
  | PStr _ => true
  | _ => false
  end.

(** [int(v)] *)
Definition int (v : pyval) : result Z :=
  match v with
  | PInt n => Ok n
  | PBool b => Ok (if b then 1 else 0)
  | PStr s =>
      match PyNum.int_of_string s with
      | Some n => Ok n
      | None => Raise ValueError
      end
  | PFloat (S754_zero _) => Ok 0
  | PFloat (S754_finite s m e) =>
      let a := match e with
               | Zneg k => Z.shiftr (Zpos m) (Zpos k)
               | _ => Z.shiftl (Zpos m) e
               end in
      Ok (if s then - a else a)
  | PFloat (S754_infinity _) => Raise OverflowError
  | PFloat S754_nan => Raise ValueError
  | _ => Raise TypeError
  end.

(** [float(v)] *)
Definition float (v : pyval) : result PyNum.float :=
  match v with
  | PFloat f => Ok f
  | PInt n =>
      match PyNum.float_of_Z n with
      | S754_infinity _ => Raise OverflowError
      | f => Ok f
      end
  | PBool b => Ok (PyNum.float_of_Z (if b then 1 else 0))
  | PStr s =>
      match PyNum.float_of_string s with
      | Some f => Ok f
      | None => Raise ValueError
      end
  | _ => Raise TypeError
  end.

(** [bool(v)] *)
Definition truthy (v : pyval) : bool :=
  match v with
  | PNone => false
  | PBool b => b
  | PInt n => negb (n =? 0)
  | PFloat (S754_zero _) => false
  | PFloat _ => true
  | PStr EmptyString => false
  | PStr _ => true
  | PDatetime _ => true
  | PList [] => false
  | PList _ => true
  | PDict [] => false
  | PDict _ => true
  end.

End Py.

(** [conf/settings.py] *)
Module settings.

Definition _STRFTIME_FORMAT : string := "%b %Y".
Definition _DISABLE_SCHEMA_MATCH : bool := true.
Definition _CHUNK_SIZE : Z := 5000.

End settings.

(* ================================================================== *)
(** * Schemas and the Cerberus validator *)
(* ================================================================== *)

(** One field definition of a schema.  [r_nullable] and [r_required] are
    [false] when the rule is not written; [r_datetime_format] is [None]
    when the key is absent, [Some None] when it is written with the value
    [None]. *)
Inductive rule : Type :=
  Rule (r_type : string) (r_nullable r_required : bool)
       (r_schema : option (list (string * rule)))
       (r_datetime_format : option (option string)).

Definition r_type (r : rule) : string :=
  match r with Rule t _ _ _ _ => t end.
Definition r_nullable (r : rule) : bool :=
  match r with Rule _ n _ _ _ => n end.
Definition r_required (r : rule) : bool :=
  match r with Rule _ _ q _ _ => q end.
Definition r_schema (r : rule) : option (list (string * rule)) :=
  match r with Rule _ _ _ s _ => s end.
Definition r_datetime_format (r : rule) : option (option string) :=
  match r with Rule _ _ _ _ f => f end.

Definition schema : Type := list (string * rule).

Fixpoint schema_get (s : schema) (k : string) : option rule :=
  match s with
  | [] => None
  | (k', r) :: rest => if String.eqb k' k then Some r else schema_get rest k
  end.

(** The part of [cerberus.Validator] (0.9, the series that has
    [transparent_schema_rules]) that the schemas of this repository use:
    the rules [type], [nullable], [required] and [schema] on a mapping,
    and [allow_unknown].  The error mapping is a dictionary from field
    name to one message, or to the list of its messages. *)
Module Cerberus.

(** [_validate_type_<name>] *)
Definition type_ok (ty : string) (v : pyval) : bool :=
  if String.eqb ty "string" then Py.is_str v
  else if String.eqb ty "integer" then Py.is_int_or_long v
  else if (String.eqb ty "number" || String.eqb ty "float")%bool then
    match v with PFloat _ | PInt _ | PBool _ => true | _ => false end
  else if String.eqb ty "boolean" then
    match v with PBool _ => true | _ => false end
  else if String.eqb ty "datetime" then
    match v with PDatetime _ => true | _ => false end
  else if String.eqb ty "dict" then
    match v with PDict _ => true | _ => false end
  else if String.eqb ty "list" then
    match v with PList _ => true | _ => false end
  else false.

Definition ERROR_BAD_TYPE (ty : string) : pyval :=
  PStr ("must be of " ++ ty ++ " type").
Definition ERROR_NOT_NULLABLE : pyval := PStr "null value not allowed".
Definition ERROR_REQUIRED_FIELD : pyval := PStr "required field".
Definition ERROR_UNKNOWN_FIELD : pyval := PStr "unknown field".

(** [_error]: a field with one message maps to it, with several to
    their list. *)
Definition as_entry (field : string) (msgs : list pyval) : ODict.t :=
  match msgs with
  | [] => []
  | [m] => [(field, m)]
  | _ => [(field, PList msgs)]
  end.

Section Document.
Variable check : rule -> pyval -> list pyval.

(** The fields the schema defines: the messages of those present in
    the document, and [required] for those absent. *)
Fixpoint known_errors (entries : schema) (doc : ODict.t) : ODict.t :=
  match entries with
  | [] => []
  | (k, r) :: rest =>
      app (match ODict.get doc k with
           | Some v => as_entry k (check r v)
           | None =>
               if r_required r then [(k, ERROR_REQUIRED_FIELD)] else []
           end)
          (known_errors rest doc)
  end.
End Document.

(** The fields of the document that the schema does not define. *)
Fixpoint unknown_errors (allow_unknown : bool) (entries : schema)
         (doc : ODict.t) : ODict.t :=
  match doc with
  | [] => []
  | (k, _) :: rest =>
      app (match schema_get entries k with
           | Some _ => []
           | None => if allow_unknown then [] else [(k, ERROR_UNKNOWN_FIELD)]
           end)
          (unknown_errors allow_unknown entries rest)
  end.

(** The messages of one defined field.  A null value is accepted when
    the field is nullable and no other rule is then looked at; a value
    of the wrong type stops the field's validation; a mapping is checked
    against the nested schema by a child validator. *)
Fixpoint field_errors (allow_unknown : bool) (r : rule) (v : pyval)
         {struct r} : list pyval :=
  match r with
  | Rule ty nullable _ sch _ =>
      match v with
      | PNone =>
          if nullable then [] else [ERROR_NOT_NULLABLE; ERROR_BAD_TYPE ty]
      | _ =>
          if type_ok ty v then
            match sch, v with
            | Some entries, PDict doc =>
                match app (known_errors (field_errors allow_unknown) entries doc)
                          (unknown_errors allow_unknown entries doc) with
                | [] => []
                | errs => [PDict errs]
                end
            | _, _ => []
            end
          else [ERROR_BAD_TYPE ty]
      end
  end.

(** [Validator(schema, allow_unknown=...).validate(document)] leaves
    this mapping in [validator.errors] and answers whether it is
    empty. *)
Definition errors (allow_unknown : bool) (s : schema) (doc : ODict.t)
  : ODict.t :=
  app (known_errors (field_errors allow_unknown) s doc)
      (unknown_errors allow_unknown s doc).

Definition is_empty (e : ODict.t) : bool :=
  match e with
  | [] => true
  | _ => false
  end.

Definition validate (allow_unknown : bool) (s : schema) (doc : ODict.t)
  : bool :=
  is_empty (errors allow_unknown s doc).

End Cerberus.

(* ================================================================== *)
(** * [records/record.py]: class [Record] *)
(* ================================================================== *)

Module Record.

(** [is_empty_str]: [str(val)] is blank only for a blank string; the
    text of [None], of a number, a boolean, a date, a list or a mapping
    always has a character that is not white space. *)
Definition is_empty_str (val : pyval) : bool :=
  match val with
  | PStr s => PyStr.blank s
  | _ => false
  end.

Definition could_be_float (val : pyval) : bool :=
  match val with
  | PNone => false
  | PFloat _ => true
  | PStr s =>
      match PyNum.float_of_string s with
      | Some _ => true
      | None => false
      end
  | _ => false
  end.

(** A string that parses to a value beyond [sys.maxint] gives a [long],
    for which the function raises and catches [ValueError]. *)
Definition could_be_int (val : pyval) : bool :=
  match val with
  | PNone => false
  | PStr s =>
      match PyNum.int_of_string s with
      | Some n => PyNum.is_machine_int n
      | None => false
      end
  | _ => Py.is_int val
  end.

Definition could_be_number (val : pyval) : bool :=
  match val with
  | PNone => false
  | PFloat _ | PInt _ | PBool _ => true
  | PStr s =>
      match PyNum.float_of_string s with
      | Some _ => true
      | None => false
      end
  | _ => false
  end.

Definition could_be_boolean (val : pyval) : bool :=
  match val with
  | PNone => false
  | PBool _ => true
  | PStr s =>
      let l := PyStr.lower s in
      (String.eqb l "true" || String.eqb l "1"
       || String.eqb l "false" || String.eqb l "0")%bool
  | PInt n => ((n =? 0) || (n =? 1))%bool
  | _ => false
  end.

Definition parse_boolean (field : pyval) : result pyval :=
  if could_be_boolean field then
    if could_be_int field then
      n <- Py.int field ;; Ok (PBool (negb (n =? 0)))
    else
      match field with
      | PStr s =>
          if String.eqb (PyStr.lower s) "true" then Ok (PBool true)
          else if String.eqb (PyStr.lower s) "false" then Ok (PBool false)
          else Ok (PBool (Py.truthy field))
      | _ => Ok (PBool (Py.truthy field))
      end
  else Ok PNone.

(** [Record.sanitize_key(unmappedHeader)], as the two Migration variants
    write it: class [Record] has no attribute of that name, neither in
    its body nor inherited, so that the look-up raises [AttributeError]
    before anything is called. *)
Definition sanitize_key (key : string) : result string :=
  Raise (AttributeError "sanitize_key").

(** [map_header]: [provider_map] as the list of its keys with their
    [maps_to]; the look-up after the membership test is by the lowered
    header itself. *)
Fixpoint assoc (m : list (string * string)) (k : string) : option string :=
  match m with
  | [] => None
  | (k', v) :: r => if String.eqb k' k then Some v else assoc r k
  end.

Definition map_header (provider_map : list (string * string))
           (header : string) : result (option string) :=
  let h := PyStr.lower header in
  if existsb (fun k => String.eqb (PyStr.lower k) h) (map fst provider_map)
  then match assoc provider_map h with
       | Some maps_to => Ok (Some maps_to)
       | None => Raise (KeyError h)
       end
  else Ok None.

Section Strptime.

(** [datetime.strptime(val, fmt)] on two strings; [None] stands for
    its [ValueError]. *)
Variable strptime : string -> string -> option datetime.

Definition py_strptime (val : pyval) (fmt : string) : result datetime :=
  match val with
  | PStr s =>
      match strptime s fmt with
      | Some d => Ok d
      | None => Raise ValueError
      end
  | _ => Raise TypeError
  end.

Definition could_be_datetime (val : pyval) (fmt : option string) : bool :=
  match val, fmt with
  | PNone, _ | _, None => false
  | PDatetime _, _ => true
  | PStr s, Some f =>
      if (is_empty_str val || PyStr.blank f)%bool then false
      else match strptime s f with
           | Some _ => true
           | None => false
           end
  | _, _ => false
  end.

(** [set_field_by_schema]: the field mapping after the call, or the
    exception that leaves it. *)
Definition set_field_by_schema (s : schema) (fields : ODict.t)
           (header : string) (field : pyval) : result ODict.t :=
  match schema_get s header with
  | None =>
      if settings._DISABLE_SCHEMA_MATCH then Ok fields
      else Raise (InvalidRecordProperty
                    ("Record schema does not have the property "
                       ++ PyStr.quote ++ header ++ PyStr.quote))
  | Some r =>
      let data_type := PyStr.lower (r_type r) in
      if String.eqb data_type "string" then
        if is_empty_str field then Ok (ODict.set fields header PNone)
        else match field with
             | PStr "?" => Ok (ODict.set fields header PNone)
             | _ => Ok (ODict.set fields header field)
             end
      else if String.eqb data_type "integer" then
        if could_be_int field then
          n <- Py.int field ;; Ok (ODict.set fields header (PInt n))
        else Ok (ODict.set fields header PNone)
      else if String.eqb data_type "datetime" then
        match r_datetime_format r with
        | None => Raise (KeyError "datetime_format")
        | Some written =>
            let datetime_format :=
              match written with
              | None => settings._STRFTIME_FORMAT
              | Some f => f
              end in
            if could_be_datetime field (Some datetime_format) then
              d <- py_strptime field datetime_format ;;
              Ok (ODict.set fields header (PDatetime d))
            else Ok (ODict.set fields header PNone)
        end
      else if String.eqb data_type "number" then
        if could_be_number field then
          f <- Py.float field ;; Ok (ODict.set fields header (PFloat f))
        else Ok (ODict.set fields header PNone)
      else if String.eqb data_type "float" then
        if could_be_float field then
          f <- Py.float field ;; Ok (ODict.set fields header (PFloat f))
        else Ok (ODict.set fields header PNone)
      else if String.eqb data_type "boolean" then
        b <- parse_boolean field ;; Ok (ODict.set fields header b)
      else Ok fields
  end.

End Strptime.

End Record.

(* ================================================================== *)
(** * The part of the [datetime] module that [gen_date] uses *)
(* ================================================================== *)

Module PyDatetime.

Definition MINYEAR : Z := 1.
Definition MAXYEAR : Z := 9999.
Definition MAXORDINAL : Z := 3652059.

Definition is_leap (y : Z) : bool :=
  ((y mod 4 =? 0) && (negb (y mod 100 =? 0) || (y mod 400 =? 0)))%bool.

Definition days_before_year (y : Z) : Z :=
  let p := y - 1 in p * 365 + p / 4 - p / 100 + p / 400.

Definition days_in_month (y m : Z) : Z :=
  if m =? 2 then (if is_leap y then 29 else 28)
  else if ((m =? 4) || (m =? 6) || (m =? 9) || (m =? 11))%bool then 30
  else 31.

Fixpoint days_before_month_aux (y : Z) (k : nat) : Z :=
  match k with
  | O => 0
  | S k' => days_before_month_aux y k' + days_in_month y (Z.of_nat k)
  end.

Definition days_before_month (y m : Z) : Z :=
  days_before_month_aux y (Z.to_nat (m - 1)).

Definition ymd2ord (y m d : Z) : Z :=
  days_before_year y + days_before_month y m + d.

(** The integer arguments of the constructor are read as C [int]s. *)
Definition as_c_int (v : pyval) : result Z :=
  match v with
  | PInt n =>
      if ((- PyNum.c_int_max - 1 <=? n) && (n <=? PyNum.c_int_max))%bool
      then Ok n else Raise OverflowError
  | PBool b => Ok (if b then 1 else 0)
  | _ => Raise TypeError
  end.

(** [datetime(year, month, day)] *)
Definition new (year : pyval) (month day : Z) : result datetime :=
  y <- as_c_int year ;;
  if ((MINYEAR <=? y) && (y <=? MAXYEAR) && (1 <=? month) && (month <=? 12)
      && (1 <=? day) && (day <=? days_in_month y month))%bool
  then Ok (mk_datetime (ymd2ord y month day) 0)
  else Raise ValueError.

(** [timedelta(days=n)], as its number of days. *)
Definition timedelta_days (n : Z) : result Z :=
  if Z.abs n <=? 999999999 then Ok n else Raise OverflowError.

(** [d + timedelta] *)
Definition add (d : datetime) (delta_days : Z) : result datetime :=
  let o := dt_ordinal d + delta_days in
  if ((1 <=? o) && (o <=? MAXORDINAL))%bool
  then Ok (mk_datetime o (dt_micros d))
  else Raise OverflowError.

End PyDatetime.

(* ================================================================== *)
(** * Record objects *)
(* ================================================================== *)

(** The three record classes, named as [settings._TYPES] names them. *)
Inductive record_class : Type := Taxonomy | Checklist | Core.

(** [type(record).__name__] *)
Definition class_name (c : record_class) : string :=
  match c with
  | Taxonomy => "TaxonomyRecord"
  | Checklist => "MigrationChecklistRecord"
  | Core => "MigrationCoreRecord"
  end.

(** The state of a record object.  [errors] is [validator.errors]: empty
    until [validate] has run, then the mapping the last run left. *)
Record record : Type := mk_record {
  cls : record_class;
  header_row : option (list string);
  provider_map : list (string * string);
  row_count : Z;
  _id : pyval;
  fields : ODict.t;
  errors : ODict.t
}.

Definition with_id (self : record) (v : pyval) : record :=
  mk_record (cls self) (header_row self) (provider_map self) (row_count self)
            v (fields self) (errors self).

Definition with_fields (self : record) (f : ODict.t) : record :=
  mk_record (cls self) (header_row self) (provider_map self) (row_count self)
            (_id self) f (errors self).

Definition with_errors (self : record) (e : ODict.t) : record :=
  mk_record (cls self) (header_row self) (provider_map self) (row_count self)
            (_id self) (fields self) e.

(** The constructors [__init__]: a fresh record with no identifier, no
    field and a validator that has not run.  [TaxonomyRecord.__init__]
    raises when [provider_map] is [None]; the [map] property of a provider
    type is never [None], so construction succeeds. *)
Definition init (c : record_class) (header_row : option (list string))
           (provider_map : list (string * string)) (row_count : Z)
  : result record :=
  Ok (mk_record c header_row provider_map row_count PNone ODict.empty []).

(** The loop [for field in row] of the three [create] methods: the header
    of a column is [self.header_row[position]], which raises [IndexError]
    past the end of the header row. *)
Section ForFields.
Context {S : Type}.
Variable body : string -> string -> S -> result S.

Fixpoint for_fields (header_row : list string) (row : list string)
         (position : nat) (st : S) : result S :=
  match row with
  | [] => Ok st
  | field :: rest =>
      match nth_error header_row position with
      | None => Raise IndexError
      | Some unmappedHeader =>
          st' <- body unmappedHeader field st ;;
          for_fields header_row rest (Datatypes.S position) st'
      end
  end.
End ForFields.

Definition plain (ty : string) (nullable required : bool) : rule :=
  Rule ty nullable required None None.

Definition identity_map (keys : list string) : list (string * string) :=
  map (fun k => (k, k)) keys.

(** The two checks that open every [create]. *)
Definition header_row_of (self : record) : result (list string) :=
  match header_row self with
  | None =>
      Raise (InvalidRecordProperty
               ("Record " ++ PyStr.quote ++ "header_row" ++ PyStr.quote
                  ++ " property is None"))
  | Some hs => Ok hs
  end.

(* ================================================================== *)
(** * [records/taxonomy.py] *)
(* ================================================================== *)

Module TaxonomyType.

Definition map : list (string * string) :=
  identity_map
    ["sci_name"; "taxon_order"; "primary_com_name"; "category";
     "order_name"; "family_name"; "subfamily_name"; "genus_name";
     "species_name"].

Definition data_position : Z := 1.

End TaxonomyType.

Module TaxonomyRecord.

Definition schema : schema :=
  [ ("taxon_order", plain "number" true false);
    ("primary_com_name", plain "string" false true);
    ("category", plain "string" true false);
    ("order_name", plain "string" true false);
    ("family_name", plain "string" true false);
    ("subfamily_name", plain "string" true false);
    ("genus_name", plain "string" true false);
    ("species_name", plain "string" true false) ].

(** [Validator(self.schema)] *)
Definition allow_unknown : bool := false.

Section Create.
Variable strptime : string -> string -> option datetime.

Definition body (unmappedHeader field : string) (self : record)
  : result record :=
  header <- Record.map_header (provider_map self) unmappedHeader ;;
  match header with
  | None => Ok self
  | Some h =>
      if Record.is_empty_str (PStr h) then Ok self
      else if String.eqb (PyStr.lower h) "sci_name" then
        if negb (Record.is_empty_str (PStr field))
        then Ok (with_id self (PStr (PyStr.lower field)))
        else Ok self
      else
        f <- Record.set_field_by_schema strptime schema (fields self)
                                        h (PStr field) ;;
        Ok (with_fields self f)
  end.

Definition create (self : record) (row : list string) : result record :=
  hs <- header_row_of self ;;
  if negb (Nat.eqb (List.length hs) (List.length row)) then
    Raise (InvalidRecordLength "Record length does not equal header_row")
  else for_fields body hs row 0%nat self.

End Create.

End TaxonomyRecord.

(* ================================================================== *)
(** * [records/migration.py] *)
(* ================================================================== *)

Module MigrationChecklistType.

Definition map : list (string * string) :=
  identity_map
    ["sampling_event_id"; "loc_id"; "latitude"; "longitude"; "year";
     "month"; "day"; "time"; "country"; "state_province"; "county";
     "count_type"; "effort_hrs"; "effort_distance_km"; "effort_area_ha";
     "observer_id"; "number_observers"; "group_id";
     "primary_checklist_flag"].

Definition data_position : Z := 1.

End MigrationChecklistType.

Module MigrationChecklistRecord.

Definition schema : schema :=
  [ ("loc_id", plain "string" true false);
    ("loc", Rule "dict" false false
                 (Some [ ("type", plain "string" false false);
                         ("coordinates", plain "list" false false) ])
                 None);
    ("year", plain "integer" false true);
    ("month", plain "integer" false true);
    ("day", plain "integer" false true);
    ("time", plain "number" true false);
    ("country", plain "string" true false);
    ("state_province", plain "string" true false);
    ("county", plain "string" true false);
    ("count_type", plain "string" true false);
    ("effort_hrs", plain "number" true false);
    ("effort_distance_km", plain "number" true false);
    ("effort_area_ha", plain "number" true false);
    ("observer_id", plain "string" true false);
    ("number_observers", plain "integer" true false);
    ("group_id", plain "string" true false);
    ("primary_checklist_flag", plain "boolean" true false) ].

(** [Validator(self.schema, transparent_schema_rules=True,
    allow_unknown=True)] *)
Definition allow_unknown : bool := true.

(** The pending pair [[longitude, latitude]], each [None] until a
    column sets it. *)
Definition coordinates : Type := option PyNum.float * option PyNum.float.

Definition is_valid_coordinate_pair (c : coordinates) : bool :=
  match c with
  | (Some longitude, Some latitude) =>
      if (PyNum.flt latitude (PyNum.float_of_Z (-90))
          || PyNum.fgt latitude (PyNum.float_of_Z 90))%bool then false
      else if (PyNum.flt longitude (PyNum.float_of_Z (-180))
               || PyNum.fgt longitude (PyNum.float_of_Z 180))%bool then false
      else true
  | _ => false
  end.

Definition coordinate_value (c : option PyNum.float) : pyval :=
  match c with
  | Some f => PFloat f
  | None => PNone
  end.

Definition point (c : coordinates) : pyval :=
  PDict [ ("type", PStr "Point");
          ("coordinates",
           PList [coordinate_value (fst c); coordinate_value (snd c)]) ].

(** [self.fields[key]] *)
Definition getitem (d : ODict.t) (key : string) : result pyval :=
  match ODict.get d key with
  | Some v => Ok v
  | None => Raise (KeyError key)
  end.

(** [n - 1] on an integer. *)
Definition minus_one (v : pyval) : result Z :=
  match v with
  | PInt n => Ok (n - 1)
  | PBool b => Ok ((if b then 1 else 0) - 1)
  | _ => Raise TypeError
  end.

(** [gen_date]: the value it returns and the record with the errors
    its validation run left.  Only [ValueError] is caught. *)
Definition gen_date (self : record) : result (pyval * record) :=
  if Nat.eqb (List.length (fields self)) 0 then Ok (PNone, self)
  else
    let errs := Cerberus.errors allow_unknown schema (fields self) in
    let self' := with_errors self errs in
    if negb (Cerberus.is_empty errs) then Ok (PNone, self')
    else
      let attempt :=
        year <- getitem (fields self) "year" ;;
        theYear <- PyDatetime.new year 1 1 ;;
        day <- getitem (fields self) "day" ;;
        n <- minus_one day ;;
        delta <- PyDatetime.timedelta_days n ;;
        date <- PyDatetime.add theYear delta ;;
        Ok (PDatetime date) in
      match attempt with
      | Raise ValueError =>
          _ <- getitem (fields self) "year" ;;
          _ <- getitem (fields self) "day" ;;
          Ok (PNone, self')
      | Raise e => Raise e
      | Ok date => Ok (date, self')
      end.

Section Create.
Variable strptime : string -> string -> option datetime.

Definition body (unmappedHeader field : string)
           (st : record * coordinates) : result (record * coordinates) :=
  let (self, coords) := st in
  header <- Record.map_header (provider_map self) unmappedHeader ;;
  match header with
  | None =>
      sanitized <- Record.sanitize_key unmappedHeader ;;
      if Record.could_be_int (PStr field) then
        value <- Py.int (PStr field) ;;
        if 0 <? value then
          n <- Py.int (PStr field) ;;
          Ok (with_fields self (ODict.set (fields self) sanitized (PInt n)),
              coords)
        else Ok st
      else Ok st
  | Some h =>
      if Record.is_empty_str (PStr h) then Ok st
      else if String.eqb (PyStr.lower h) "sampling_event_id" then
        if negb (Record.is_empty_str (PStr field))
        then Ok (with_id self (PStr field), coords)
        else Ok st
      else if String.eqb (PyStr.lower h) "longitude" then
        if Record.could_be_float (PStr field) then
          f <- Py.float (PStr field) ;; Ok (self, (Some f, snd coords))
        else Ok st
      else if String.eqb (PyStr.lower h) "latitude" then
        if Record.could_be_float (PStr field) then
          f <- Py.float (PStr field) ;; Ok (self, (fst coords, Some f))
        else Ok st
      else
        f <- Record.set_field_by_schema strptime schema (fields self)
                                        h (PStr field) ;;
        Ok (with_fields self f, coords)
  end.

Definition create (self : record) (row : list string) : result record :=
  hs <- header_row_of self ;;
  st <- for_fields body hs row 0%nat (self, (None, None)) ;;
  let (self1, coords) := st in
  let loc := if is_valid_coordinate_pair coords then point coords
             else PNone in
  let self2 := with_fields self1 (ODict.set (fields self1) "loc" loc) in
  dr <- gen_date self2 ;;
  let (date, self3) := dr in
  Ok (with_fields self3 (ODict.set (fields self3) "date" date)).

End Create.

End MigrationChecklistRecord.

Module MigrationCoreType.

Definition map : list (string * string) :=
  identity_map
    ["sampling_event_id"; "loc_id"; "pop00_sqmi"; "housing_density";
     "housing_percent_vacant"; "elev_gt"; "elev_ned"; "bcr";
     "bailey_ecoregion"; "omernik_l3_ecoregion"; "caus_temp_avg";
     "caus_temp_min"; "caus_temp_max"; "caus_prec"; "caus_snow"].

Definition data_position : Z := 1.

End MigrationCoreType.

Module MigrationCoreRecord.

Definition schema : schema :=
  [ ("loc_id", plain "string" true false);
    ("pop00_sqmi", plain "number" true false);
    ("housing_density", plain "number" true false);
    ("housing_percent_vacant", plain "number" true false);
    ("elev_gt", plain "integer" true false);
    ("elev_ned", plain "number" true false);
    ("bcr", plain "integer" true false);
    ("bailey_ecoregion", plain "string" true false);
    ("omernik_l3_ecoregion", plain "integer" true false);
    ("caus_temp_avg", plain "integer" true false);
    ("caus_temp_min", plain "integer" true false);
    ("caus_temp_max", plain "integer" true false);
    ("caus_prec", plain "integer" true false);
    ("caus_snow", plain "integer" true false) ].

Definition allow_unknown : bool := true.

Section Create.
Variable strptime : string -> string -> option datetime.

Definition body (unmappedHeader field : string) (self : record)
  : result record :=
  header <- Record.map_header (provider_map self) unmappedHeader ;;
  match header with
  | None =>
      sanitized <- Record.sanitize_key unmappedHeader ;;
      if Record.could_be_number (PStr field) then
        f <- Py.float (PStr field) ;;
        Ok (with_fields self (ODict.set (fields self) sanitized (PFloat f)))
      else
        Ok (with_fields self (ODict.set (fields self) sanitized PNone))
  | Some h =>
      if Record.is_empty_str (PStr h) then Ok self
      else if String.eqb (PyStr.lower h) "sampling_event_id" then
        if negb (Record.is_empty_str (PStr field))
        then Ok (with_id self (PStr field))
        else Ok self
      else
        f <- Record.set_field_by_schema strptime schema (fields self)
                                        h (PStr field) ;;
        Ok (with_fields self f)
  end.

Definition create (self : record) (row : list string) : result record :=
  hs <- header_row_of self ;;
  for_fields body hs row 0%nat self.

End Create.

End MigrationCoreRecord.

(* ================================================================== *)
(** * Methods of [Record] that go through the subclass *)
(* ================================================================== *)

Definition schema_of (c : record_class) : schema :=
  match c with
  | Taxonomy => TaxonomyRecord.schema
  | Checklist => MigrationChecklistRecord.schema
  | Core => MigrationCoreRecord.schema
  end.

Definition allow_unknown_of (c : record_class) : bool :=
  match c with
  | Taxonomy => TaxonomyRecord.allow_unknown
  | Checklist => MigrationChecklistRecord.allow_unknown
  | Core => MigrationCoreRecord.allow_unknown
  end.

(** [provider_type.map] and [provider_type.data_position] *)
Definition map_of (c : record_class) : list (string * string) :=
  match c with
  | Taxonomy => TaxonomyType.map
  | Checklist => MigrationChecklistType.map
  | Core => MigrationCoreType.map
  end.

Definition data_position_of (c : record_class) : Z :=
  match c with
  | Taxonomy => TaxonomyType.data_position
  | Checklist => MigrationChecklistType.data_position
  | Core => MigrationCoreType.data_position
  end.

(** [Record.validate]: the answer and the record with the errors the
    validator is left with. *)
Definition validate (self : record) : bool * record :=
  match _id self with
  | PNone => (false, self)
  | _ =>
      let errs := Cerberus.errors (allow_unknown_of (cls self))
                                  (schema_of (cls self)) (fields self) in
      (Cerberus.is_empty errs, with_errors self errs)
  end.

(** [records/record.py]: class [InvalidRecord] *)
Module InvalidRecord.

Definition schema : schema :=
  [ ("Date", plain "datetime" false true);
    ("Errors", plain "dict" false true);
    ("RecordType", plain "string" false true);
    ("RowNum", plain "integer" true false) ].

(** An invalid record is its field mapping. *)
Definition t : Type := ODict.t.

(** [__init__], with the reading of [datetime.utcnow()] as [now]. *)
Definition init (now : datetime) (errors record_type row_num : pyval) : t :=
  ODict.set
    (ODict.set
       (ODict.set (ODict.set ODict.empty "Date" (PDatetime now))
                  "Errors" errors)
       "RecordType" record_type)
    "RowNum" row_num.

(** [validate], with [Validator(self.schema)] *)
Definition validate (self : t) : bool := Cerberus.validate false schema self.

End InvalidRecord.

(* ================================================================== *)
(** * [tools/birt_file_reader.py] *)
(* ================================================================== *)

Module BirtFileReader.

(** One element of a chunk, without the connection. *)
Record args : Type := mk_args {
  a_row_count : Z;
  a_row : list string;
  a_verbose : bool;
  a_provider_type : record_class;
  a_header_row : option (list string);
  a_end_of_data : Z
}.

(** What [process_row] returns: [None] from a bare [return], or a list
    of two elements. *)
Inductive returned : Type :=
| ReturnNone
| ReturnList (valid : option record) (invalid : option InvalidRecord.t).

(** [any(row)] *)
Definition any (row : list string) : bool :=
  existsb (fun s => Py.truthy (PStr s)) row.

Section Reader.

Variable strptime : string -> string -> option datetime.

(** [json.dumps(fields, default=json_util.default)] *)
Variable json_dumps : ODict.t -> string.

(** The reading of [datetime.utcnow()] while the row of a given
    number is processed. *)
Variable utcnow : Z -> datetime.

(** [record.create(row)], by class. *)
Definition create (self : record) (row : list string) : result record :=
  match cls self with
  | Taxonomy => TaxonomyRecord.create strptime self row
  | Checklist => MigrationChecklistRecord.create strptime self row
  | Core => MigrationCoreRecord.create strptime self row
  end.

(** [Record.to_json] and [Record.validation_errors]: the mapping
    returned is the validator's own, so the snapshot is added to it. *)
Definition to_json (self : record) : string := json_dumps (fields self).

Definition validation_errors (self : record) : ODict.t * record :=
  let errs := errors self in
  if Nat.ltb 0 (List.length (ODict.keys errs)) then
    let errs' := ODict.set errs "fields" (PStr (to_json self)) in
    (errs', with_errors self errs')
  else (errs, self).

(** The two custom exceptions are the ones the handlers name. *)
Definition handled (e : exn) : bool :=
  match e with
  | InvalidRecordProperty _ | InvalidRecordLength _ => true
  | _ => false
  end.

Definition process_row (a : args) : result returned :=
  let row := a_row a in
  let provider_type := a_provider_type a in
  if ((data_position_of provider_type <=? a_row_count a)
      && negb (a_row_count a =? a_end_of_data a))%bool then
    if any row then
      match init provider_type (a_header_row a) (map_of provider_type)
                 (a_row_count a) with
      | Raise e => if handled e then Ok ReturnNone else Raise e
      | Ok record0 =>
          match create record0 row with
          | Raise e => if handled e then Ok ReturnNone else Raise e
          | Ok record1 =>
              let (valid, record2) := validate record1 in
              if valid then Ok (ReturnList (Some record2) None)
              else
                let (errs, record3) := validation_errors record2 in
                let invalid_record :=
                  InvalidRecord.init (utcnow (a_row_count a)) (PDict errs)
                    (PStr (class_name (cls record3)))
                    (PInt (row_count record3)) in
                if InvalidRecord.validate invalid_record
                then Ok (ReturnList None (Some invalid_record))
                else Ok (ReturnList None None)
          end
      end
    else Ok (ReturnList None None)
  else Ok (ReturnList None None).

Definition append_some {A : Type} (l : list A) (o : option A) : list A :=
  match o with
  | Some x => app l [x]
  | None => l
  end.

(** The loop of [syncprocess_chunk]; unpacking [None] into
    [valid, invalid] raises [TypeError]. *)
Fixpoint chunk_loop (chunk : list args) (valid_records : list record)
         (invalid_records : list InvalidRecord.t)
  : result (list record * list InvalidRecord.t) :=
  match chunk with
  | [] => Ok (valid_records, invalid_records)
  | data :: rest =>
      ret <- process_row data ;;
      match ret with
      | ReturnNone => Raise TypeError
      | ReturnList valid invalid =>
          chunk_loop rest (append_some valid_records valid)
                     (append_some invalid_records invalid)
      end
  end.

(** [syncprocess_chunk]: the two batches that [bulk_upsert] is called
    with, or the exception that ends the call before the flush. *)
Definition syncprocess_chunk (chunk : list args)
  : result (list record * list InvalidRecord.t) :=
  chunk_loop chunk [] [].

End Reader.

(** [provider_type.header_position] and [provider_type.num_empty_rows_eod]:
    the three provider types set both to 0. *)
Definition header_position_of (c : record_class) : Z :=
  match c with
  | Taxonomy => 0
  | Checklist => 0
  | Core => 0
  end.

Definition num_empty_rows_eod_of (c : record_class) : Z :=
  match c with
  | Taxonomy => 0
  | Checklist => 0
  | Core => 0
  end.

(** What ends [find_header_and_end_of_data] early: [InvalidFileFormat],
    whose message names the position of the empty header, and the
    [NameError] of the statement that logs [empty_row_count], a name that
    is bound nowhere (the counter is [self.empty_row_count]). *)
Inductive scan_error : Type :=
| InvalidFileFormat (position : Z)
| NameError (name : string).

(** [field.strip().lower()] *)
Definition normalize (field : string) : string :=
  PyStr.lower (PyStr.strip field).

(** [any(field.strip() for field in line)] *)
Definition any_stripped (line : list string) : bool :=
  existsb (fun field => Py.truthy (PStr (PyStr.strip field))) line.

(** The loop of [find_header_and_end_of_data] over the lines the reader
    yields: [self.header_row] and [row_count] as they stand, then what the
    method leaves in [self.header_row] and [self.end_of_data].  The lines
    after the logging statement in the branch of [num_empty_rows_eod] are
    never reached. *)
Fixpoint scan_loop (header_position num_empty_rows_eod : Z)
         (lines : list (list string)) (row_number : Z)
         (header_row : list string) (row_count : Z)
  : scan_error + (list string * Z) :=
  match lines with
  | [] => inr (header_row, row_count)
  | line :: rest =>
      let stored :=
        if row_number =? header_position then
          if any_stripped line
          then inr (app header_row (map normalize line))
          else inl (InvalidFileFormat row_number)
        else inr header_row in
      match stored with
      | inl e => inl e
      | inr header_row' =>
          if 0 <? num_empty_rows_eod then inl (NameError "empty_row_count")
          else scan_loop header_position num_empty_rows_eod rest
                         (row_number + 1) header_row' (row_count + 1)
      end
  end.

Definition find_header_and_end_of_data (provider_type : record_class)
           (lines : list (list string)) : scan_error + (list string * Z) :=
  scan_loop (header_position_of provider_type)
            (num_empty_rows_eod_of provider_type) lines 0 [] 0.

(** The loop of [gen_chunks]: the chunks in the order they are yielded,
    each with the content it has when it is yielded.  (The generator
    yields one list object and empties it when it is resumed; [process]
    consumes each chunk before it resumes the generator.) *)
Fixpoint gen_loop (chunk_size : Z) (verbose : bool)
         (provider_type : record_class) (header_row : list string)
         (end_of_data : Z) (lines : list (list string)) (row_number : Z)
         (chunk : list args) : list (list args) :=
  match lines with
  | [] => [chunk]
  | row :: rest =>
      let data := mk_args row_number row verbose provider_type
                          (Some header_row) end_of_data in
      if ((row_number mod chunk_size =? 0) && (0 <? row_number))%bool
      then chunk :: gen_loop chunk_size verbose provider_type header_row
                             end_of_data rest (row_number + 1) [data]
      else gen_loop chunk_size verbose provider_type header_row end_of_data
                    rest (row_number + 1) (app chunk [data])
  end.

Definition gen_chunks (lines : list (list string)) (verbose : bool)
           (provider_type : record_class) (header_row : list string)
           (end_of_data : Z) : list (list args) :=
  gen_loop settings._CHUNK_SIZE verbose provider_type header_row end_of_data
           lines 0 [].

(** One call of [BirtFileReader.bulk_upsert]: the valid and the invalid
    records it hands to the connection. *)
Definition flush : Type := (list record * list InvalidRecord.t)%type.

(** How [process] ends: after all chunks, with the flushes made; in the
    scan, before any row is read again; or in a chunk, with the flushes
    of the chunks before it. *)
Inductive run : Type :=
| Completed (flushes : list flush)
| ScanFailed (e : scan_error)
| ChunkFailed (flushes : list flush) (e : exn).

Section Process.

Variable strptime : string -> string -> option datetime.
Variable json_dumps : ODict.t -> string.
Variable utcnow : Z -> datetime.

(** The loop [for chunk in gen_chunks(...)] of [process]. *)
Fixpoint run_chunks (chunks : list (list args)) (flushes : list flush) : run :=
  match chunks with
  | [] => Completed flushes
  | chunk :: rest =>
      match syncprocess_chunk strptime json_dumps utcnow chunk with
      | Ok f => run_chunks rest (app flushes [f])
      | Raise e => ChunkFailed flushes e
      end
  end.

(** [process], on the lines of the file. *)
Definition process (provider_type : record_class) (verbose : bool)
           (lines : list (list string)) : run :=
  match find_header_and_end_of_data provider_type lines with
  | inl e => ScanFailed e
  | inr (header_row, end_of_data) =>
      run_chunks (gen_chunks lines verbose provider_type header_row
                             end_of_data) []
  end.

End Process.

End BirtFileReader.

(* ================================================================== *)
(** * Concrete inputs *)
(* ================================================================== *)

(** The rows and the stand-ins for the library calls that the closed
    examples are run with.  Every general theorem below is stated for an
    arbitrary [strptime], [json_dumps] and [utcnow]. *)
Module Samples.

Definition months : list string :=
  ["jan"; "feb"; "mar"; "apr"; "may"; "jun";
   "jul"; "aug"; "sep"; "oct"; "nov"; "dec"].

Fixpoint index_of (l : list string) (s : string) (i : Z) : option Z :=
  match l with
  | [] => None
  | x :: r => if String.eqb x s then Some i else index_of r s (i + 1)
  end.

(** [datetime.strptime] for the format ["%b %Y"], the default of
    [settings]: a month abbreviation in any case, white space, four
    digits.  Any other format is answered like a value that does not
    match. *)
Definition strptime (val fmt : string) : option datetime :=
  if String.eqb fmt settings._STRFTIME_FORMAT then
    match index_of months (PyStr.lower (substring 0 3 val)) 1 with
    | Some m =>
        let rest := substring 3 (String.length val - 3) val in
        match rest with
        | String c _ =>
            if PyStr.is_space c then
              match PyStr.digits (PyStr.lstrip rest) 0 0 with
              | (y, 4, EmptyString) =>
                  if 1 <=? y then Some (mk_datetime (PyDatetime.ymd2ord y m 1) 0)
                  else None
              | _ => None
              end
            else None
        | EmptyString => None
        end
    | None => None
    end
  else None.

(** A rendering that lists the keys only. *)
Definition json_dumps (d : ODict.t) : string :=
  "{" ++ String.concat ", " (ODict.keys d) ++ "}".

(** 2016-01-01 for every row. *)
Definition utcnow (row_count : Z) : datetime :=
  mk_datetime (PyDatetime.ymd2ord 2016 1 1) 0.

Definition taxonomy_header : option (list string) :=
  Some ["sci_name"; "primary_com_name"].

Definition taxonomy_args (n : Z) (row : list string) : BirtFileReader.args :=
  BirtFileReader.mk_args n row false Taxonomy taxonomy_header 100.

Definition checklist_header : option (list string) :=
  Some ["sampling_event_id"; "longitude"; "latitude"; "year"; "month";
        "day"; "country"].

Definition checklist_args (row : list string) : BirtFileReader.args :=
  BirtFileReader.mk_args 1 row false Checklist checklist_header 100.

Definition checklist_record : record :=
  mk_record Checklist checklist_header MigrationChecklistType.map 1
            PNone ODict.empty [].

Definition core_header : option (list string) :=
  Some ["sampling_event_id"; "loc_id"; "pop00_sqmi"].

Definition core_args (row : list string) : BirtFileReader.args :=
  BirtFileReader.mk_args 1 row false Core core_header 100.

Definition core_record : record :=
  mk_record Core core_header MigrationCoreType.map 1 PNone ODict.empty [].

(** A checklist header with three species columns, and a core header
    with two land-cover columns. *)
Definition wide_checklist_header : option (list string) :=
  Some ["sampling_event_id"; "year"; "zenaida macroura"; "turdus.migratorius";
        "passer domesticus"].

Definition wide_checklist_record : record :=
  mk_record Checklist wide_checklist_header MigrationChecklistType.map 1
            PNone ODict.empty [].

Definition wide_checklist_row : list string := ["S1"; "2021"; "x"; "3"; "0"].

Definition wide_core_header : option (list string) :=
  Some ["sampling_event_id"; "nlcd2011_fs_c11"; "nlcd2011-fs-c12"].

Definition wide_core_record : record :=
  mk_record Core wide_core_header MigrationCoreType.map 1 PNone ODict.empty [].

Definition wide_core_row : list string := ["S1"; "0.25"; "n/a"].

(** [year=2021, day=400], the example of the specification. *)
Definition row_day_400 : list string :=
  ["S1"; "-70.5"; "40"; "2021"; "2"; "400"; "US"].

(** The same day in the last year of the calendar. *)
Definition row_year_9999 : list string :=
  ["S1"; "-70.5"; "40"; "9999"; "2"; "400"; "US"].

(** A latitude cell that reads [nan]. *)
Definition row_latitude_nan : list string :=
  ["S1"; "-70.5"; "nan"; "2021"; "2"; "15"; "US"].

(** One cell more than the header has columns. *)
Definition checklist_row_too_long : list string :=
  ["S1"; "-70.5"; "40"; "2021"; "2"; "15"; "US"; "3"].

Definition core_row_too_long : list string :=
  ["S1"; "L1"; "0.25"; "0.5"].

(** [longitude=200, latitude=40], the other fields valid. *)
Definition row_longitude_200 : list string :=
  ["S1"; "200"; "40"; "2021"; "2"; "15"; "US"].

End Samples.

(* ================================================================== *)
(** * Vocabulary of the statements *)
(* ================================================================== *)

(** The part of a record that no column changes. *)
Definition same_object (a b : record) : Prop :=
  cls b = cls a /\ header_row b = header_row a
  /\ provider_map b = provider_map a /\ row_count b = row_count a.

(** A row in the data range with a cell that is not empty. *)
Definition in_range (a : BirtFileReader.args) : Prop :=
  (data_position_of (BirtFileReader.a_provider_type a)
     <=? BirtFileReader.a_row_count a) = true
  /\ (BirtFileReader.a_row_count a =? BirtFileReader.a_end_of_data a) = false
  /\ BirtFileReader.any (BirtFileReader.a_row a) = true.

(** A header without a canonical name in the provider map of the
    class. *)
Definition unmapped (c : record_class) (h : string) : bool :=
  match Record.map_header (map_of c) h with
  | Ok None => true
  | _ => false
  end.

(** The number of columns that the loop of [create] of a Migration
    variant gets through: those before the first header without a
    canonical name, or all the columns of the header row. *)
Fixpoint limit (c : record_class) (hs : list string) : nat :=
  match hs with
  | [] => 0
  | h :: rest => if unmapped c h then 0 else Datatypes.S (limit c rest)
  end.

(** What the loop raises on the cell after these columns: the
    [AttributeError] of the first column without a canonical name, or,
    when the header row has none, the [IndexError] of a cell past the
    header row. *)
Definition overrun (c : record_class) (hs : list string) : exn :=
  if Nat.ltb (limit c hs) (List.length hs)
  then AttributeError "sanitize_key" else IndexError.

(** A row with a cell that is not empty and with more cells than the
    loop gets through. *)
Definition beyond (c : record_class) (hs row : list string) : bool :=
  (BirtFileReader.any row && Nat.ltb (limit c hs) (List.length row))%bool.

(** Column [i] is the only one whose mapped header is [name]. *)
Definition only_header (provider_map : list (string * string))
           (hs row : list string) (i : nat) (name : string) : Prop :=
  forall j h, j <> i -> (j < List.length row)%nat ->
              nth_error hs j = Some h ->
              Record.map_header provider_map h <> Ok (Some name).

(** No field of the schema is declared of type datetime. *)
Definition no_datetime (s : schema) : Prop :=
  Forall (fun e => PyStr.lower (r_type (snd e)) <> "datetime") s.


(** The keys of a provider map are written in lower case. *)
Definition lower_case_keys (keys : list string) : Prop :=
  Forall (fun k => PyStr.lower k = k) keys.

(** The location field for a pending pair of coordinates. *)
Definition loc_of (c : MigrationChecklistRecord.coordinates) : pyval :=
  if MigrationChecklistRecord.is_valid_coordinate_pair c
  then MigrationChecklistRecord.point c else PNone.

(** Within a closed range, by the IEEE comparison; false on a NaN. *)
Definition within (lo hi : Z) (x : PyNum.float) : bool :=
  (PyNum.fle (PyNum.float_of_Z lo) x && PyNum.fle x (PyNum.float_of_Z hi))%bool.

(** What the schema of an invalid record asks of a field mapping: a
    date, a mapping of errors and a string as type tag, all three present
    and not null; a row number that is an integer or null when it is
    present (Cerberus 0.9 takes a boolean for an integer); and no field
    besides these four. *)
Definition invalid_record_accepted (f : ODict.t) : Prop :=
  (exists d, ODict.get f "Date" = Some (PDatetime d))
  /\ (exists e, ODict.get f "Errors" = Some (PDict e))
  /\ (exists t, ODict.get f "RecordType" = Some (PStr t))
  /\ (ODict.get f "RowNum" = None \/ ODict.get f "RowNum" = Some PNone
      \/ (exists n, ODict.get f "RowNum" = Some (PInt n))
      \/ (exists b, ODict.get f "RowNum" = Some (PBool b)))
  /\ (forall k, In k (ODict.keys f) ->
                In k ["Date"; "Errors"; "RecordType"; "RowNum"]).

(** The record that [process_row] constructs for a row. *)
Definition fresh (a : BirtFileReader.args) : record :=
  mk_record (BirtFileReader.a_provider_type a) (BirtFileReader.a_header_row a)
            (map_of (BirtFileReader.a_provider_type a))
            (BirtFileReader.a_row_count a) PNone ODict.empty [].

(** The rows of a file as [gen_chunks] numbers them, from [start]. *)
Fixpoint numbered (verbose : bool) (provider_type : record_class)
         (header_row : list string) (end_of_data : Z)
         (lines : list (list string)) (start : Z) : list BirtFileReader.args :=
  match lines with
  | [] => []
  | row :: rest =>
      BirtFileReader.mk_args start row verbose provider_type
                             (Some header_row) end_of_data
      :: numbered verbose provider_type header_row end_of_data rest (start + 1)
  end.

(** The row number an invalid record carries, -1 when it carries none. *)
Definition row_number_of (invalid : InvalidRecord.t) : Z :=
  match ODict.get invalid "RowNum" with
  | Some (PInt n) => n
  | _ => -1
  end.

(** The row numbers of the records of all the flushes of a run, in the
    order in which they were handed over. *)
Definition valid_rows (flushes : list BirtFileReader.flush) : list Z :=
  map row_count (List.concat (map fst flushes)).

Definition invalid_rows (flushes : list BirtFileReader.flush) : list Z :=
  map row_number_of (List.concat (map snd flushes)).

(** What a row adds to the two batches of its chunk. *)
Definition valid_of (ret : result BirtFileReader.returned) : list record :=
  match ret with
  | Ok (BirtFileReader.ReturnList (Some valid) _) => [valid]
  | _ => []
  end.

Definition invalid_of (ret : result BirtFileReader.returned)
  : list InvalidRecord.t :=
  match ret with
  | Ok (BirtFileReader.ReturnList _ (Some invalid)) => [invalid]
  | _ => []
  end.

(** The rows that the pending chunk of [gen_chunks] holds when row
    [row_number] is read: none at the start, and from 1 to [chunk_size]
    afterwards. *)
Definition pending (chunk_size row_number : Z)
           (chunk : list BirtFileReader.args) : Prop :=
  exists q, 0 <= q
            /\ row_number = q * chunk_size + Z.of_nat (List.length chunk)
            /\ Z.of_nat (List.length chunk) <= chunk_size
            /\ (0 < row_number -> (0 < List.length chunk)%nat).

(** An identifier that has been assigned: a string that is not blank. *)
Definition identified (v : pyval) : Prop :=
  exists s, v = PStr s /\ PyStr.blank s = false.

(** What [create] keeps of a record whose identifier was unset. *)
Definition created_from (self r : record) : Prop :=
  same_object self r /\ (_id r = PNone \/ identified (_id r)).

(** The header row that the scan of a file leaves. *)
Definition scanned_header (lines : list (list string)) : list string :=
  match lines with
  | [] => []
  | first :: _ => map BirtFileReader.normalize first
  end.

(** The rows of a file as [process] hands them to [process_row]. *)
Definition rows_of (provider_type : record_class) (verbose : bool)
           (lines : list (list string)) : list BirtFileReader.args :=
  numbered verbose provider_type (scanned_header lines)
           (Z.of_nat (List.length lines)) lines 0.

(** A row with a cell that is not empty whose length is not that of the
    header. *)
Definition misfit (header row : list string) : bool :=
  (BirtFileReader.any row
   && negb (Nat.eqb (List.length header) (List.length row)))%bool.

(** A taxonomy file of five rows: the header row, a row that is valid,
    an empty row, a row without common name and a row without scientific
    name; and one whose last row is a cell short. *)
Definition taxonomy_file : list (list string) :=
  [ ["SCI_NAME"; " Primary_Com_Name "];
    ["Turdus migratorius"; "American Robin"];
    [""; ""];
    ["Passer domesticus"; ""];
    [""; "Unknown"] ].

Definition ragged_taxonomy_file : list (list string) :=
  [ ["sci_name"; "primary_com_name"];
    ["Turdus migratorius"; "American Robin"];
    ["Passer domesticus"] ].

(** Every field that the schema of the class defines and the mapping
    holds is accepted by its rule. *)
Definition accepted (c : record_class) (fields : ODict.t) : Prop :=
  forall k r v,
    schema_get (schema_of c) k = Some r ->
    ODict.get fields k = Some v ->
    Cerberus.field_errors (allow_unknown_of c) r v = [].

(** The canonical name of the identifier column of a class, and the
    identifier that a cell of that column gives. *)
Definition id_header (c : record_class) : string :=
  match c with
  | Taxonomy => "sci_name"
  | Checklist => "sampling_event_id"
  | Core => "sampling_event_id"
  end.

Definition id_of (c : record_class) (cell : string) : pyval :=
  if PyStr.blank cell then PNone
  else match c with
       | Taxonomy => PStr (PyStr.lower cell)
       | Checklist => PStr cell
       | Core => PStr cell
       end.

(** Every field of the mapping is one that the schema of the class
    defines, and holds null or a value of the declared type. *)
Definition known_keys (c : record_class) (fields : ODict.t) : Prop :=
  forall k, In k (ODict.keys fields) -> schema_get (schema_of c) k <> None.

Definition conforming (c : record_class) (fields : ODict.t) : Prop :=
  forall k r v,
    schema_get (schema_of c) k = Some r ->
    ODict.get fields k = Some v ->
    v = PNone \/ Cerberus.type_ok (r_type r) v = true.

(** The field is present and not null. *)
Definition filled (fields : ODict.t) (k : string) : Prop :=
  exists v, ODict.get fields k = Some v /\ v <> PNone.

(* ================================================================== *)
(** * Properties *)
(* ================================================================== *)

(** Case analysis on a computation in the error monad that is known to
    return. *)
Ltac break_ok H :=
  repeat
    (simpl in H;
     match type of H with
     | bind ?m _ = Ok _ =>
         let E := fresh "E" in destruct m eqn:E; simpl in H; [|discriminate H]
     | (if ?c then _ else _) = Ok _ =>
         let E := fresh "E" in destruct c eqn:E
     | match ?x with _ => _ end = Ok _ =>
         let E := fresh "E" in destruct x eqn:E
     | Raise _ = Ok _ => discriminate H
     end).


(** ** The ordered dictionary *)

Lemma get_set_same (d : ODict.t) (k : string) (v : pyval) :
  ODict.get (ODict.set d k v) k = Some v.
Proof.
  induction d as [|[k' v'] d IH]; simpl.
  - now rewrite String.eqb_refl.
  - destruct (String.eqb k' k) eqn:E; simpl.
    + now rewrite String.eqb_refl.
    + now rewrite E.
Qed.

Lemma get_set_other (d : ODict.t) (k k' : string) (v : pyval) :
  k' <> k -> ODict.get (ODict.set d k' v) k = ODict.get d k.
Proof.
  intros N. induction d as [|[k0 v0] d IH]; simpl.
  - destruct (String.eqb k' k) eqn:E; [|reflexivity].
    apply String.eqb_eq in E. contradiction.
  - destruct (String.eqb k0 k') eqn:E0; simpl.
    + apply String.eqb_eq in E0. subst k0.
      destruct (String.eqb k' k) eqn:E; [|reflexivity].
      apply String.eqb_eq in E. contradiction.
    + destruct (String.eqb k0 k); [reflexivity | exact IH].
Qed.

Lemma set_not_empty (d : ODict.t) (k : string) (v : pyval) :
  ODict.set d k v <> [].
Proof.
  destruct d as [|[k' v'] d]; simpl; [discriminate|].
  destruct (String.eqb k' k); discriminate.
Qed.

Lemma app_cons_not_nil {A : Type} (l1 l2 l3 : list A) (x : A) :
  app l1 (app (x :: l2) l3) <> [].
Proof. destruct l1; simpl; discriminate. Qed.

(** ** The validator on a record without location *)

Lemma as_entry_cases (k : string) (msgs : list pyval) :
  Cerberus.as_entry k msgs = [] \/ exists v, Cerberus.as_entry k msgs = [(k, v)].
Proof.
  destruct msgs as [|m [|m' msgs]]; simpl; eauto.
Qed.

Lemma mem_not_empty (e : ODict.t) (k : string) :
  ODict.mem e k = true -> Cerberus.is_empty e = false.
Proof. destruct e; [discriminate | reflexivity]. Qed.

(** A field mapping whose [loc] is null never passes the checklist
    schema, whatever the other fields hold: the errors name [loc]. *)
Lemma checklist_null_loc_error (f : ODict.t) :
  ODict.get f "loc" = Some PNone ->
  ODict.mem
    (Cerberus.errors MigrationChecklistRecord.allow_unknown
                     MigrationChecklistRecord.schema f) "loc" = true.
Proof.
  intros H. unfold Cerberus.errors, MigrationChecklistRecord.schema.
  cbn [Cerberus.known_errors]. rewrite H.
  destruct (ODict.get f "loc_id") as [v|]; [|reflexivity].
  destruct (as_entry_cases "loc_id"
              (Cerberus.field_errors MigrationChecklistRecord.allow_unknown
                 (plain "string" true false) v)) as [E|[m E]];
    rewrite E; reflexivity.
Qed.

Lemma checklist_null_loc_rejected (f : ODict.t) :
  ODict.get f "loc" = Some PNone ->
  Cerberus.is_empty
    (Cerberus.errors MigrationChecklistRecord.allow_unknown
                     MigrationChecklistRecord.schema f) = false.
Proof.
  intros H. eapply mem_not_empty, checklist_null_loc_error, H.
Qed.

Lemma gen_date_fields (self self' : record) (d : pyval) :
  MigrationChecklistRecord.gen_date self = Ok (d, self') ->
  fields self' = fields self /\ _id self' = _id self
  /\ same_object self self'.
Proof.
  unfold MigrationChecklistRecord.gen_date.
  destruct (Nat.eqb _ 0).
  - intros H. inversion H. subst. repeat split.
  - destruct (negb _).
    + intros H. inversion H. subst. repeat split.
    + match goal with
      | |- match ?m with _ => _ end = _ -> _ => destruct m as [v|[]]
      end; try discriminate.
      * intros H. inversion H. subst. repeat split.
      * destruct (MigrationChecklistRecord.getitem (fields self) "year");
          simpl; try discriminate.
        destruct (MigrationChecklistRecord.getitem (fields self) "day");
          simpl; try discriminate.
        intros H. inversion H. subst. repeat split.
Qed.

Lemma gen_date_null_loc (self self' : record) (d : pyval) :
  ODict.get (fields self) "loc" = Some PNone ->
  MigrationChecklistRecord.gen_date self = Ok (d, self') ->
  d = PNone
  /\ ODict.mem (errors self') "loc" = true.
Proof.
  intros L. unfold MigrationChecklistRecord.gen_date.
  destruct (Nat.eqb _ 0) eqn:E.
  - destruct (fields self); [discriminate L | discriminate E].
  - rewrite (checklist_null_loc_rejected _ L). simpl.
    intros H. inversion H. subst. split; [reflexivity|].
    simpl. exact (checklist_null_loc_error _ L).
Qed.

(** ** The shape of a checklist record after [create] *)

Section ChecklistCreate.

Variable strptime : string -> string -> option datetime.

(** [create] is the loop, then the location, then the date. *)
Lemma checklist_create_inv (self r : record) (row : list string) :
  MigrationChecklistRecord.create strptime self row = Ok r ->
  exists hs self1 coords date self3,
    header_row self = Some hs
    /\ for_fields (MigrationChecklistRecord.body strptime) hs row 0%nat
                  (self, (None, None)) = Ok (self1, coords)
    /\ MigrationChecklistRecord.gen_date
         (with_fields self1 (ODict.set (fields self1) "loc" (loc_of coords)))
       = Ok (date, self3)
    /\ r = with_fields self3
             (ODict.set (ODict.set (fields self1) "loc" (loc_of coords))
                        "date" date).
Proof.
  unfold MigrationChecklistRecord.create, header_row_of.
  destruct (header_row self) as [hs|]; [|discriminate]. simpl.
  destruct (for_fields _ hs row 0%nat _) as [[self1 coords]|] eqn:L;
    [|discriminate].
  simpl. fold (loc_of coords).
  destruct (MigrationChecklistRecord.gen_date _) as [[date self3]|] eqn:G;
    [|discriminate].
  simpl. intros H.
  destruct (gen_date_fields _ _ _ G) as [F _]. simpl in F.
  rewrite F in H. inversion H.
  exists hs, self1, coords, date, self3. auto.
Qed.

(** The location and the date of the record are the two values that
    [create] assigns last. *)
Lemma checklist_create_loc_date (self r : record) (row : list string) :
  MigrationChecklistRecord.create strptime self row = Ok r ->
  exists coords date,
    ODict.get (fields r) "loc" = Some (loc_of coords)
    /\ ODict.get (fields r) "date" = Some date
    /\ (loc_of coords = PNone ->
        date = PNone /\ ODict.mem (errors r) "loc" = true).
Proof.
  intros C. destruct (checklist_create_inv _ _ _ C)
    as (hs & self1 & coords & date & self3 & _ & _ & G & ->).
  exists coords, date. simpl. split; [|split].
  - rewrite get_set_other by discriminate. apply get_set_same.
  - apply get_set_same.
  - intros N. rewrite N in G.
    apply gen_date_null_loc in G; [exact G|]. simpl. apply get_set_same.
Qed.

(** C10. For every Migration-Checklist row processed by [create], when
    the synthesized [loc] field is null the computed [date] field is
    null too, whatever the year, month and day hold: the date is only
    computed once the field mapping, in which [loc] is not nullable,
    has passed the schema. *)
Theorem C10_null_loc_implies_null_date (self r : record) (row : list string) :
  MigrationChecklistRecord.create strptime self row = Ok r ->
  ODict.get (fields r) "loc" = Some PNone ->
  ODict.get (fields r) "date" = Some PNone.
Proof.
  intros C L. destruct (checklist_create_loc_date _ _ _ C)
    as (coords & date & HL & HD & HN).
  assert (L' : loc_of coords = PNone) by congruence.
  destruct (HN L') as [D _]. now rewrite <- D.
Qed.

End ChecklistCreate.

(** The row with longitude 200 has a valid year, month and day; its
    location and its date are both null. *)
Lemma C10_witness :
  exists r,
    MigrationChecklistRecord.create Samples.strptime Samples.checklist_record
      Samples.row_longitude_200 = Ok r
    /\ ODict.get (fields r) "year" = Some (PInt 2021)
    /\ ODict.get (fields r) "month" = Some (PInt 2)
    /\ ODict.get (fields r) "day" = Some (PInt 15)
    /\ ODict.get (fields r) "loc" = Some PNone
    /\ ODict.get (fields r) "date" = Some PNone.
Proof.
  eexists. split; [vm_compute; reflexivity|].
  do 4 (split; [reflexivity|]).
  apply (C10_null_loc_implies_null_date Samples.strptime
           Samples.checklist_record _ Samples.row_longitude_200);
    vm_compute; reflexivity.
Defined.

(** ** What the loop over the columns leaves alone *)

Lemma for_fields_invariant {S : Type} (body : string -> string -> S -> result S)
      (Inv : S -> Prop) :
  (forall h f st st', Inv st -> body h f st = Ok st' -> Inv st') ->
  forall hs row pos st st',
    Inv st -> for_fields body hs row pos st = Ok st' -> Inv st'.
Proof.
  intros B hs row. induction row as [|f row IH]; intros pos st st' I H.
  - simpl in H. now inversion H; subst.
  - simpl in H. destruct (nth_error hs pos) as [h|]; [|discriminate].
    destruct (body h f st) as [st1|] eqn:E; [|discriminate]. simpl in H.
    eapply IH; [|exact H]. eapply B; eauto.
Qed.

Lemma same_object_refl (a : record) : same_object a a.
Proof. repeat split. Qed.

Section Static.

Variable strptime : string -> string -> option datetime.

Lemma checklist_body_static (h f : string) (self self' : record)
      (c c' : MigrationChecklistRecord.coordinates) :
  MigrationChecklistRecord.body strptime h f (self, c) = Ok (self', c') ->
  same_object self self'.
Proof.
  unfold MigrationChecklistRecord.body. intros H.
  break_ok H; inversion H; subst; repeat split.
Qed.

Lemma checklist_loop_static (hs row : list string) (pos : nat)
      (self self' : record) (c c' : MigrationChecklistRecord.coordinates) :
  for_fields (MigrationChecklistRecord.body strptime) hs row pos (self, c)
  = Ok (self', c') ->
  same_object self self'.
Proof.
  intros H.
  apply (for_fields_invariant (MigrationChecklistRecord.body strptime)
           (fun st => same_object self (fst st)))
    with (st := (self, c)) (st' := (self', c')) in H; auto.
  - intros h f [s1 c1] [s2 c2] I B. simpl in *.
    apply checklist_body_static in B. unfold same_object in *.
    intuition congruence.
  - apply same_object_refl.
Qed.

Lemma checklist_create_static (self r : record) (row : list string) :
  MigrationChecklistRecord.create strptime self row = Ok r ->
  same_object self r.
Proof.
  intros C. destruct (checklist_create_inv _ _ _ _ C)
    as (hs & self1 & coords & date & self3 & _ & L & G & ->).
  apply checklist_loop_static in L. apply gen_date_fields in G.
  destruct G as (_ & _ & G).
  unfold same_object in *. simpl in *. intuition congruence.
Qed.

End Static.

(** ** Invalid records *)

(** The invalid record that [process_row] builds always passes its own
    schema: its date is a reading of the clock, its errors are the
    validator's mapping, its type tag is a class name and its row number
    an integer. *)
Lemma pipeline_invalid_record_validates (now : datetime) (errs : ODict.t)
      (name : string) (n : Z) :
  InvalidRecord.validate
    (InvalidRecord.init now (PDict errs) (PStr name) (PInt n)) = true.
Proof. reflexivity. Qed.

Section Routing.

Variable strptime : string -> string -> option datetime.
Variable json_dumps : ODict.t -> string.
Variable utcnow : Z -> datetime.

Let process_row := BirtFileReader.process_row strptime json_dumps utcnow.

Lemma process_row_in_range (a : BirtFileReader.args) :
  in_range a ->
  process_row a =
  match BirtFileReader.create strptime (fresh a) (BirtFileReader.a_row a) with
  | Raise e => if BirtFileReader.handled e then Ok BirtFileReader.ReturnNone
               else Raise e
  | Ok record1 =>
      let (valid, record2) := validate record1 in
      if valid then Ok (BirtFileReader.ReturnList (Some record2) None)
      else
        let (errs, record3) :=
          BirtFileReader.validation_errors json_dumps record2 in
        Ok (BirtFileReader.ReturnList None
              (Some (InvalidRecord.init (utcnow (BirtFileReader.a_row_count a))
                       (PDict errs) (PStr (class_name (cls record3)))
                       (PInt (row_count record3)))))
  end.
Proof.
  intros (R1 & R2 & R3). unfold process_row, BirtFileReader.process_row.
  rewrite R1, R2, R3. cbn [andb negb init]. unfold fresh.
  destruct (BirtFileReader.create _ _ _) as [record1|e]; [|reflexivity].
  destruct (validate record1) as [[|] record2]; [reflexivity|].
  destruct (BirtFileReader.validation_errors _ record2) as [errs record3].
  now rewrite pipeline_invalid_record_validates.
Qed.

(** C4 (amended). A Migration-Checklist row whose location comes out
    null (as for longitude=200, latitude=40) gives a record that
    [validate] rejects, because [loc] is not nullable; its date is null
    as well, and [process_row] hands the row to the invalid batch as an
    invalid record tagged [MigrationChecklistRecord] whose error payload
    names [loc] and carries the snapshot of the fields. *)
Theorem C4_null_loc_goes_to_invalid_batch (a : BirtFileReader.args) (r : record) :
  BirtFileReader.a_provider_type a = Checklist ->
  in_range a ->
  MigrationChecklistRecord.create strptime (fresh a) (BirtFileReader.a_row a)
  = Ok r ->
  ODict.get (fields r) "loc" = Some PNone ->
  fst (validate r) = false
  /\ ODict.get (fields r) "date" = Some PNone
  /\ exists errs,
      ODict.mem errs "loc" = true
      /\ ODict.get errs "fields" = Some (PStr (json_dumps (fields r)))
      /\ process_row a =
         Ok (BirtFileReader.ReturnList None
               (Some (InvalidRecord.init
                        (utcnow (BirtFileReader.a_row_count a)) (PDict errs)
                        (PStr "MigrationChecklistRecord")
                        (PInt (BirtFileReader.a_row_count a))))).
Proof.
  intros K R C L.
  pose proof (checklist_create_static _ _ _ _ C) as (S1 & _ & _ & S4).
  simpl in S1, S4. rewrite K in S1.
  destruct (checklist_create_loc_date _ _ _ _ C)
    as (coords & date & HL & HD & HN).
  assert (L' : loc_of coords = PNone) by congruence.
  destruct (HN L') as [D E]. subst date.
  assert (M : forall e, ODict.mem e "loc" = true ->
              ODict.mem (ODict.set e "fields" (PStr (json_dumps (fields r))))
                        "loc" = true).
  { intros e M. unfold ODict.mem in *. now rewrite get_set_other. }
  assert (N : forall e : ODict.t, ODict.mem e "loc" = true ->
              Nat.ltb 0 (List.length (ODict.keys e)) = true).
  { intros [|? e] N; [discriminate N | reflexivity]. }
  rewrite (process_row_in_range a R).
  unfold BirtFileReader.create, fresh at 1. cbn [cls]. rewrite K.
  fold (fresh a) in C. unfold fresh in C. rewrite K in C.
  unfold fresh. rewrite K. cbn [map_of]. cbn [map_of] in C. rewrite C.
  unfold validate. rewrite S1. cbn [schema_of allow_unknown_of].
  destruct (_id r) eqn:I;
    cbn [fst];
    try (rewrite (checklist_null_loc_rejected _ L);
         pose proof (checklist_null_loc_error _ L) as V;
         unfold BirtFileReader.validation_errors; cbn [errors with_errors];
         rewrite (N _ V);
         unfold BirtFileReader.to_json;
         cbn [cls with_errors row_count class_name fields];
         rewrite S1, S4; cbn [class_name];
         split; [reflexivity|]; split; [exact HD|];
         eexists; split; [apply M, V|];
         split; [apply get_set_same | reflexivity]).
  unfold BirtFileReader.validation_errors. rewrite (N _ E).
  unfold BirtFileReader.to_json.
  cbn [cls with_errors row_count class_name fields]. rewrite S1, S4.
  cbn [class_name].
  split; [reflexivity|]. split; [exact HD|].
  eexists. split; [apply M, E|].
  split; [apply get_set_same | reflexivity].
Qed.


End Routing.

(** The row with longitude 200 and latitude 40 has its other mapped
    fields populated; it is rejected and handed to the invalid batch. *)
Lemma C4_witness :
  exists r,
    MigrationChecklistRecord.create Samples.strptime
      (fresh (Samples.checklist_args Samples.row_longitude_200))
      Samples.row_longitude_200 = Ok r
    /\ ODict.get (fields r) "year" = Some (PInt 2021)
    /\ ODict.get (fields r) "month" = Some (PInt 2)
    /\ ODict.get (fields r) "day" = Some (PInt 15)
    /\ ODict.get (fields r) "country" = Some (PStr "US")
    /\ ODict.get (fields r) "loc" = Some PNone
    /\ fst (validate r) = false
    /\ ODict.get (fields r) "date" = Some PNone
    /\ exists errs,
        ODict.mem errs "loc" = true
        /\ ODict.get errs "fields" = Some (PStr (Samples.json_dumps (fields r)))
        /\ BirtFileReader.process_row Samples.strptime Samples.json_dumps
             Samples.utcnow (Samples.checklist_args Samples.row_longitude_200)
           = Ok (BirtFileReader.ReturnList None
                   (Some (InvalidRecord.init (Samples.utcnow 1) (PDict errs)
                            (PStr "MigrationChecklistRecord") (PInt 1)))).
Proof.
  eexists. split; [vm_compute; reflexivity|].
  do 5 (split; [reflexivity|]).
  apply (C4_null_loc_goes_to_invalid_batch Samples.strptime Samples.json_dumps
           Samples.utcnow (Samples.checklist_args Samples.row_longitude_200)).
  - reflexivity.
  - repeat split.
  - vm_compute. reflexivity.
  - reflexivity.
Defined.

(** C4, as stated, fails on the row with longitude 200, latitude 40 and
    every other field valid: nothing is returned for the valid batch, the
    row comes back as an invalid record. *)
Lemma C4_counterexample :
  let out := BirtFileReader.process_row Samples.strptime Samples.json_dumps
               Samples.utcnow (Samples.checklist_args Samples.row_longitude_200) in
  out = Ok (BirtFileReader.ReturnList None
              (Some [ ("Date", PDatetime (Samples.utcnow 1));
                      ("Errors",
                       PDict [ ("loc", PList [ PStr "null value not allowed";
                                               PStr "must be of dict type" ]);
                               ("fields",
                                PStr "{year, month, day, country, loc, date}") ]);
                      ("RecordType", PStr "MigrationChecklistRecord");
                      ("RowNum", PInt 1) ]))
  /\ ~ (exists r, out = Ok (BirtFileReader.ReturnList (Some r) None)).
Proof.
  split; [vm_compute; reflexivity|].
  intros [r H]. vm_compute in H. discriminate H.
Qed.

(** ** A row that raises inside [process_row] *)

Section Abort.

Variable strptime : string -> string -> option datetime.
Variable json_dumps : ODict.t -> string.
Variable utcnow : Z -> datetime.

Let process_row := BirtFileReader.process_row strptime json_dumps utcnow.
Let chunk_loop := BirtFileReader.chunk_loop strptime json_dumps utcnow.

(** An exception of one of the two custom classes is caught and the
    function returns [None]. *)
Lemma process_row_caught (a : BirtFileReader.args) (e : exn) :
  in_range a ->
  BirtFileReader.create strptime (fresh a) (BirtFileReader.a_row a) = Raise e ->
  BirtFileReader.handled e = true ->
  process_row a = Ok BirtFileReader.ReturnNone.
Proof.
  intros R C H. unfold process_row.
  rewrite (process_row_in_range _ _ _ a R), C, H. reflexivity.
Qed.

(** Once a row returns [None] the loop of the chunk ends with
    [TypeError], whatever the rows before it gave and whatever follows:
    the flush is not reached. *)
Lemma chunk_loop_aborts (before after : list BirtFileReader.args)
      (a : BirtFileReader.args) :
  process_row a = Ok BirtFileReader.ReturnNone ->
  forall valid invalid,
    raises (chunk_loop (before ++ a :: after)%list valid invalid) = true.
Proof.
  intros N. induction before as [|b before IH]; intros valid invalid.
  - simpl. fold process_row. now rewrite N.
  - simpl. fold process_row. destruct (process_row b) as [[|v i]|e];
      simpl; auto.
Qed.

(** C1 (the defect). The taxonomy row [["turdus migratorius"]] is one
    cell short of its two-column header: [create] raises the
    length-mismatch error, [process_row] catches it and returns [None],
    and [syncprocess_chunk] fails with [TypeError] on unpacking it, so
    the well-formed row that follows is never processed and nothing is
    flushed. *)
Theorem C1_malformed_row_aborts_chunk :
  let bad := Samples.taxonomy_args 1 ["turdus migratorius"] in
  let good := Samples.taxonomy_args 2 ["passer domesticus"; "House Sparrow"] in
  BirtFileReader.create strptime (fresh bad) (BirtFileReader.a_row bad)
  = Raise (InvalidRecordLength "Record length does not equal header_row")
  /\ process_row bad = Ok BirtFileReader.ReturnNone
  /\ (exists r, process_row good
                = Ok (BirtFileReader.ReturnList (Some r) None))
  /\ BirtFileReader.syncprocess_chunk strptime json_dumps utcnow [bad; good]
     = Raise TypeError
  /\ BirtFileReader.syncprocess_chunk strptime json_dumps utcnow [good; bad]
     = Raise TypeError.
Proof.
  cbv zeta. split; [reflexivity|]. split; [reflexivity|].
  split; [eexists; reflexivity|]. split; reflexivity.
Qed.

End Abort.

(** ** Coercion of a string field *)

(** The branch of [set_field_by_schema] for the type string. *)
Lemma string_branch (fields : ODict.t) (header x : string) :
  (if Record.is_empty_str (PStr x) then Ok (ODict.set fields header PNone)
   else match PStr x with
        | PStr "?" => Ok (ODict.set fields header PNone)
        | _ => Ok (ODict.set fields header (PStr x))
        end)
  = Ok (ODict.set fields header
          (if (PyStr.blank x || String.eqb x "?")%bool then PNone else PStr x)).
Proof.
  cbn [Record.is_empty_str].
  destruct (PyStr.blank x); [reflexivity|]. cbn [orb].
  destruct x as [|[[] [] [] [] [] [] [] []] [|c x]]; reflexivity.
Qed.

Section StringCoercion.

Variable strptime : string -> string -> option datetime.

(** C7 (amended). For a field declared of type string, coercion maps a
    blank value and the placeholder [?] to null, and stores any other
    raw string as it is, without trimming it. *)
Theorem C7_string_coercion_keeps_raw_text (s : schema) (fields : ODict.t)
        (header : string) (r : rule) (x : string) :
  schema_get s header = Some r ->
  PyStr.lower (r_type r) = "string" ->
  Record.set_field_by_schema strptime s fields header (PStr x)
  = Ok (ODict.set fields header
          (if (PyStr.blank x || String.eqb x "?")%bool then PNone else PStr x)).
Proof.
  intros G T. unfold Record.set_field_by_schema. rewrite G, T.
  cbn [String.eqb Ascii.eqb Bool.eqb]. apply string_branch.
Qed.

End StringCoercion.

Lemma C7_witness :
  Record.set_field_by_schema Samples.strptime TaxonomyRecord.schema []
    "category" (PStr " Aves ")
  = Ok [("category", PStr " Aves ")]
  /\ Record.set_field_by_schema Samples.strptime TaxonomyRecord.schema []
       "category" (PStr "?")
     = Ok [("category", PNone)]
  /\ Record.set_field_by_schema Samples.strptime TaxonomyRecord.schema []
       "category" (PStr "   ")
     = Ok [("category", PNone)].
Proof.
  split; [|split];
    apply (C7_string_coercion_keeps_raw_text Samples.strptime
             TaxonomyRecord.schema [] "category" (plain "string" true false));
    reflexivity.
Defined.

(** C7, as stated, fails on a value with white space around it: the
    value stored is the raw string, not the trimmed one. *)
Lemma C7_counterexample :
  Record.set_field_by_schema Samples.strptime TaxonomyRecord.schema []
    "category" (PStr " Aves ")
  = Ok [("category", PStr " Aves ")]
  /\ PyStr.strip " Aves " = "Aves"
  /\ Record.set_field_by_schema Samples.strptime TaxonomyRecord.schema []
       "category" (PStr " Aves ")
     <> Ok [("category", PStr (PyStr.strip " Aves "))].
Proof.
  split; [reflexivity|]. split; [reflexivity|].
  vm_compute. discriminate.
Qed.

(** ** The schema of an invalid record *)

Lemma unknown_errors_nil (s : schema) (f : ODict.t) :
  Cerberus.unknown_errors false s f = [] <->
  (forall k, In k (ODict.keys f) -> schema_get s k <> None).
Proof.
  induction f as [|[k v] f IH]; simpl.
  - split; [intros _ k [] | reflexivity].
  - destruct (schema_get s k) eqn:G; simpl.
    + rewrite IH. split.
      * intros H k' [<-|I]; [congruence | now apply H].
      * intros H k' I. apply H. now right.
    + split; [discriminate|]. intros H. exfalso. apply (H k); auto.
Qed.

Lemma invalid_record_schema_keys (k : string) :
  schema_get InvalidRecord.schema k <> None <->
  In k ["Date"; "Errors"; "RecordType"; "RowNum"].
Proof.
  unfold InvalidRecord.schema. cbn [schema_get].
  destruct (String.eqb "Date" k) eqn:E1.
  { apply String.eqb_eq in E1. split; [simpl; auto | intros _ N; discriminate N]. }
  destruct (String.eqb "Errors" k) eqn:E2.
  { apply String.eqb_eq in E2. split; [simpl; auto | intros _ N; discriminate N]. }
  destruct (String.eqb "RecordType" k) eqn:E3.
  { apply String.eqb_eq in E3. split; [simpl; auto | intros _ N; discriminate N]. }
  destruct (String.eqb "RowNum" k) eqn:E4.
  { apply String.eqb_eq in E4. split; [simpl; auto 6 | intros _ N; discriminate N]. }
  apply String.eqb_neq in E1, E2, E3, E4.
  split; [intros N; now elim N | simpl; intuition congruence].
Qed.

(** The schema accepts exactly the mappings described by
    [invalid_record_accepted]: nothing asks the errors to be non-empty
    or the type tag to be a known one. *)
Lemma invalid_record_validate_spec (f : ODict.t) :
  InvalidRecord.validate f = true <-> invalid_record_accepted f.
Proof.
  unfold InvalidRecord.validate, Cerberus.validate, Cerberus.errors,
    InvalidRecord.schema, invalid_record_accepted.
  cbn [Cerberus.known_errors].
  split.
  - intros H.
    destruct (ODict.get f "Date") as [[| | | | |d| |]|];
      try (cbn in H; discriminate H).
    destruct (ODict.get f "Errors") as [[| | | | | | |e]|];
      try (cbn in H; discriminate H).
    destruct (ODict.get f "RecordType") as [[| | | |t| | |]|];
      try (cbn in H; discriminate H).
    assert (U : Cerberus.unknown_errors false InvalidRecord.schema f = []).
    { destruct (ODict.get f "RowNum") as [[| | | | | | |]|];
        try (cbn in H; discriminate H);
        cbn in H;
        destruct (Cerberus.unknown_errors false _ f);
        [reflexivity | discriminate H | reflexivity | discriminate H
         | reflexivity | discriminate H | reflexivity | discriminate H]. }
    split; [eauto|]. split; [eauto|]. split; [eauto|]. split.
    + destruct (ODict.get f "RowNum") as [[| | | | | | |]|];
        try (cbn in H; discriminate H); eauto.
    + intros k I. apply invalid_record_schema_keys.
      revert k I. apply unknown_errors_nil. exact U.
  - intros ([d D] & [e E] & [t T] & R & K).
    rewrite D, E, T.
    assert (U : Cerberus.unknown_errors false InvalidRecord.schema f = []).
    { apply unknown_errors_nil. intros k I.
      apply invalid_record_schema_keys. auto. }
    unfold InvalidRecord.schema in U.
    destruct R as [R|[R|[[n R]|[b R]]]]; rewrite R; cbn; rewrite U; reflexivity.
Qed.

Section Queue.

Variable strptime : string -> string -> option datetime.
Variable json_dumps : ODict.t -> string.
Variable utcnow : Z -> datetime.

(** An invalid record comes back from [process_row] only with nothing for
    the valid batch and only when it passes its own schema. *)
Lemma process_row_invalid_validated (a : BirtFileReader.args)
      (v : option record) (inv : InvalidRecord.t) :
  BirtFileReader.process_row strptime json_dumps utcnow a
  = Ok (BirtFileReader.ReturnList v (Some inv)) ->
  v = None /\ InvalidRecord.validate inv = true.
Proof.
  unfold BirtFileReader.process_row. intros H.
  destruct (_ && _)%bool; [|discriminate H].
  destruct (BirtFileReader.any _); [|discriminate H].
  cbn [init] in H.
  destruct (BirtFileReader.create _ _ _) as [r1|e];
    [|destruct (BirtFileReader.handled e); discriminate H].
  destruct (validate r1) as [[|] r2]; [discriminate H|].
  destruct (BirtFileReader.validation_errors _ r2) as [errs r3].
  destruct (InvalidRecord.validate _) eqn:V; [|discriminate H].
  inversion H. subst. auto.
Qed.

(** C9 (amended). When a record fails validation, the invalid record is
    queued only if it passes its own schema, which requires a capture
    date, an error payload that is a mapping and a type tag that is a
    string, all present and not null, a row number that is an integer or
    null, and no other field.  The payload may be empty and the tag is
    not compared with the known record types. *)
Theorem C9_invalid_record_queued_only_if_accepted (a : BirtFileReader.args)
        (v : option record) (inv : InvalidRecord.t) :
  BirtFileReader.process_row strptime json_dumps utcnow a
  = Ok (BirtFileReader.ReturnList v (Some inv)) ->
  v = None /\ InvalidRecord.validate inv = true /\ invalid_record_accepted inv.
Proof.
  intros H. apply process_row_invalid_validated in H as [-> V].
  split; [reflexivity|]. split; [exact V|].
  now apply invalid_record_validate_spec.
Qed.

End Queue.

(** The second row of the taxonomy file of the specification has no
    scientific name: it fails [validate] before the validator runs, and
    its invalid record is queued with an empty error payload. *)
Lemma C9_witness :
  let a := Samples.taxonomy_args 2 [""; "Unknown"] in
  let inv := InvalidRecord.init (Samples.utcnow 2) (PDict [])
               (PStr "TaxonomyRecord") (PInt 2) in
  BirtFileReader.process_row Samples.strptime Samples.json_dumps
    Samples.utcnow a = Ok (BirtFileReader.ReturnList None (Some inv))
  /\ None = None :> option record
  /\ InvalidRecord.validate inv = true
  /\ invalid_record_accepted inv.
Proof.
  cbv zeta. split; [reflexivity|].
  apply (C9_invalid_record_queued_only_if_accepted Samples.strptime
           Samples.json_dumps Samples.utcnow
           (Samples.taxonomy_args 2 [""; "Unknown"])).
  reflexivity.
Defined.

(** C9, as stated, fails: an invalid record with an empty error payload
    and a type tag that names no record class passes the schema, and the
    pipeline itself queues one with an empty payload. *)
Lemma C9_counterexample :
  InvalidRecord.validate
    (InvalidRecord.init (Samples.utcnow 2) (PDict []) (PStr "NoSuchRecord")
                        (PInt 2)) = true
  /\ BirtFileReader.syncprocess_chunk Samples.strptime Samples.json_dumps
       Samples.utcnow [Samples.taxonomy_args 2 [""; "Unknown"]]
     = Ok ([], [ [ ("Date", PDatetime (Samples.utcnow 2));
                   ("Errors", PDict []);
                   ("RecordType", PStr "TaxonomyRecord");
                   ("RowNum", PInt 2) ] ]).
Proof. split; reflexivity. Qed.

(** ** A row that is too long, a coordinate that is not a number *)

Section WideRows.

Variable strptime : string -> string -> option datetime.
Variable json_dumps : ODict.t -> string.
Variable utcnow : Z -> datetime.

(** C6 (the defect). Under a header row whose columns all have a
    canonical name, a row with one cell more than the header raises
    [IndexError] in [create] of both wide variants, when the loop asks the
    header row for the column of the extra cell; [process_row] does not
    catch it. *)
Theorem C6_longer_row_raises_IndexError :
  header_row Samples.core_record
  = Some ["sampling_event_id"; "loc_id"; "pop00_sqmi"]
  /\ forallb (fun h => negb (unmapped Core h))
             ["sampling_event_id"; "loc_id"; "pop00_sqmi"] = true
  /\ header_row Samples.checklist_record
     = Some ["sampling_event_id"; "longitude"; "latitude"; "year"; "month";
             "day"; "country"]
  /\ forallb (fun h => negb (unmapped Checklist h))
             ["sampling_event_id"; "longitude"; "latitude"; "year"; "month";
              "day"; "country"] = true
  /\ MigrationCoreRecord.create strptime Samples.core_record
       Samples.core_row_too_long = Raise IndexError
  /\ MigrationChecklistRecord.create strptime Samples.checklist_record
       Samples.checklist_row_too_long = Raise IndexError
  /\ BirtFileReader.process_row strptime json_dumps utcnow
       (Samples.core_args Samples.core_row_too_long) = Raise IndexError
  /\ BirtFileReader.process_row strptime json_dumps utcnow
       (Samples.checklist_args Samples.checklist_row_too_long)
     = Raise IndexError.
Proof. repeat split. Qed.

(** C2 (the defect). A latitude cell that reads [nan] is float-coercible
    and not within [-90, 90], yet the location is not null: both
    comparisons of the range test are false on a NaN, so the point is
    built with a NaN coordinate and the record passes validation. *)
Theorem C2_nan_latitude_yields_a_point :
  Record.could_be_float (PStr "nan") = true
  /\ PyNum.float_of_string "nan" = Some S754_nan
  /\ within (-90) 90 S754_nan = false
  /\ exists r lon,
      MigrationChecklistRecord.create strptime Samples.checklist_record
        Samples.row_latitude_nan = Ok r
      /\ PyNum.float_of_string "-70.5" = Some lon
      /\ ODict.get (fields r) "loc"
         = Some (PDict [ ("type", PStr "Point");
                         ("coordinates", PList [PFloat lon; PFloat S754_nan]) ])
      /\ fst (validate r) = true.
Proof.
  do 3 (split; [reflexivity|]).
  eexists. eexists. split; [vm_compute; reflexivity|]. repeat split.
Qed.

End WideRows.

(** ** Coercion by declared type *)

Lemma set_set_same (d : ODict.t) (k : string) (v : pyval) :
  ODict.set (ODict.set d k v) k v = ODict.set d k v.
Proof.
  induction d as [|[k' v'] d IH]; simpl.
  - now rewrite String.eqb_refl.
  - destruct (String.eqb k' k) eqn:E; simpl.
    + now rewrite String.eqb_refl.
    + now rewrite E, IH.
Qed.

Lemma could_be_int_str (x : string) :
  Record.could_be_int (PStr x) = true ->
  exists n, Py.int (PStr x) = Ok n /\ PyNum.is_machine_int n = true.
Proof.
  simpl. destruct (PyNum.int_of_string x) as [n|]; [eauto | discriminate].
Qed.

Lemma could_be_number_str (x : string) :
  Record.could_be_number (PStr x) = true ->
  exists f, Py.float (PStr x) = Ok f.
Proof.
  simpl. destruct (PyNum.float_of_string x) as [f|]; [eauto | discriminate].
Qed.

Lemma could_be_float_str (x : string) :
  Record.could_be_float (PStr x) = true ->
  exists f, Py.float (PStr x) = Ok f.
Proof. exact (could_be_number_str x). Qed.

(** A string parses to a boolean or to null, never to an exception. *)
Lemma parse_boolean_str (x : string) :
  Record.parse_boolean (PStr x) = Ok PNone
  \/ exists b, Record.parse_boolean (PStr x) = Ok (PBool b).
Proof.
  unfold Record.parse_boolean.
  destruct (Record.could_be_boolean (PStr x)); [|now left].
  right. destruct (Record.could_be_int (PStr x)) eqn:I.
  - destruct (could_be_int_str x I) as (n & -> & _). simpl. eauto.
  - destruct (String.eqb (PyStr.lower x) "true"); [eauto|].
    destruct (String.eqb (PyStr.lower x) "false"); eauto.
Qed.

Lemma parse_boolean_fixed (v : pyval) :
  v = PNone \/ (exists b, v = PBool b) -> Record.parse_boolean v = Ok v.
Proof.
  intros [->|[[|] ->]]; reflexivity.
Qed.

Section Coercion.

Variable strptime : string -> string -> option datetime.

Let coerce := Record.set_field_by_schema strptime.

(** On a raw string coercion returns for every declared type, provided a
    field of type datetime has its [datetime_format] key. *)
Lemma coercion_total_on_strings (s : schema) (fields : ODict.t)
      (header x : string) :
  (forall r, schema_get s header = Some r ->
             PyStr.lower (r_type r) = "datetime" ->
             r_datetime_format r <> None) ->
  exists fields', coerce s fields header (PStr x) = Ok fields'.
Proof.
  intros D. unfold coerce, Record.set_field_by_schema.
  destruct (schema_get s header) as [r|]; [|simpl; eauto].
  specialize (D r eq_refl).
  destruct (String.eqb (PyStr.lower (r_type r)) "string").
  { destruct (Record.is_empty_str (PStr x)); [eauto|].
    destruct x as [|[[] [] [] [] [] [] [] []] [|c x]]; eauto. }
  destruct (String.eqb (PyStr.lower (r_type r)) "integer").
  { destruct (Record.could_be_int (PStr x)) eqn:I; [|eauto].
    destruct (could_be_int_str x I) as (n & -> & _). simpl. eauto. }
  destruct (String.eqb (PyStr.lower (r_type r)) "datetime") eqn:T.
  { apply String.eqb_eq in T. specialize (D T).
    destruct (r_datetime_format r) as [w|]; [|congruence].
    destruct (Record.could_be_datetime _ _ _) eqn:B; [|eauto].
    simpl in B. destruct (_ || _)%bool; [discriminate|].
    simpl. destruct (strptime x _); [simpl; eauto | discriminate]. }
  destruct (String.eqb (PyStr.lower (r_type r)) "number").
  { destruct (Record.could_be_number (PStr x)) eqn:I; [|eauto].
    destruct (could_be_number_str x I) as (f & ->). simpl. eauto. }
  destruct (String.eqb (PyStr.lower (r_type r)) "float").
  { destruct (Record.could_be_float (PStr x)) eqn:I; [|eauto].
    destruct (could_be_float_str x I) as (f & ->). simpl. eauto. }
  destruct (String.eqb (PyStr.lower (r_type r)) "boolean"); [|eauto].
  destruct (parse_boolean_str x) as [->|[b ->]]; simpl; eauto.
Qed.

(** For every declared type but datetime, coercing the value that
    coercion stored stores the same value again. *)
Lemma coercion_idempotent_without_datetime (s : schema) (fields fields' : ODict.t)
      (header x : string) (r : rule) (v : pyval) :
  schema_get s header = Some r ->
  PyStr.lower (r_type r) <> "datetime" ->
  coerce s fields header (PStr x) = Ok fields' ->
  ODict.get fields' header = Some v ->
  coerce s fields' header v = Ok fields'.
Proof.
  intros G D. unfold coerce, Record.set_field_by_schema. rewrite G.
  apply String.eqb_neq in D. rewrite D.
  destruct (String.eqb (PyStr.lower (r_type r)) "string").
  { rewrite string_branch.
    intros H; inversion H; subst. rewrite get_set_same.
    intros V; inversion V; subst.
    destruct (PyStr.blank x || String.eqb x "?")%bool eqn:B.
    - simpl. now rewrite set_set_same.
    - rewrite string_branch, B. now rewrite set_set_same. }
  destruct (String.eqb (PyStr.lower (r_type r)) "integer").
  { destruct (Record.could_be_int (PStr x)) eqn:I.
    - destruct (could_be_int_str x I) as (n & -> & M). simpl.
      intros H; inversion H; subst. rewrite get_set_same.
      intros V; inversion V; subst. simpl. rewrite M. simpl.
      now rewrite set_set_same.
    - intros H; inversion H; subst. rewrite get_set_same.
      intros V; inversion V; subst. simpl. now rewrite set_set_same. }
  destruct (String.eqb (PyStr.lower (r_type r)) "number").
  { destruct (Record.could_be_number (PStr x)) eqn:I.
    - destruct (could_be_number_str x I) as (f & ->). simpl.
      intros H; inversion H; subst. rewrite get_set_same.
      intros V; inversion V; subst. simpl. now rewrite set_set_same.
    - intros H; inversion H; subst. rewrite get_set_same.
      intros V; inversion V; subst. simpl. now rewrite set_set_same. }
  destruct (String.eqb (PyStr.lower (r_type r)) "float").
  { destruct (Record.could_be_float (PStr x)) eqn:I.
    - destruct (could_be_float_str x I) as (f & ->). simpl.
      intros H; inversion H; subst. rewrite get_set_same.
      intros V; inversion V; subst. simpl. now rewrite set_set_same.
    - intros H; inversion H; subst. rewrite get_set_same.
      intros V; inversion V; subst. simpl. now rewrite set_set_same. }
  destruct (String.eqb (PyStr.lower (r_type r)) "boolean").
  { destruct (parse_boolean_str x) as [P|[b P]]; rewrite P; simpl;
      intros H; inversion H; subst; rewrite get_set_same;
      intros V; inversion V; subst;
      rewrite parse_boolean_fixed by eauto; simpl;
      now rewrite set_set_same. }
  intros H; inversion H; subst. reflexivity.
Qed.

End Coercion.

(** ** Header mapping *)

Lemma map_fst_identity_map (keys : list string) :
  map fst (identity_map keys) = keys.
Proof.
  unfold identity_map. rewrite map_map. simpl. apply map_id.
Qed.

Lemma assoc_identity_map (keys : list string) (h : string) :
  Record.assoc (identity_map keys) h
  = if existsb (fun k => String.eqb k h) keys then Some h else None.
Proof.
  induction keys as [|k keys IH]; simpl; [reflexivity|].
  destruct (String.eqb k h) eqn:E; [|exact IH].
  apply String.eqb_eq in E. now subst.
Qed.

(** With keys in lower case a header is mapped when its lower-case form
    is a key, to that form, and the look-up never raises. *)
Lemma map_header_identity_map (keys : list string) (h : string) :
  lower_case_keys keys ->
  Record.map_header (identity_map keys) h
  = Ok (if existsb (fun k => String.eqb k (PyStr.lower h)) keys
        then Some (PyStr.lower h) else None).
Proof.
  intros L. unfold Record.map_header. rewrite map_fst_identity_map.
  assert (E : existsb (fun k => String.eqb (PyStr.lower k) (PyStr.lower h)) keys
              = existsb (fun k => String.eqb k (PyStr.lower h)) keys).
  { induction L as [|k keys Hk L IH]; simpl; [reflexivity|].
    now rewrite Hk, IH. }
  rewrite E, assoc_identity_map. clear E.
  destruct (existsb _ keys); reflexivity.
Qed.

Lemma lower_case_keys_of (c : record_class) :
  exists keys, map_of c = identity_map keys /\ lower_case_keys keys.
Proof.
  destruct c; eexists; (split; [reflexivity|]);
    unfold lower_case_keys; repeat constructor.
Qed.

Lemma map_header_total (c : record_class) (h : string) :
  exists o, Record.map_header (map_of c) h = Ok o.
Proof.
  destruct (lower_case_keys_of c) as (keys & -> & L).
  rewrite (map_header_identity_map keys h L). eauto.
Qed.

Lemma no_datetime_get (s : schema) (h : string) (r : rule) :
  no_datetime s -> schema_get s h = Some r ->
  PyStr.lower (r_type r) <> "datetime".
Proof.
  intros N. induction N as [|[k r'] s Hr N IH]; simpl; [discriminate|].
  destruct (String.eqb k h); [|exact IH].
  intros E. inversion E. subst. exact Hr.
Qed.

Lemma no_datetime_of (c : record_class) : no_datetime (schema_of c).
Proof.
  destruct c; unfold no_datetime; repeat constructor; discriminate.
Qed.

(** ** The loop over the columns: termination and the end of the header *)

Section Loop.

Context {S : Type}.
Variable body : string -> string -> S -> result S.
Variable Inv : S -> Prop.
Hypothesis body_total :
  forall h f st, Inv st -> exists st', body h f st = Ok st' /\ Inv st'.

(** A row that is not longer than the header is processed to its end. *)
Lemma for_fields_short (hs row : list string) :
  forall pos st,
    Inv st -> (pos + List.length row <= List.length hs)%nat ->
    exists st', for_fields body hs row pos st = Ok st' /\ Inv st'.
Proof.
  induction row as [|f row IH]; intros pos st I B; simpl.
  - eauto.
  - simpl in B. destruct (nth_error hs pos) as [h|] eqn:N.
    + destruct (body_total h f st I) as (st1 & -> & I1). simpl.
      apply IH; [exact I1 | lia].
    + apply nth_error_None in N. lia.
Qed.

(** A row that is longer than the header ends in [IndexError]. *)
Lemma for_fields_long (hs row : list string) :
  forall pos st,
    Inv st -> (pos <= List.length hs)%nat ->
    (List.length hs < pos + List.length row)%nat ->
    for_fields body hs row pos st = Raise IndexError.
Proof.
  induction row as [|f row IH]; intros pos st I P B; simpl in *.
  - lia.
  - destruct (nth_error hs pos) as [h|] eqn:N; [|reflexivity].
    destruct (body_total h f st I) as (st1 & -> & I1). simpl.
    assert (pos < List.length hs)%nat by (apply nth_error_Some; congruence).
    apply IH; [exact I1 | lia | lia].
Qed.

End Loop.

(** ** How far the loop of a Migration variant gets *)

Lemma limit_le (c : record_class) (hs : list string) :
  (limit c hs <= List.length hs)%nat.
Proof.
  induction hs as [|h hs IH]; simpl; [lia|].
  destruct (unmapped c h); simpl; lia.
Qed.

Lemma limit_mapped (c : record_class) (hs : list string) :
  forall j h, (j < limit c hs)%nat -> nth_error hs j = Some h ->
              unmapped c h = false.
Proof.
  induction hs as [|h0 hs IH]; simpl; intros j h B N; [lia|].
  destruct (unmapped c h0) eqn:U; [lia|].
  destruct j as [|j]; simpl in N.
  - now inversion N; subst.
  - apply (IH j); [lia | exact N].
Qed.

Lemma limit_unmapped (c : record_class) (hs : list string) :
  forall h, nth_error hs (limit c hs) = Some h -> unmapped c h = true.
Proof.
  induction hs as [|h0 hs IH]; simpl; intros h N; [discriminate N|].
  destruct (unmapped c h0) eqn:U; simpl in N.
  - now inversion N; subst.
  - now apply IH.
Qed.

Lemma limit_all_mapped (c : record_class) (hs : list string) :
  forallb (fun h => negb (unmapped c h)) hs = true ->
  limit c hs = List.length hs.
Proof.
  induction hs as [|h hs IH]; simpl; [reflexivity|].
  destruct (unmapped c h); simpl; [discriminate|].
  intros F. now rewrite IH.
Qed.

Lemma overrun_at_column (c : record_class) (hs : list string) (h : string) :
  nth_error hs (limit c hs) = Some h ->
  overrun c hs = AttributeError "sanitize_key".
Proof.
  intros N. unfold overrun.
  assert (B : (limit c hs < List.length hs)%nat)
    by (apply nth_error_Some; congruence).
  apply Nat.ltb_lt in B. now rewrite B.
Qed.

Lemma overrun_past_end (c : record_class) (hs : list string) :
  limit c hs = List.length hs -> overrun c hs = IndexError.
Proof.
  intros E. unfold overrun. rewrite E, Nat.ltb_irrefl. reflexivity.
Qed.

Section Reach.

Context {S : Type}.
Variable body : string -> string -> S -> result S.
Variable Inv : S -> Prop.
Variable hs : list string.
Variable reach : nat.

Hypothesis within :
  forall j h f st,
    (j < reach)%nat -> nth_error hs j = Some h -> Inv st ->
    exists st', body h f st = Ok st' /\ Inv st'.
Hypothesis reach_le : (reach <= List.length hs)%nat.

(** A row that ends within the reach of the loop is processed to its
    end. *)
Lemma for_fields_within (row : list string) :
  forall pos st,
    Inv st -> (pos + List.length row <= reach)%nat ->
    exists st', for_fields body hs row pos st = Ok st' /\ Inv st'.
Proof.
  induction row as [|f row IH]; intros pos st I B; simpl.
  - eauto.
  - simpl in B. destruct (nth_error hs pos) as [h|] eqn:N.
    + destruct (within pos h f st) as (st1 & -> & I1); [lia | exact N | exact I |].
      simpl. apply IH; [exact I1 | lia].
    + apply nth_error_None in N. lia.
Qed.

Section Stop.

Variable stop : exn.

Hypothesis at_column :
  forall h f st, nth_error hs reach = Some h -> Inv st ->
                 body h f st = Raise stop.
Hypothesis past_end : reach = List.length hs -> stop = IndexError.

(** A row with a cell past the reach of the loop ends in the exception
    of that cell. *)
Lemma for_fields_beyond (row : list string) :
  forall pos st,
    Inv st -> (pos <= reach)%nat -> (reach < pos + List.length row)%nat ->
    for_fields body hs row pos st = Raise stop.
Proof.
  induction row as [|f row IH]; intros pos st I P B; simpl in *.
  - lia.
  - destruct (nth_error hs pos) as [h|] eqn:N;
      destruct (Nat.eq_dec pos reach) as [E|D].
    + rewrite E in N. now rewrite (at_column h f st N I).
    + destruct (within pos h f st) as (st1 & -> & I1);
        [lia | exact N | exact I |].
      simpl. apply IH; [exact I1 | lia | lia].
    + apply nth_error_None in N. rewrite past_end by lia. reflexivity.
    + apply nth_error_None in N. lia.
Qed.

End Stop.

End Reach.

(** ** Which columns are processed without an exception *)

Section Bodies.

Variable strptime : string -> string -> option datetime.

Lemma schema_coercion_total (c : record_class) (fields : ODict.t)
      (h x : string) :
  exists fields',
    Record.set_field_by_schema strptime (schema_of c) fields h (PStr x)
    = Ok fields'.
Proof.
  apply coercion_total_on_strings. intros r G T.
  now apply (no_datetime_get _ _ _ (no_datetime_of c)) in G.
Qed.

Lemma taxonomy_body_total (h f : string) (self : record) :
  provider_map self = TaxonomyType.map ->
  exists self', TaxonomyRecord.body strptime h f self = Ok self'
                /\ provider_map self' = TaxonomyType.map.
Proof.
  intros M. unfold TaxonomyRecord.body. rewrite M.
  destruct (map_header_total Taxonomy h) as [[c|] E];
    simpl in E; rewrite E; simpl; [|eauto].
  destruct (PyStr.blank c); [eauto|].
  destruct (String.eqb (PyStr.lower c) "sci_name").
  - destruct (negb _); eauto.
  - destruct (schema_coercion_total Taxonomy (fields self) c f) as [f' F].
    simpl in F. rewrite F. simpl. eauto.
Qed.

(** In the two Migration variants a column with a canonical name is
    processed without an exception, and a column without one raises the
    [AttributeError] of the look-up of [Record.sanitize_key], whatever
    its cell holds. *)
Lemma core_body_mapped (h f : string) (self : record) :
  provider_map self = MigrationCoreType.map ->
  unmapped Core h = false ->
  exists self', MigrationCoreRecord.body strptime h f self = Ok self'
                /\ provider_map self' = MigrationCoreType.map.
Proof.
  intros M U. unfold MigrationCoreRecord.body. rewrite M.
  unfold unmapped in U. cbn [map_of] in U.
  destruct (map_header_total Core h) as [[c|] E];
    simpl in E; rewrite E in *; simpl; [|discriminate U].
  destruct (PyStr.blank c); [eauto|].
  destruct (String.eqb (PyStr.lower c) "sampling_event_id").
  - destruct (negb _); eauto.
  - destruct (schema_coercion_total Core (fields self) c f) as [f' F].
    simpl in F. rewrite F. simpl. eauto.
Qed.

Lemma core_body_stops (h f : string) (self : record) :
  provider_map self = MigrationCoreType.map ->
  unmapped Core h = true ->
  MigrationCoreRecord.body strptime h f self
  = Raise (AttributeError "sanitize_key").
Proof.
  intros M U. unfold MigrationCoreRecord.body. rewrite M.
  unfold unmapped in U. cbn [map_of] in U.
  destruct (Record.map_header MigrationCoreType.map h) as [[c|]|e];
    try discriminate U.
  reflexivity.
Qed.

Lemma checklist_body_mapped (h f : string)
      (st : record * MigrationChecklistRecord.coordinates) :
  provider_map (fst st) = MigrationChecklistType.map ->
  unmapped Checklist h = false ->
  exists st', MigrationChecklistRecord.body strptime h f st = Ok st'
              /\ provider_map (fst st') = MigrationChecklistType.map.
Proof.
  destruct st as [self coords]. simpl. intros M U.
  unfold MigrationChecklistRecord.body. rewrite M.
  unfold unmapped in U. cbn [map_of] in U.
  destruct (map_header_total Checklist h) as [[c|] E];
    simpl in E; rewrite E in *; simpl; [|discriminate U].
  destruct (PyStr.blank c); [eauto|].
  destruct (String.eqb (PyStr.lower c) "sampling_event_id").
  { destruct (negb _); eauto. }
  destruct (String.eqb (PyStr.lower c) "longitude").
  { destruct (PyNum.float_of_string f); simpl; eauto. }
  destruct (String.eqb (PyStr.lower c) "latitude").
  { destruct (PyNum.float_of_string f); simpl; eauto. }
  destruct (schema_coercion_total Checklist (fields self) c f) as [f' F].
  simpl in F. rewrite F. simpl. eauto.
Qed.

Lemma checklist_body_stops (h f : string)
      (st : record * MigrationChecklistRecord.coordinates) :
  provider_map (fst st) = MigrationChecklistType.map ->
  unmapped Checklist h = true ->
  MigrationChecklistRecord.body strptime h f st
  = Raise (AttributeError "sanitize_key").
Proof.
  destruct st as [self coords]. simpl. intros M U.
  unfold MigrationChecklistRecord.body. rewrite M.
  unfold unmapped in U. cbn [map_of] in U.
  destruct (Record.map_header MigrationChecklistType.map h) as [[c|]|e];
    try discriminate U.
  reflexivity.
Qed.

(** The taxonomy variant raises the length-mismatch error exactly when
    the row and the header differ in length, and succeeds otherwise. *)
Lemma taxonomy_create_length (self : record) (hs row : list string) :
  header_row self = Some hs ->
  provider_map self = TaxonomyType.map ->
  (List.length hs <> List.length row ->
   TaxonomyRecord.create strptime self row
   = Raise (InvalidRecordLength "Record length does not equal header_row"))
  /\ (List.length hs = List.length row ->
      exists r, TaxonomyRecord.create strptime self row = Ok r).
Proof.
  intros H M. unfold TaxonomyRecord.create, header_row_of. rewrite H. simpl.
  split; intros L.
  - apply Nat.eqb_neq in L. now rewrite L.
  - rewrite L, Nat.eqb_refl. simpl.
    destruct (for_fields_short (TaxonomyRecord.body strptime)
                (fun s => provider_map s = TaxonomyType.map)
                (fun h f st => taxonomy_body_total h f st)
                hs row 0%nat self M) as (r & R & _); [simpl; lia | eauto].
Qed.

(** The core variant has no length check.  A row succeeds when it
    ends before the first column without a canonical name and is not
    longer than the header; a longer row raises, [AttributeError] at that
    column when there is one and [IndexError] past the header row
    otherwise. *)
Lemma core_create_ragged (self : record) (hs row : list string) :
  header_row self = Some hs ->
  provider_map self = MigrationCoreType.map ->
  ((List.length row <= limit Core hs)%nat ->
   exists r, MigrationCoreRecord.create strptime self row = Ok r)
  /\ ((limit Core hs < List.length row)%nat ->
      MigrationCoreRecord.create strptime self row = Raise (overrun Core hs)).
Proof.
  intros H M. unfold MigrationCoreRecord.create, header_row_of. rewrite H.
  simpl. split; intros L.
  - destruct (for_fields_within (MigrationCoreRecord.body strptime)
                (fun s => provider_map s = MigrationCoreType.map)
                hs (limit Core hs)
                (fun j h f st B N I =>
                   core_body_mapped h f st I (limit_mapped Core hs j h B N))
                (limit_le Core hs)
                row 0%nat self M) as (r & R & _); [simpl; lia | eauto].
  - apply (for_fields_beyond (MigrationCoreRecord.body strptime)
             (fun s => provider_map s = MigrationCoreType.map)
             hs (limit Core hs)
             (fun j h f st B N I =>
                core_body_mapped h f st I (limit_mapped Core hs j h B N))
             (limit_le Core hs) (overrun Core hs));
      [| apply overrun_past_end | exact M | lia | simpl; lia].
    intros h f st N I. rewrite (overrun_at_column Core hs h N).
    apply core_body_stops; [exact I | exact (limit_unmapped Core hs h N)].
Qed.

(** The checklist variant likewise. *)
Lemma checklist_create_ragged (self : record) (hs row : list string) :
  header_row self = Some hs ->
  provider_map self = MigrationChecklistType.map ->
  ((List.length row <= limit Checklist hs)%nat ->
   exists st, for_fields (MigrationChecklistRecord.body strptime) hs row 0%nat
                         (self, (None, None)) = Ok st)
  /\ ((limit Checklist hs < List.length row)%nat ->
      MigrationChecklistRecord.create strptime self row
      = Raise (overrun Checklist hs)).
Proof.
  intros H M. split; intros L.
  - destruct (for_fields_within (MigrationChecklistRecord.body strptime)
                (fun s => provider_map (fst s) = MigrationChecklistType.map)
                hs (limit Checklist hs)
                (fun j h f st B N I =>
                   checklist_body_mapped h f st I
                     (limit_mapped Checklist hs j h B N))
                (limit_le Checklist hs)
                row 0%nat (self, (None, None)) M) as (r & R & _);
      [simpl; lia | eauto].
  - unfold MigrationChecklistRecord.create, header_row_of. rewrite H. simpl.
    rewrite (for_fields_beyond (MigrationChecklistRecord.body strptime)
               (fun s => provider_map (fst s) = MigrationChecklistType.map)
               hs (limit Checklist hs)
               (fun j h f st B N I =>
                  checklist_body_mapped h f st I
                    (limit_mapped Checklist hs j h B N))
               (limit_le Checklist hs) (overrun Checklist hs));
      [reflexivity | | apply overrun_past_end | exact M | lia | simpl; lia].
    intros h f st N I. rewrite (overrun_at_column Checklist hs h N).
    apply checklist_body_stops;
      [exact I | exact (limit_unmapped Checklist hs h N)].
Qed.

End Bodies.

(** ** What one column leaves in the state *)

Section Frame.

Context {S A : Type}.
Variable body : string -> string -> S -> result S.
Variable obs : S -> A.
Variable Inv : S -> Prop.
Variable touches : string -> Prop.

Hypothesis body_inv :
  forall h f st st', Inv st -> body h f st = Ok st' -> Inv st'.
Hypothesis body_frame :
  forall h f st st',
    Inv st -> ~ touches h -> body h f st = Ok st' -> obs st' = obs st.

(** Columns that do not touch the observation leave it as it was. *)
Lemma for_fields_frame (hs row : list string) :
  forall pos st st',
    Inv st ->
    for_fields body hs row pos st = Ok st' ->
    (forall j h, (pos <= j < pos + List.length row)%nat ->
                 nth_error hs j = Some h -> ~ touches h) ->
    obs st' = obs st.
Proof.
  induction row as [|f row IH]; intros pos st st' I H T; simpl in H.
  - now inversion H.
  - destruct (nth_error hs pos) as [h|] eqn:N; [|discriminate].
    destruct (body h f st) as [st1|] eqn:B; [|discriminate]. simpl in H.
    rewrite (IH _ _ _ (body_inv _ _ _ _ I B) H).
    + apply (body_frame h f); auto. apply (T pos); [simpl; lia | exact N].
    + intros j h' R. apply T. simpl. lia.
Qed.

(** When one column only touches the observation, its final value is the
    one this column computes, from a state in which it still has its
    initial value. *)
Lemma for_fields_at (hs row : list string) :
  forall pos st st' i f h,
    Inv st ->
    for_fields body hs row pos st = Ok st' ->
    nth_error row i = Some f ->
    nth_error hs (pos + i) = Some h ->
    (forall j h', (pos <= j < pos + List.length row)%nat -> j <> (pos + i)%nat ->
                  nth_error hs j = Some h' -> ~ touches h') ->
    exists st1 st2,
      Inv st1 /\ obs st1 = obs st /\ body h f st1 = Ok st2
      /\ obs st' = obs st2.
Proof.
  induction row as [|f0 row IH]; intros pos st st' i f h I H Rf Rh T.
  - destruct i; discriminate Rf.
  - simpl in H.
    destruct (nth_error hs pos) as [h0|] eqn:N; [|discriminate].
    destruct (body h0 f0 st) as [st1|] eqn:B; [|discriminate]. simpl in H.
    pose proof (body_inv _ _ _ _ I B) as I1.
    destruct i as [|i].
    + simpl in Rf. inversion Rf. subst f0.
      rewrite Nat.add_0_r in Rh. rewrite N in Rh. inversion Rh. subst h0.
      exists st, st1. repeat split; auto.
      apply (for_fields_frame hs row (Datatypes.S pos) st1 st' I1 H).
      intros j h' R. apply T; simpl; lia.
    + simpl in Rf. rewrite Nat.add_succ_r in Rh.
      destruct (IH (Datatypes.S pos) st1 st' i f h I1 H Rf Rh)
        as (s1 & s2 & J1 & O1 & B1 & O2).
      * intros j h' R D. apply T; simpl; lia.
      * exists s1, s2. repeat split; auto. rewrite O1.
        apply (body_frame h0 f0); auto.
        apply (T pos); [simpl; lia | lia | exact N].
Qed.

End Frame.

(** ** The field a column writes *)

Section Columns.

Variable strptime : string -> string -> option datetime.

(** Coercion by schema writes under the header it is given, or nothing. *)
Lemma set_field_by_schema_frame (s : schema) (fields fields' : ODict.t)
      (header k : string) (v : pyval) :
  Record.set_field_by_schema strptime s fields header v = Ok fields' ->
  header <> k ->
  ODict.get fields' k = ODict.get fields k.
Proof.
  unfold Record.set_field_by_schema. intros H N.
  destruct (schema_get s header) as [r|].
  2:{ destruct settings._DISABLE_SCHEMA_MATCH; [|discriminate H].
      now inversion H. }
  repeat match type of H with
         | (if ?c then _ else _) = Ok _ => destruct c
         | match ?x with _ => _ end = Ok _ => destruct x
         | bind ?m _ = Ok _ => destruct m; simpl in H
         end;
    try discriminate H; inversion H; subst;
    try reflexivity; now apply get_set_other.
Qed.

(** A column leaves the provider map of the record as it was. *)
Lemma core_body_map (h f : string) (self self' : record) :
  provider_map self = MigrationCoreType.map ->
  MigrationCoreRecord.body strptime h f self = Ok self' ->
  provider_map self' = MigrationCoreType.map.
Proof.
  intros M. unfold MigrationCoreRecord.body. intros H.
  break_ok H; inversion H; subst; exact M.
Qed.

Lemma checklist_body_map (h f : string)
      (st st' : record * MigrationChecklistRecord.coordinates) :
  provider_map (fst st) = MigrationChecklistType.map ->
  MigrationChecklistRecord.body strptime h f st = Ok st' ->
  provider_map (fst st') = MigrationChecklistType.map.
Proof.
  destruct st as [self coords]. cbn [fst]. intros M.
  unfold MigrationChecklistRecord.body. intros H.
  break_ok H; inversion H; subst; exact M.
Qed.

End Columns.

(** ** Columns without a canonical name *)

Section Unmapped.

Variable strptime : string -> string -> option datetime.
Variable json_dumps : ODict.t -> string.
Variable utcnow : Z -> datetime.

(** C5 (the defect). A column whose header has no canonical name is not
    retained by either Migration variant: the first statement of that
    branch of [create] looks up [Record.sanitize_key], which class
    [Record] does not have, and raises [AttributeError] before the cell is
    looked at.  On a Migration-Core row with two land-cover columns and on
    a Migration-Checklist row with three species columns [create] raises
    it at the first such column, [process_row] does not catch it, and the
    run over the file ends in its first chunk with nothing flushed. *)
Theorem C5_unmapped_column_raises_AttributeError :
  Record.map_header MigrationCoreType.map "nlcd2011_fs_c11" = Ok None
  /\ MigrationCoreRecord.create strptime Samples.wide_core_record
       Samples.wide_core_row = Raise (AttributeError "sanitize_key")
  /\ BirtFileReader.process_row strptime json_dumps utcnow
       (BirtFileReader.mk_args 1 Samples.wide_core_row false Core
          Samples.wide_core_header 100)
     = Raise (AttributeError "sanitize_key")
  /\ BirtFileReader.process strptime json_dumps utcnow Core false
       [ ["sampling_event_id"; "nlcd2011_fs_c11"; "nlcd2011-fs-c12"];
         Samples.wide_core_row ]
     = BirtFileReader.ChunkFailed [] (AttributeError "sanitize_key")
  /\ Record.map_header MigrationChecklistType.map "zenaida macroura" = Ok None
  /\ MigrationChecklistRecord.create strptime Samples.wide_checklist_record
       Samples.wide_checklist_row = Raise (AttributeError "sanitize_key")
  /\ BirtFileReader.process_row strptime json_dumps utcnow
       (BirtFileReader.mk_args 1 Samples.wide_checklist_row false Checklist
          Samples.wide_checklist_header 100)
     = Raise (AttributeError "sanitize_key")
  /\ BirtFileReader.process strptime json_dumps utcnow Checklist false
       [ ["sampling_event_id"; "year"; "zenaida macroura";
          "turdus.migratorius"; "passer domesticus"];
         Samples.wide_checklist_row ]
     = BirtFileReader.ChunkFailed [] (AttributeError "sanitize_key").
Proof. repeat split. Qed.

End Unmapped.

(** ** The range test on floats *)

Lemma SFcompare_antisym (x y : spec_float) :
  SFcompare x y = option_map CompOpp (SFcompare y x).
Proof.
  destruct x as [sx|sx| |sx mx ex], y as [sy|sy| |sy my ey]; simpl;
    try reflexivity;
    try (destruct sx; reflexivity); try (destruct sy; reflexivity);
    try (destruct sx, sy; reflexivity).
  destruct sx, sy; simpl; try reflexivity;
    rewrite (Z.compare_antisym ex ey);
    destruct (ex ?= ey); simpl; try reflexivity;
    f_equal; rewrite ?CompOpp_involutive;
    first [ exact (Pos.compare_cont_antisym mx my Eq)
          | symmetry; exact (Pos.compare_cont_antisym my mx Eq) ].
Qed.

Lemma SFcompare_some (x y : spec_float) :
  x <> S754_nan -> y <> S754_nan -> exists c, SFcompare x y = Some c.
Proof.
  destruct x, y; simpl; intros; try congruence; eauto.
Qed.

(** On values that are not NaN, being below the lower bound or above the
    upper bound is the negation of being within the bounds. *)
Lemma outside_iff_not_within (lo hi : Z) (x : PyNum.float) :
  PyNum.float_of_Z lo <> S754_nan ->
  PyNum.float_of_Z hi <> S754_nan ->
  x <> S754_nan ->
  (PyNum.flt x (PyNum.float_of_Z lo) || PyNum.fgt x (PyNum.float_of_Z hi))%bool
  = negb (within lo hi x).
Proof.
  intros L H N. unfold within, PyNum.flt, PyNum.fgt, PyNum.fle, SFltb, SFleb.
  rewrite (SFcompare_antisym (PyNum.float_of_Z lo) x).
  rewrite (SFcompare_antisym (PyNum.float_of_Z hi) x).
  destruct (SFcompare_some x (PyNum.float_of_Z lo) N L) as [c1 ->].
  destruct (SFcompare_some x (PyNum.float_of_Z hi) N H) as [c2 ->].
  destruct c1, c2; reflexivity.
Qed.

(** A NaN is neither below nor above any bound, and not within either. *)
Lemma nan_passes_range_test (lo hi : Z) :
  (PyNum.flt S754_nan (PyNum.float_of_Z lo)
   || PyNum.fgt S754_nan (PyNum.float_of_Z hi))%bool = false
  /\ within lo hi S754_nan = false.
Proof.
  unfold within, PyNum.flt, PyNum.fgt, PyNum.fle, SFltb, SFleb.
  destruct (PyNum.float_of_Z lo), (PyNum.float_of_Z hi); split; reflexivity.
Qed.

(** The pair test of the code, by the range of each coordinate. *)
Lemma is_valid_coordinate_pair_spec (lon lat : PyNum.float) :
  lon <> S754_nan -> lat <> S754_nan ->
  MigrationChecklistRecord.is_valid_coordinate_pair (Some lon, Some lat)
  = (within (-90) 90 lat && within (-180) 180 lon)%bool.
Proof.
  intros Nlon Nlat. unfold MigrationChecklistRecord.is_valid_coordinate_pair.
  rewrite (outside_iff_not_within (-90) 90 lat) by (auto; discriminate).
  rewrite (outside_iff_not_within (-180) 180 lon) by (auto; discriminate).
  destruct (within (-90) 90 lat), (within (-180) 180 lon); reflexivity.
Qed.

(** Within both ranges the location is the point, with the longitude
    first; outside either range, for values that are not NaN, and with a
    coordinate missing, it is null. *)
Lemma loc_of_within (lon lat : PyNum.float) :
  within (-90) 90 lat = true -> within (-180) 180 lon = true ->
  loc_of (Some lon, Some lat)
  = PDict [ ("type", PStr "Point");
            ("coordinates", PList [PFloat lon; PFloat lat]) ].
Proof.
  intros A B. unfold loc_of.
  rewrite is_valid_coordinate_pair_spec, A, B; [reflexivity| |].
  - intros ->. now destruct (nan_passes_range_test (-180) 180) as [_ E];
      rewrite E in B.
  - intros ->. now destruct (nan_passes_range_test (-90) 90) as [_ E];
      rewrite E in A.
Qed.

Lemma loc_of_outside (lon lat : PyNum.float) :
  lon <> S754_nan -> lat <> S754_nan ->
  within (-90) 90 lat = false \/ within (-180) 180 lon = false ->
  loc_of (Some lon, Some lat) = PNone.
Proof.
  intros Nlon Nlat O. unfold loc_of.
  rewrite is_valid_coordinate_pair_spec by assumption.
  destruct O as [-> | ->]; [reflexivity|].
  now destruct (within (-90) 90 lat).
Qed.

Lemma loc_of_missing (c : option PyNum.float) :
  loc_of (None, c) = PNone /\ loc_of (c, None) = PNone.
Proof. destruct c; split; reflexivity. Qed.

(** With a NaN for latitude and a longitude in range the location is a
    point all the same. *)
Lemma loc_of_nan_latitude (lon : PyNum.float) :
  within (-180) 180 lon = true ->
  loc_of (Some lon, Some S754_nan)
  = PDict [ ("type", PStr "Point");
            ("coordinates", PList [PFloat lon; PFloat S754_nan]) ].
Proof.
  intros A. unfold loc_of, MigrationChecklistRecord.is_valid_coordinate_pair.
  assert (N : lon <> S754_nan).
  { intros ->. now destruct (nan_passes_range_test (-180) 180) as [_ E];
      rewrite E in A. }
  rewrite (outside_iff_not_within (-180) 180 lon), A by (auto; discriminate).
  reflexivity.
Qed.

(** ** The pending coordinates *)

Lemma checklist_mapped_lower (h c : string) :
  Record.map_header MigrationChecklistType.map h = Ok (Some c) ->
  PyStr.lower c = c.
Proof.
  destruct (lower_case_keys_of Checklist) as (keys & E & L). simpl in E.
  rewrite E, (map_header_identity_map keys h L).
  destruct (existsb _ keys) eqn:X; [|discriminate].
  intros H. inversion H. subst c.
  apply existsb_exists in X as (k & I & K). apply String.eqb_eq in K.
  rewrite <- K. unfold lower_case_keys in L. rewrite Forall_forall in L.
  now apply L.
Qed.

Section Coordinates.

Variable strptime : string -> string -> option datetime.

Let body := MigrationChecklistRecord.body strptime.
Let state : Type := (record * MigrationChecklistRecord.coordinates)%type.

(** Only a column mapped to [longitude] changes the pending longitude,
    and it does so when its value is float-coercible. *)
Lemma longitude_frame (h f : string) (st st' : state) :
  provider_map (fst st) = MigrationChecklistType.map ->
  Record.map_header MigrationChecklistType.map h <> Ok (Some "longitude") ->
  body h f st = Ok st' ->
  fst (snd st') = fst (snd st).
Proof.
  destruct st as [self coords]. simpl. intros M N.
  unfold body, MigrationChecklistRecord.body. rewrite M.
  destruct (Record.map_header MigrationChecklistType.map h)
    as [[c|]|e] eqn:E; simpl; intros H; [| |discriminate H].
  - destruct (PyStr.blank c); [now inversion H|].
    destruct (String.eqb (PyStr.lower c) "sampling_event_id").
    { destruct (negb _); now inversion H. }
    destruct (String.eqb (PyStr.lower c) "longitude") eqn:X.
    { apply String.eqb_eq in X. rewrite (checklist_mapped_lower h c E) in X.
      congruence. }
    destruct (String.eqb (PyStr.lower c) "latitude").
    { destruct (PyNum.float_of_string f); simpl in H; now inversion H. }
    destruct (Record.set_field_by_schema _ _ _ _ _); [|discriminate H].
    simpl in H. now inversion H.
  - discriminate H.
Qed.

Lemma longitude_column (h f : string) (st st' : state) :
  provider_map (fst st) = MigrationChecklistType.map ->
  Record.map_header MigrationChecklistType.map h = Ok (Some "longitude") ->
  body h f st = Ok st' ->
  fst (snd st') = match PyNum.float_of_string f with
                  | Some x => Some x
                  | None => fst (snd st)
                  end.
Proof.
  destruct st as [self coords]. simpl. intros M E.
  unfold body, MigrationChecklistRecord.body. rewrite M, E. simpl.
  destruct (PyNum.float_of_string f); simpl; intros H; now inversion H.
Qed.

Lemma latitude_frame (h f : string) (st st' : state) :
  provider_map (fst st) = MigrationChecklistType.map ->
  Record.map_header MigrationChecklistType.map h <> Ok (Some "latitude") ->
  body h f st = Ok st' ->
  snd (snd st') = snd (snd st).
Proof.
  destruct st as [self coords]. simpl. intros M N.
  unfold body, MigrationChecklistRecord.body. rewrite M.
  destruct (Record.map_header MigrationChecklistType.map h)
    as [[c|]|e] eqn:E; simpl; intros H; [| |discriminate H].
  - destruct (PyStr.blank c); [now inversion H|].
    destruct (String.eqb (PyStr.lower c) "sampling_event_id").
    { destruct (negb _); now inversion H. }
    destruct (String.eqb (PyStr.lower c) "longitude").
    { destruct (PyNum.float_of_string f); simpl in H; now inversion H. }
    destruct (String.eqb (PyStr.lower c) "latitude") eqn:X.
    { apply String.eqb_eq in X. rewrite (checklist_mapped_lower h c E) in X.
      congruence. }
    destruct (Record.set_field_by_schema _ _ _ _ _); [|discriminate H].
    simpl in H. now inversion H.
  - discriminate H.
Qed.

Lemma latitude_column (h f : string) (st st' : state) :
  provider_map (fst st) = MigrationChecklistType.map ->
  Record.map_header MigrationChecklistType.map h = Ok (Some "latitude") ->
  body h f st = Ok st' ->
  snd (snd st') = match PyNum.float_of_string f with
                  | Some x => Some x
                  | None => snd (snd st)
                  end.
Proof.
  destruct st as [self coords]. simpl. intros M E.
  unfold body, MigrationChecklistRecord.body. rewrite M, E. simpl.
  destruct (PyNum.float_of_string f); simpl; intros H; now inversion H.
Qed.

(** With one longitude column and one latitude column, the location of
    the record is decided by the two values as [float] reads them. *)
Lemma checklist_loc_spec (self r : record) (hs row : list string)
      (i j : nat) (hlon flon hlat flat : string) :
  header_row self = Some hs ->
  provider_map self = MigrationChecklistType.map ->
  nth_error hs i = Some hlon -> nth_error row i = Some flon ->
  Record.map_header MigrationChecklistType.map hlon = Ok (Some "longitude") ->
  only_header MigrationChecklistType.map hs row i "longitude" ->
  nth_error hs j = Some hlat -> nth_error row j = Some flat ->
  Record.map_header MigrationChecklistType.map hlat = Ok (Some "latitude") ->
  only_header MigrationChecklistType.map hs row j "latitude" ->
  MigrationChecklistRecord.create strptime self row = Ok r ->
  ODict.get (fields r) "loc"
  = Some (loc_of (PyNum.float_of_string flon, PyNum.float_of_string flat)).
Proof.
  intros H M Hi Fi Ei Oi Hj Fj Ej Oj C.
  destruct (checklist_create_inv _ _ _ _ C)
    as (hs' & self1 & coords & date & self3 & H' & L & _ & ->).
  rewrite H in H'. inversion H'. subst hs'. simpl.
  rewrite get_set_other by discriminate. rewrite get_set_same.
  do 2 f_equal.
  destruct (for_fields_at body (fun s : state => fst (snd s))
              (fun s => provider_map (fst s) = MigrationChecklistType.map)
              (fun h' => Record.map_header MigrationChecklistType.map h'
                         = Ok (Some "longitude"))
              (checklist_body_map strptime)
              (fun h' f' st st' I T B => longitude_frame h' f' st st' I T B)
              hs row 0%nat (self, (None, None)) (self1, coords) i flon hlon
              M L Fi Hi)
    as (a1 & a2 & Ia & Oa & Ba & Ca).
  { intros k h' R D G. apply (Oi k h'); [exact D | lia | exact G]. }
  destruct (for_fields_at body (fun s : state => snd (snd s))
              (fun s => provider_map (fst s) = MigrationChecklistType.map)
              (fun h' => Record.map_header MigrationChecklistType.map h'
                         = Ok (Some "latitude"))
              (checklist_body_map strptime)
              (fun h' f' st st' I T B => latitude_frame h' f' st st' I T B)
              hs row 0%nat (self, (None, None)) (self1, coords) j flat hlat
              M L Fj Hj)
    as (b1 & b2 & Ib & Ob & Bb & Cb).
  { intros k h' R D G. apply (Oj k h'); [exact D | lia | exact G]. }
  simpl in *.
  rewrite (longitude_column hlon flon a1 a2 Ia Ei Ba), Oa in Ca.
  rewrite (latitude_column hlat flat b1 b2 Ib Ej Bb), Ob in Cb.
  destruct coords as [clon clat]. simpl in *. subst clon clat.
  now destruct (PyNum.float_of_string flon), (PyNum.float_of_string flat).
Qed.

End Coordinates.

(** ** The date of a record that passes the schema *)

Lemma days_before_year_bounds (y : Z) :
  1 <= y <= 9999 -> 0 <= PyDatetime.days_before_year y <= 3651694.
Proof.
  intros B. unfold PyDatetime.days_before_year.
  Z.div_mod_to_equations. lia.
Qed.

Lemma andb_leb_true (a b c d : Z) :
  a <= b -> c <= d -> ((a <=? b) && (c <=? d))%bool = true.
Proof.
  intros. apply andb_true_iff. split; now apply Z.leb_le.
Qed.

Lemma andb_leb_false (a b c d : Z) :
  b < a \/ d < c -> ((a <=? b) && (c <=? d))%bool = false.
Proof.
  intros. apply andb_false_iff. destruct H; [left | right]; now apply Z.leb_gt.
Qed.

(** [datetime(y, 1, 1)] *)
Lemma new_first_of_january (y : Z) :
  1 <= y <= 9999 ->
  PyDatetime.new (PInt y) 1 1
  = Ok (mk_datetime (PyDatetime.days_before_year y + 1) 0).
Proof.
  intros Y. unfold PyDatetime.new, PyDatetime.as_c_int, PyNum.c_int_max.
  change (2 ^ 31 - 1) with 2147483647.
  rewrite (andb_leb_true (- (2147483647) - 1) y y 2147483647) by lia.
  cbn [bind].
  unfold PyDatetime.MINYEAR, PyDatetime.MAXYEAR.
  rewrite (andb_leb_true 1 y y 9999) by lia.
  unfold PyDatetime.ymd2ord, PyDatetime.days_before_month.
  cbn -[PyDatetime.days_before_year Z.add].
  change (PyDatetime.days_before_month_aux y (Z.to_nat (1 - 1))) with 0.
  now rewrite Z.add_0_r.
Qed.

Lemma new_outside_calendar (y : Z) :
  - 2 ^ 31 <= y <= 2 ^ 31 - 1 ->
  y < 1 \/ 9999 < y ->
  PyDatetime.new (PInt y) 1 1 = Raise ValueError.
Proof.
  intros C Y. unfold PyDatetime.new, PyDatetime.as_c_int, PyNum.c_int_max.
  change (2 ^ 31) with 2147483648 in C.
  change (2 ^ 31 - 1) with 2147483647.
  rewrite (andb_leb_true (- (2147483647) - 1) y y 2147483647) by lia.
  cbn [bind].
  unfold PyDatetime.MINYEAR, PyDatetime.MAXYEAR.
  rewrite (andb_leb_false 1 y y 9999) by lia. reflexivity.
Qed.

Section GenDate.

Variables (self : record) (y d : Z).

Hypothesis passes :
  Cerberus.errors MigrationChecklistRecord.allow_unknown
                  MigrationChecklistRecord.schema (fields self) = [].
Hypothesis year_field : ODict.get (fields self) "year" = Some (PInt y).
Hypothesis day_field : ODict.get (fields self) "day" = Some (PInt d).

Lemma gen_date_unfold :
  MigrationChecklistRecord.gen_date self
  = match
      (theYear <- PyDatetime.new (PInt y) 1 1 ;;
       delta <- PyDatetime.timedelta_days (d - 1) ;;
       date <- PyDatetime.add theYear delta ;;
       Ok (PDatetime date))
    with
    | Raise ValueError => Ok (PNone, with_errors self [])
    | Raise e => Raise e
    | Ok date => Ok (date, with_errors self [])
    end.
Proof.
  unfold MigrationChecklistRecord.gen_date.
  assert (NE : Nat.eqb (List.length (fields self)) 0 = false).
  { pose proof year_field as Y.
    destruct (fields self); [discriminate Y | reflexivity]. }
  rewrite NE, passes. cbn [Cerberus.is_empty negb].
  unfold MigrationChecklistRecord.getitem. rewrite year_field, day_field.
  cbn [bind MigrationChecklistRecord.minus_one].
  destruct (PyDatetime.new (PInt y) 1 1) as [t|[]]; cbn [bind]; try reflexivity.
Qed.

(** With a year of the calendar the date is never null, whatever the day:
    it is the day [d] counted from the first of January, also past the
    end of the year, as long as it stays in the calendar. *)
Lemma gen_date_valid_year :
  1 <= y <= 9999 ->
  1 <= PyDatetime.days_before_year y + d <= PyDatetime.MAXORDINAL ->
  MigrationChecklistRecord.gen_date self
  = Ok (PDatetime (mk_datetime (PyDatetime.days_before_year y + d) 0),
        with_errors self []).
Proof.
  intros Y O. rewrite gen_date_unfold, new_first_of_january by exact Y.
  pose proof (days_before_year_bounds y Y) as B.
  unfold PyDatetime.MAXORDINAL in *. cbn [bind].
  unfold PyDatetime.timedelta_days.
  replace (Z.abs (d - 1) <=? 999999999) with true
    by (symmetry; apply Z.leb_le; lia).
  cbn [bind]. unfold PyDatetime.add, PyDatetime.MAXORDINAL.
  cbn [dt_ordinal dt_micros].
  replace (PyDatetime.days_before_year y + 1 + (d - 1))
    with (PyDatetime.days_before_year y + d) by lia.
  rewrite andb_leb_true by lia. reflexivity.
Qed.

(** With a year of the calendar and a day that leaves the calendar the
    addition raises [OverflowError], which is not caught. *)
Lemma gen_date_overflow :
  1 <= y <= 9999 ->
  ~ (1 <= PyDatetime.days_before_year y + d <= PyDatetime.MAXORDINAL) ->
  MigrationChecklistRecord.gen_date self = Raise OverflowError.
Proof.
  intros Y O. rewrite gen_date_unfold, new_first_of_january by exact Y.
  unfold PyDatetime.MAXORDINAL in *. cbn [bind].
  unfold PyDatetime.timedelta_days.
  destruct (Z.abs (d - 1) <=? 999999999); [|reflexivity].
  cbn [bind]. unfold PyDatetime.add, PyDatetime.MAXORDINAL.
  cbn [dt_ordinal dt_micros].
  replace (PyDatetime.days_before_year y + 1 + (d - 1))
    with (PyDatetime.days_before_year y + d) by lia.
  rewrite andb_leb_false by lia. reflexivity.
Qed.

(** With a year outside the calendar (and within a C [int]) the
    constructor raises [ValueError], which is caught: the date is null. *)
Lemma gen_date_invalid_year :
  - 2 ^ 31 <= y <= 2 ^ 31 - 1 ->
  y < 1 \/ 9999 < y ->
  MigrationChecklistRecord.gen_date self = Ok (PNone, with_errors self []).
Proof.
  intros C Y. rewrite gen_date_unfold, new_outside_calendar by assumption.
  reflexivity.
Qed.

End GenDate.

(** ** The date of a record after [create] *)

Lemma known_errors_ext (check : rule -> pyval -> list pyval) (s : schema)
      (d1 d2 : ODict.t) :
  (forall k, In k (map fst s) -> ODict.get d1 k = ODict.get d2 k) ->
  Cerberus.known_errors check s d1 = Cerberus.known_errors check s d2.
Proof.
  induction s as [|[k r] s IH]; intros E; simpl; [reflexivity|].
  rewrite (E k) by (simpl; auto). rewrite IH; [reflexivity|].
  intros k' I. apply E. simpl. auto.
Qed.

Lemma unknown_errors_allowed (s : schema) (d : ODict.t) :
  Cerberus.unknown_errors true s d = [].
Proof.
  induction d as [|[k v] d IH]; simpl; [reflexivity|].
  rewrite IH. now destruct (schema_get s k).
Qed.

(** The date is not a field of the schema: adding it changes nothing for
    the validator. *)
Lemma checklist_errors_with_date (f : ODict.t) (v : pyval) :
  Cerberus.errors MigrationChecklistRecord.allow_unknown
                  MigrationChecklistRecord.schema (ODict.set f "date" v)
  = Cerberus.errors MigrationChecklistRecord.allow_unknown
                    MigrationChecklistRecord.schema f.
Proof.
  unfold Cerberus.errors, MigrationChecklistRecord.allow_unknown.
  rewrite !unknown_errors_allowed. f_equal.
  apply known_errors_ext. intros k I.
  apply get_set_other. intros <-. simpl in I.
  repeat (destruct I as [I|I]; [discriminate I|]). exact I.
Qed.

Section DateAfterCreate.

Variable strptime : string -> string -> option datetime.

(** For every Migration-Checklist row for which [create] returns and
    whose fields pass the schema: with a year outside the years 1..9999
    of the calendar (and within a C [int]) the computed date is null;
    with a year of the calendar the date is the first of January of that
    year plus (day - 1) days, whatever the day, so that a day past the
    end of the year gives a date in a following year and never a null
    date. *)
Lemma date_is_first_of_january_plus_days (self r : record)
        (row : list string) (y d : Z) :
  MigrationChecklistRecord.create strptime self row = Ok r ->
  ODict.get (fields r) "year" = Some (PInt y) ->
  ODict.get (fields r) "day" = Some (PInt d) ->
  Cerberus.validate MigrationChecklistRecord.allow_unknown
                    MigrationChecklistRecord.schema (fields r) = true ->
  (1 <= y <= 9999 ->
   ODict.get (fields r) "date"
   = Some (PDatetime (mk_datetime (PyDatetime.days_before_year y + d) 0)))
  /\ (- 2 ^ 31 <= y <= 2 ^ 31 - 1 -> y < 1 \/ 9999 < y ->
      ODict.get (fields r) "date" = Some PNone).
Proof.
  intros C Y D V.
  destruct (checklist_create_inv _ _ _ _ C)
    as (hs & self1 & coords & date & self3 & _ & _ & G & ->).
  cbn [fields with_fields] in Y, D, V |- *.
  rewrite get_set_other in Y, D by discriminate.
  unfold Cerberus.validate in V. rewrite checklist_errors_with_date in V.
  assert (P : Cerberus.errors MigrationChecklistRecord.allow_unknown
                MigrationChecklistRecord.schema
                (ODict.set (fields self1) "loc" (loc_of coords)) = []).
  { destruct (Cerberus.errors _ _ _); [reflexivity | discriminate V]. }
  rewrite get_set_same.
  pose (self2 := with_fields self1
                   (ODict.set (fields self1) "loc" (loc_of coords))).
  change (ODict.set (fields self1) "loc" (loc_of coords))
    with (fields self2) in Y, D, P.
  fold self2 in G. clearbody self2. clear C V.
  split.
  - intros R.
    destruct (Z_le_dec 1 (PyDatetime.days_before_year y + d)) as [A|A];
      [destruct (Z_le_dec (PyDatetime.days_before_year y + d)
                          PyDatetime.MAXORDINAL) as [B|B]|].
    + rewrite (gen_date_valid_year self2 y d P Y D R (conj A B)) in G.
      now inversion G.
    + rewrite (gen_date_overflow self2 y d P Y D R) in G;
        [discriminate G | intros [_ N]; contradiction].
    + rewrite (gen_date_overflow self2 y d P Y D R) in G;
        [discriminate G | intros [N _]; contradiction].
  - intros R O. rewrite (gen_date_invalid_year self2 y d P Y D R O) in G.
    now inversion G.
Qed.

End DateAfterCreate.

Section InvalidCalendarDate.

Variable strptime : string -> string -> option datetime.
Variable json_dumps : ODict.t -> string.
Variable utcnow : Z -> datetime.

(** C3 (the defect). On the example of the claim, year 2021 and day 400,
    the computed date is not null: the day count runs over into the next
    year, the date is 2022-02-04 and the record goes to the valid batch
    with it.  With year 9999 and the same day the sum leaves the
    calendar: the addition raises [OverflowError], which [gen_date] does
    not catch, and the exception escapes [process_row]. *)
Theorem C3_day_400_gets_a_date_or_escapes :
  (exists r,
      MigrationChecklistRecord.create strptime Samples.checklist_record
        Samples.row_day_400 = Ok r
      /\ ODict.get (fields r) "year" = Some (PInt 2021)
      /\ ODict.get (fields r) "day" = Some (PInt 400)
      /\ ODict.get (fields r) "date"
         = Some (PDatetime (mk_datetime (PyDatetime.ymd2ord 2022 2 4) 0))
      /\ BirtFileReader.process_row strptime json_dumps utcnow
           (Samples.checklist_args Samples.row_day_400)
         = Ok (BirtFileReader.ReturnList (Some r) None))
  /\ MigrationChecklistRecord.create strptime Samples.checklist_record
       Samples.row_year_9999 = Raise OverflowError
  /\ BirtFileReader.process_row strptime json_dumps utcnow
       (Samples.checklist_args Samples.row_year_9999) = Raise OverflowError.
Proof.
  split; [|split; reflexivity].
  eexists. split; [vm_compute; reflexivity|].
  do 3 (split; [reflexivity|]). vm_compute. reflexivity.
Qed.

End InvalidCalendarDate.

(** ** A short taxonomy row anywhere in a chunk *)

Section TaxonomyChunk.

Variable strptime : string -> string -> option datetime.
Variable json_dumps : ODict.t -> string.
Variable utcnow : Z -> datetime.

(** Whatever the chunk, one taxonomy row in the data range whose length
    differs from the header's makes [syncprocess_chunk] end with an
    exception before the flush. *)
Lemma taxonomy_length_mismatch_aborts_chunk
      (before after : list BirtFileReader.args) (a : BirtFileReader.args)
      (hs : list string) :
  BirtFileReader.a_provider_type a = Taxonomy ->
  BirtFileReader.a_header_row a = Some hs ->
  in_range a ->
  List.length hs <> List.length (BirtFileReader.a_row a) ->
  raises (BirtFileReader.syncprocess_chunk strptime json_dumps utcnow
            (before ++ a :: after)%list) = true.
Proof.
  intros T H R L. unfold BirtFileReader.syncprocess_chunk.
  apply chunk_loop_aborts.
  apply process_row_caught
    with (e := InvalidRecordLength "Record length does not equal header_row");
    [exact R | | reflexivity].
  unfold BirtFileReader.create, fresh. cbn [cls]. rewrite T.
  apply taxonomy_create_length with (hs := hs); [exact H | reflexivity | exact L].
Qed.

End TaxonomyChunk.

(* ================================================================== *)
(** * The file reader: scan, chunks and the run *)
(* ================================================================== *)

(** ** The scan of the file *)

Lemma scan_loop_after_header (lines : list (list string)) :
  forall row_number header_row row_count,
    0 < row_number ->
    BirtFileReader.scan_loop 0 0 lines row_number header_row row_count
    = inr (header_row, row_count + Z.of_nat (List.length lines)).
Proof.
  induction lines as [|line lines IH]; intros k h rc P.
  - simpl. now rewrite Z.add_0_r.
  - cbn [BirtFileReader.scan_loop].
    replace (k =? 0) with false by (symmetry; apply Z.eqb_neq; lia).
    cbn [Z.ltb Z.compare]. rewrite IH by lia.
    do 2 f_equal. cbn [List.length]. lia.
Qed.

Lemma scan_loop_first_row (first : list string) (rest : list (list string)) :
  BirtFileReader.scan_loop 0 0 (first :: rest) 0 [] 0
  = if BirtFileReader.any_stripped first
    then inr (map BirtFileReader.normalize first,
              Z.of_nat (List.length (first :: rest)))
    else inl (BirtFileReader.InvalidFileFormat 0).
Proof.
  cbn [BirtFileReader.scan_loop Z.eqb].
  destruct (BirtFileReader.any_stripped first); [|reflexivity].
  cbn [Z.ltb Z.compare app]. rewrite scan_loop_after_header by lia.
  do 2 f_equal. cbn [List.length]. lia.
Qed.

(** X1. For each of the three provider types the scan of a file ends in
    one of three ways.  An empty file gives an empty header row and the
    end of data 0, without an error.  A file whose first row has a cell
    that is not blank gives the cells of that row, stripped and in lower
    case, as header row and the number of rows of the file as end of
    data.  A file whose first row is blank raises [InvalidFileFormat] for
    position 0. *)
Theorem find_header_and_end_of_data_spec (provider_type : record_class)
        (lines : list (list string)) :
  BirtFileReader.find_header_and_end_of_data provider_type lines
  = match lines with
    | [] => inr ([], 0)
    | first :: _ =>
        if BirtFileReader.any_stripped first
        then inr (map BirtFileReader.normalize first,
                  Z.of_nat (List.length lines))
        else inl (BirtFileReader.InvalidFileFormat 0)
    end.
Proof.
  unfold BirtFileReader.find_header_and_end_of_data.
  replace (BirtFileReader.header_position_of provider_type) with 0
    by now destruct provider_type.
  replace (BirtFileReader.num_empty_rows_eod_of provider_type) with 0
    by now destruct provider_type.
  destruct lines as [|first rest]; [reflexivity|].
  apply scan_loop_first_row.
Qed.

(** X2. With a positive count of trailing empty rows the scan cannot get
    past the first row of a file: unless that row is a header row that is
    blank, the scan ends with the [NameError] of the logging statement,
    wherever the header is expected, whatever the count and whatever the
    file holds. *)
Theorem positive_empty_row_count_ends_the_scan
        (header_position num_empty_rows_eod : Z)
        (first : list string) (rest : list (list string)) :
  0 < num_empty_rows_eod ->
  (header_position = 0 -> BirtFileReader.any_stripped first = true) ->
  BirtFileReader.scan_loop header_position num_empty_rows_eod (first :: rest)
                           0 [] 0
  = inl (BirtFileReader.NameError "empty_row_count").
Proof.
  intros P A. cbn [BirtFileReader.scan_loop].
  replace (0 <? num_empty_rows_eod) with true
    by (symmetry; apply Z.ltb_lt; exact P).
  destruct (0 =? header_position) eqn:E; [|reflexivity].
  apply Z.eqb_eq in E. now rewrite A by congruence.
Qed.

Lemma positive_empty_row_count_example :
  BirtFileReader.scan_loop 0 2 [["sci_name"; "primary_com_name"]; ["a"; "b"]]
                           0 [] 0
  = inl (BirtFileReader.NameError "empty_row_count").
Proof.
  apply (positive_empty_row_count_ends_the_scan 0 2);
    [lia | reflexivity].
Defined.

(** ** The chunks *)

Section Chunks.

Variable chunk_size : Z.
Hypothesis chunk_size_positive : 0 < chunk_size.

Variable verbose : bool.
Variable provider_type : record_class.
Variable header_row : list string.
Variable end_of_data : Z.

Let gen_loop :=
  BirtFileReader.gen_loop chunk_size verbose provider_type header_row
                          end_of_data.
Let rows := numbered verbose provider_type header_row end_of_data.

Lemma gen_loop_concat (lines : list (list string)) :
  forall row_number chunk,
    List.concat (gen_loop lines row_number chunk)
    = app chunk (rows lines row_number).
Proof.
  unfold gen_loop, rows.
  induction lines as [|row lines IH]; intros k chunk.
  - simpl. reflexivity.
  - cbn [BirtFileReader.gen_loop numbered].
    destruct ((k mod chunk_size =? 0) && (0 <? k))%bool.
    + cbn [List.concat]. rewrite IH. reflexivity.
    + rewrite IH, <- app_assoc. reflexivity.
Qed.

Lemma gen_loop_sizes (lines : list (list string)) :
  forall row_number chunk,
    pending chunk_size row_number chunk ->
    exists front last,
      gen_loop lines row_number chunk = app front [last]
      /\ Forall (fun c => Z.of_nat (List.length c) = chunk_size) front
      /\ Z.of_nat (List.length last) <= chunk_size
      /\ (0 < row_number + Z.of_nat (List.length lines) ->
          (0 < List.length last)%nat).
Proof.
  unfold gen_loop.
  induction lines as [|row lines IH]; intros k chunk (q & Q & K & L & P).
  - exists [], chunk. cbn [BirtFileReader.gen_loop app List.length].
    repeat split; auto. intros H. apply P. simpl in H. lia.
  - cbn [BirtFileReader.gen_loop].
    set (data := BirtFileReader.mk_args k row verbose provider_type
                                        (Some header_row) end_of_data).
    destruct ((k mod chunk_size =? 0) && (0 <? k))%bool eqn:B.
    + apply andb_true_iff in B. destruct B as [M Z0].
      apply Z.eqb_eq in M. apply Z.ltb_lt in Z0.
      assert (F : Z.of_nat (List.length chunk) = chunk_size).
      { specialize (P Z0).
        rewrite K, Z.add_comm, Z.mod_add in M by lia.
        destruct (Z.eq_dec (Z.of_nat (List.length chunk)) chunk_size) as [|N];
          [assumption|].
        rewrite Z.mod_small in M by lia. lia. }
      destruct (IH (k + 1) [data]) as (front & last & E & FA & LA & NE).
      { exists (q + 1). cbn [List.length]. repeat split; try lia. }
      exists (chunk :: front), last. rewrite E. repeat split; auto.
      intros _. apply NE. cbn [List.length]. lia.
    + apply andb_false_iff in B.
      assert (F : Z.of_nat (List.length chunk) < chunk_size).
      { destruct B as [M|Z0].
        - apply Z.eqb_neq in M.
          destruct (Z.eq_dec (Z.of_nat (List.length chunk)) chunk_size) as [N|N];
            [|lia].
          exfalso. apply M. rewrite K, N.
          replace (q * chunk_size + chunk_size) with ((q + 1) * chunk_size)
            by lia.
          apply Z.mod_mul. lia.
        - apply Z.ltb_ge in Z0. nia. }
      destruct (IH (k + 1) (app chunk [data])) as (front & last & E & FA & LA & NE).
      { exists q. rewrite length_app. cbn [List.length].
        repeat split; try lia. }
      exists front, last. rewrite E. repeat split; auto.
      intros _. apply NE. cbn [List.length]. lia.
Qed.

End Chunks.

(** X3. The chunks that [gen_chunks] yields, taken one after the other
    with the content each has when it is yielded, are the rows of the
    file in their order, the header row included: each row is in one
    chunk, with its position in the file as row number, and with the
    header row and the end of data that [gen_chunks] is given. *)
Theorem gen_chunks_partition (lines : list (list string)) (verbose : bool)
        (provider_type : record_class) (header_row : list string)
        (end_of_data : Z) :
  List.concat (BirtFileReader.gen_chunks lines verbose provider_type
                                         header_row end_of_data)
  = numbered verbose provider_type header_row end_of_data lines 0.
Proof.
  unfold BirtFileReader.gen_chunks. now rewrite gen_loop_concat.
Qed.

(** X4. [gen_chunks] always yields at least one chunk.  Every chunk but
    the last holds exactly 5000 rows; the last holds at most 5000, and at
    least one unless the file has no row at all, in which case it is the
    only chunk and it is empty. *)
Theorem gen_chunks_sizes (lines : list (list string)) (verbose : bool)
        (provider_type : record_class) (header_row : list string)
        (end_of_data : Z) :
  exists front last,
    BirtFileReader.gen_chunks lines verbose provider_type header_row
                              end_of_data = app front [last]
    /\ Forall (fun c => List.length c = 5000%nat) front
    /\ (List.length last <= 5000)%nat
    /\ (lines <> [] -> last <> [])
    /\ (lines = [] -> front = [] /\ last = []).
Proof.
  unfold BirtFileReader.gen_chunks.
  destruct (gen_loop_sizes settings._CHUNK_SIZE ltac:(reflexivity) verbose
              provider_type header_row end_of_data lines 0 [])
    as (front & last & E & FA & LA & NE).
  { exists 0. cbn [List.length]. repeat split; try lia.
    unfold settings._CHUNK_SIZE. lia. }
  exists front, last. split; [|split; [|split; [|split]]].
  - exact E.
  - eapply Forall_impl; [|exact FA]. cbv beta.
    unfold settings._CHUNK_SIZE. intros c H. lia.
  - unfold settings._CHUNK_SIZE in LA. lia.
  - intros N L. subst last. destruct lines as [|l lines]; [now apply N|].
    cbn [List.length] in NE. lia.
  - intros L. subst lines. simpl in E.
    destruct front as [|c [|c' front]]; simpl in E.
    + now inversion E.
    + discriminate E.
    + discriminate E.
Qed.

(* ================================================================== *)
(** * Headers *)
(* ================================================================== *)

Lemma is_space_lower_char (c : ascii) :
  PyStr.is_space (PyStr.lower_char c) = PyStr.is_space c.
Proof. destruct c as [[] [] [] [] [] [] [] []]; reflexivity. Qed.

Lemma lower_char_idempotent (c : ascii) :
  PyStr.lower_char (PyStr.lower_char c) = PyStr.lower_char c.
Proof. destruct c as [[] [] [] [] [] [] [] []]; reflexivity. Qed.

Lemma lower_idempotent (s : string) :
  PyStr.lower (PyStr.lower s) = PyStr.lower s.
Proof.
  induction s as [|c s IH]; simpl; [reflexivity|].
  now rewrite lower_char_idempotent, IH.
Qed.

Lemma lstrip_lower (s : string) :
  PyStr.lstrip (PyStr.lower s) = PyStr.lower (PyStr.lstrip s).
Proof.
  induction s as [|c s IH]; simpl; [reflexivity|].
  rewrite is_space_lower_char. now destruct (PyStr.is_space c).
Qed.

Lemma rstrip_lower (s : string) :
  PyStr.rstrip (PyStr.lower s) = PyStr.lower (PyStr.rstrip s).
Proof.
  induction s as [|c s IH]; simpl; [reflexivity|].
  rewrite IH, is_space_lower_char.
  destruct (PyStr.rstrip s); simpl; [|reflexivity].
  now destruct (PyStr.is_space c).
Qed.

Lemma strip_lower (s : string) :
  PyStr.strip (PyStr.lower s) = PyStr.lower (PyStr.strip s).
Proof. unfold PyStr.strip. now rewrite lstrip_lower, rstrip_lower. Qed.

Lemma blank_lower (s : string) :
  PyStr.blank (PyStr.lower s) = PyStr.blank s.
Proof.
  unfold PyStr.blank. rewrite strip_lower. now destruct (PyStr.strip s).
Qed.

Lemma existsb_eqb_In (keys : list string) (h : string) :
  existsb (fun k => String.eqb k h) keys = true <-> In h keys.
Proof.
  rewrite existsb_exists. split.
  - intros (k & I & E). apply String.eqb_eq in E. now subst.
  - intros I. exists h. split; [exact I | apply String.eqb_refl].
Qed.

(** X5. For the provider map of each of the three types, [map_header]
    never raises and looks only at the lower-case form of the header: a
    header is mapped exactly when its lower-case form is a key of the
    map, and then to that lower-case form; white space around it is not
    removed. *)
Theorem map_header_by_lower_case (c : record_class) (h : string) :
  (In (PyStr.lower h) (map fst (map_of c)) ->
   Record.map_header (map_of c) h = Ok (Some (PyStr.lower h)))
  /\ (~ In (PyStr.lower h) (map fst (map_of c)) ->
      Record.map_header (map_of c) h = Ok None)
  /\ Record.map_header (map_of c) (PyStr.lower h)
     = Record.map_header (map_of c) h.
Proof.
  destruct (lower_case_keys_of c) as (keys & -> & L).
  rewrite map_fst_identity_map, !(map_header_identity_map keys _ L).
  rewrite lower_idempotent.
  destruct (existsb (fun k => String.eqb k (PyStr.lower h)) keys) eqn:E.
  - apply existsb_eqb_In in E.
    split; [reflexivity | split; [intros N; contradiction | reflexivity]].
  - split; [|split; reflexivity].
    intros I. apply existsb_eqb_In in I. congruence.
Qed.

Lemma map_header_by_lower_case_example :
  Record.map_header (map_of Checklist) "Sampling_Event_ID"
  = Ok (Some "sampling_event_id")
  /\ Record.map_header (map_of Checklist) " latitude" = Ok None.
Proof.
  split.
  - apply (proj1 (map_header_by_lower_case Checklist "Sampling_Event_ID")).
    vm_compute. tauto.
  - apply (proj1 (proj2 (map_header_by_lower_case Checklist " latitude"))).
    vm_compute. intuition discriminate.
Defined.

(* ================================================================== *)
(** * What a row hands to the batches *)
(* ================================================================== *)

Lemma created_from_refl (self : record) :
  _id self = PNone -> created_from self self.
Proof. intros H. split; [apply same_object_refl | now left]. Qed.

Lemma created_from_with_fields (self0 self : record) (f : ODict.t) :
  created_from self0 self -> created_from self0 (with_fields self f).
Proof. intros [S I]. split; [exact S | exact I]. Qed.

Lemma created_from_with_errors (self0 self : record) (e : ODict.t) :
  created_from self0 self -> created_from self0 (with_errors self e).
Proof. intros [S I]. split; [exact S | exact I]. Qed.

Lemma created_from_with_id (self0 self : record) (s : string) :
  created_from self0 self -> PyStr.blank s = false ->
  created_from self0 (with_id self (PStr s)).
Proof.
  intros [S _] B. split; [exact S | right; exists s; auto].
Qed.

Section Created.

Variable strptime : string -> string -> option datetime.

Lemma taxonomy_body_created (self0 : record) (h f : string)
      (self self' : record) :
  created_from self0 self ->
  TaxonomyRecord.body strptime h f self = Ok self' ->
  created_from self0 self'.
Proof.
  unfold TaxonomyRecord.body. intros I H.
  break_ok H; inversion H; subst;
    auto using created_from_with_fields.
  apply created_from_with_id; [exact I|].
  rewrite blank_lower. simpl in *.
  now destruct (PyStr.blank f).
Qed.

Lemma core_body_created (self0 : record) (h f : string)
      (self self' : record) :
  created_from self0 self ->
  MigrationCoreRecord.body strptime h f self = Ok self' ->
  created_from self0 self'.
Proof.
  unfold MigrationCoreRecord.body. intros I H.
  break_ok H; inversion H; subst;
    auto using created_from_with_fields.
  apply created_from_with_id; [exact I|].
  simpl in *. now destruct (PyStr.blank f).
Qed.

Lemma checklist_body_created (self0 : record) (h f : string)
      (self self' : record) (c c' : MigrationChecklistRecord.coordinates) :
  created_from self0 self ->
  MigrationChecklistRecord.body strptime h f (self, c) = Ok (self', c') ->
  created_from self0 self'.
Proof.
  unfold MigrationChecklistRecord.body. intros I H.
  break_ok H; inversion H; subst;
    auto using created_from_with_fields.
  apply created_from_with_id; [exact I|].
  simpl in *. now destruct (PyStr.blank f).
Qed.

(** Every [create] leaves the class, the header row, the provider map
    and the row number of the record as they were, and an identifier
    that is unset or a string that is not blank. *)
Lemma create_created (self r : record) (row : list string) :
  _id self = PNone ->
  BirtFileReader.create strptime self row = Ok r ->
  created_from self r.
Proof.
  intros N. apply created_from_refl in N. unfold BirtFileReader.create.
  destruct (cls self).
  - unfold TaxonomyRecord.create. intros H. break_ok H.
    eapply (for_fields_invariant (TaxonomyRecord.body strptime)
              (created_from self)); [|exact N|exact H].
    intros h f st st'. apply taxonomy_body_created.
  - intros C. destruct (checklist_create_inv _ _ _ _ C)
      as (hs & self1 & coords & date & self3 & _ & L & G & ->).
    apply created_from_with_fields.
    apply gen_date_fields in G. destruct G as (_ & GI & GS).
    assert (I1 : created_from self self1).
    { apply (for_fields_invariant (MigrationChecklistRecord.body strptime)
               (fun st => created_from self (fst st)))
        with (st := (self, (None, None))) (st' := (self1, coords)) in L;
        [exact L | | exact N].
      intros h f [s1 c1] [s2 c2]. apply checklist_body_created. }
    destruct I1 as [S1 D1]. unfold created_from, same_object in *.
    simpl in *. split; [intuition congruence | now rewrite GI].
  - unfold MigrationCoreRecord.create. intros H. break_ok H.
    eapply (for_fields_invariant (MigrationCoreRecord.body strptime)
              (created_from self)); [|exact N|exact H].
    intros h f st st'. apply core_body_created.
Qed.

End Created.

Section Rows.

Variable strptime : string -> string -> option datetime.
Variable json_dumps : ODict.t -> string.
Variable utcnow : Z -> datetime.

Let process_row := BirtFileReader.process_row strptime json_dumps utcnow.

Lemma process_row_not_in_range (a : BirtFileReader.args) :
  ~ in_range a ->
  process_row a = Ok (BirtFileReader.ReturnList None None).
Proof.
  unfold in_range, process_row, BirtFileReader.process_row. intros N.
  destruct (data_position_of _ <=? _); [|reflexivity].
  destruct (_ =? _); [reflexivity|].
  destruct (BirtFileReader.any _); [|reflexivity].
  exfalso. apply N. auto.
Qed.

Lemma in_range_dec (a : BirtFileReader.args) : in_range a \/ ~ in_range a.
Proof.
  unfold in_range.
  destruct (data_position_of _ <=? _); [|right; intros (H & _); discriminate H].
  destruct (_ =? _); [right; intros (_ & H & _); discriminate H|].
  destruct (BirtFileReader.any _); [left; auto|].
  right; intros (_ & _ & H); discriminate H.
Qed.

Lemma fresh_unset (a : BirtFileReader.args) : _id (fresh a) = PNone.
Proof. reflexivity. Qed.

(** X6. A record that [process_row] returns for the valid batch comes
    alone, without an invalid record; its row is in the data range and
    has a cell that is not empty; the record has the class and the number
    of that row; its identifier is a string that is not blank; and its
    fields pass the schema of its class. *)
Theorem valid_record_of_a_row (a : BirtFileReader.args) (r : record)
        (invalid : option InvalidRecord.t) :
  BirtFileReader.process_row strptime json_dumps utcnow a
  = Ok (BirtFileReader.ReturnList (Some r) invalid) ->
  invalid = None
  /\ in_range a
  /\ cls r = BirtFileReader.a_provider_type a
  /\ row_count r = BirtFileReader.a_row_count a
  /\ 1 <= row_count r
  /\ identified (_id r)
  /\ Cerberus.validate (allow_unknown_of (cls r)) (schema_of (cls r))
                       (fields r) = true.
Proof.
  intros H. fold process_row in H.
  destruct (in_range_dec a) as [R|R];
    [|rewrite (process_row_not_in_range a R) in H; discriminate H].
  unfold process_row in H.
  rewrite (process_row_in_range strptime json_dumps utcnow a R) in H.
  destruct (BirtFileReader.create strptime (fresh a) (BirtFileReader.a_row a))
    as [r1|e] eqn:C;
    [|destruct (BirtFileReader.handled e); discriminate H].
  destruct (create_created strptime _ _ _ (fresh_unset a) C) as [S I].
  unfold validate in H.
  destruct I as [I|I].
  - rewrite I in H.
    destruct (BirtFileReader.validation_errors json_dumps r1).
    discriminate H.
  - destruct I as (s & E & B). rewrite E in H.
    destruct (Cerberus.is_empty _) eqn:V.
    + inversion H. subst. clear H.
      destruct S as (S1 & _ & _ & S4). cbn [fresh cls row_count] in S1, S4.
      cbn [cls row_count _id fields with_errors].
      split; [reflexivity|]. split; [exact R|]. split; [exact S1|].
      split; [exact S4|]. split; [|split; [exists s; auto | exact V]].
      rewrite S4. destruct R as (R1 & _). apply Z.leb_le in R1.
      now destruct (BirtFileReader.a_provider_type a).
    + destruct (BirtFileReader.validation_errors json_dumps _).
      discriminate H.
Qed.

End Rows.

Lemma valid_record_of_a_row_example :
  let a := Samples.taxonomy_args 1 ["Turdus migratorius"; "American Robin"] in
  exists r,
    BirtFileReader.process_row Samples.strptime Samples.json_dumps
      Samples.utcnow a = Ok (BirtFileReader.ReturnList (Some r) None)
    /\ identified (_id r)
    /\ Cerberus.validate (allow_unknown_of (cls r)) (schema_of (cls r))
                         (fields r) = true.
Proof.
  cbv zeta. eexists. split; [vm_compute; reflexivity|].
  match goal with
  | |- identified (_id ?r) /\ _ =>
      destruct (valid_record_of_a_row Samples.strptime Samples.json_dumps
                  Samples.utcnow
                  (Samples.taxonomy_args 1
                     ["Turdus migratorius"; "American Robin"])
                  r None)
        as (_ & _ & _ & _ & _ & I & V)
  end.
  - vm_compute. reflexivity.
  - split; [exact I | exact V].
Defined.

(** ** The payload of an invalid record *)

Section Payload.

Variable strptime : string -> string -> option datetime.
Variable json_dumps : ODict.t -> string.
Variable utcnow : Z -> datetime.

Lemma taxonomy_body_errors (h f : string) (self self' : record) :
  TaxonomyRecord.body strptime h f self = Ok self' ->
  errors self' = errors self.
Proof.
  unfold TaxonomyRecord.body. intros H.
  break_ok H; inversion H; subst; reflexivity.
Qed.

Lemma core_body_errors (h f : string) (self self' : record) :
  MigrationCoreRecord.body strptime h f self = Ok self' ->
  errors self' = errors self.
Proof.
  unfold MigrationCoreRecord.body. intros H.
  break_ok H; inversion H; subst; reflexivity.
Qed.

(** The validator of a Taxonomy or Migration-Core record does not run
    during [create]. *)
Lemma create_errors (self r : record) (row : list string) :
  cls self <> Checklist ->
  BirtFileReader.create strptime self row = Ok r ->
  errors r = errors self.
Proof.
  intros N. unfold BirtFileReader.create.
  destruct (cls self); [|contradiction|].
  - unfold TaxonomyRecord.create. intros H. break_ok H.
    eapply (for_fields_invariant (TaxonomyRecord.body strptime)
              (fun st => errors st = errors self)); [|reflexivity|exact H].
    intros h f st st' I B. apply taxonomy_body_errors in B. congruence.
  - unfold MigrationCoreRecord.create. intros H. break_ok H.
    eapply (for_fields_invariant (MigrationCoreRecord.body strptime)
              (fun st => errors st = errors self)); [|reflexivity|exact H].
    intros h f st st' I B. apply core_body_errors in B. congruence.
Qed.

(** X7. An invalid record that [process_row] returns comes alone,
    without a valid record, for a row of the data range on which [create]
    has returned.  It carries the reading of the clock, the name of the
    class of the row and the number of the row.  When the record has an
    identifier, its payload is the mapping of errors that the validator
    has left on the fields, which is not empty, with the serialized fields
    added under the key [fields].  When a Taxonomy or Migration-Core
    record has no identifier, the validator has not run and the payload
    is empty: it names no error and holds no snapshot of the fields. *)
Theorem invalid_record_of_a_row (a : BirtFileReader.args)
        (valid : option record) (invalid : InvalidRecord.t) :
  BirtFileReader.process_row strptime json_dumps utcnow a
  = Ok (BirtFileReader.ReturnList valid (Some invalid)) ->
  valid = None
  /\ in_range a
  /\ exists r payload,
      BirtFileReader.create strptime (fresh a) (BirtFileReader.a_row a) = Ok r
      /\ invalid
         = InvalidRecord.init (utcnow (BirtFileReader.a_row_count a))
             (PDict payload)
             (PStr (class_name (BirtFileReader.a_provider_type a)))
             (PInt (BirtFileReader.a_row_count a))
      /\ (identified (_id r) ->
          let errs := Cerberus.errors (allow_unknown_of (cls r))
                                      (schema_of (cls r)) (fields r) in
          errs <> []
          /\ payload = ODict.set errs "fields" (PStr (json_dumps (fields r))))
      /\ (_id r = PNone ->
          BirtFileReader.a_provider_type a <> Checklist ->
          payload = []).
Proof.
  intros H.
  destruct (in_range_dec a) as [R|R];
    [|rewrite (process_row_not_in_range strptime json_dumps utcnow a R) in H;
      discriminate H].
  rewrite (process_row_in_range strptime json_dumps utcnow a R) in H.
  destruct (BirtFileReader.create strptime (fresh a) (BirtFileReader.a_row a))
    as [r|e] eqn:C;
    [|destruct (BirtFileReader.handled e); discriminate H].
  destruct (create_created strptime _ _ _ (fresh_unset a) C)
    as [(S1 & _ & _ & S4) I].
  cbn [fresh cls row_count] in S1, S4.
  destruct (validate r) as [[|] r2] eqn:V; [discriminate H|].
  destruct (BirtFileReader.validation_errors json_dumps r2)
    as [payload r3] eqn:E.
  assert (K : cls r3 = cls r /\ row_count r3 = row_count r
              /\ (identified (_id r) ->
                  Cerberus.errors (allow_unknown_of (cls r))
                                  (schema_of (cls r)) (fields r) <> []
                  /\ payload
                     = ODict.set
                         (Cerberus.errors (allow_unknown_of (cls r))
                                          (schema_of (cls r)) (fields r))
                         "fields" (PStr (json_dumps (fields r))))
              /\ (_id r = PNone -> errors r = [] -> payload = [])).
  { unfold validate in V. unfold BirtFileReader.validation_errors in E.
    destruct I as [I|(s & I & B)]; rewrite I in V.
    - inversion V. subst r2. clear V.
      destruct (Nat.ltb 0 _) eqn:L; inversion E; subst; clear E;
        (split; [reflexivity|]); (split; [reflexivity|]);
        (split; [intros (s & D & _); congruence|]); intros _ Z0.
      + rewrite Z0 in L. discriminate L.
      + exact Z0.
    - destruct (Cerberus.errors _ _ _) as [|e0 errs] eqn:Q;
        [discriminate V|].
      inversion V. subst r2. clear V.
      cbn [errors with_errors ODict.keys map List.length Nat.ltb Nat.leb] in E.
      inversion E. subst. cbn [cls row_count with_errors].
      split; [reflexivity|]. split; [reflexivity|].
      split; [|congruence].
      intros _. split; [discriminate | reflexivity]. }
  destruct K as (K1 & K2 & K3 & K4).
  inversion H. subst. clear H.
  split; [reflexivity|]. split; [exact R|].
  exists r, payload. split; [reflexivity|].
  split; [now rewrite K1, K2, S1, S4|].
  split; [exact K3|].
  intros N T. apply K4; [exact N|].
  rewrite (create_errors (fresh a) r (BirtFileReader.a_row a)); auto.
Qed.

End Payload.

Lemma invalid_record_of_a_row_example :
  let a := Samples.taxonomy_args 3 ["Turdus migratorius"; ""] in
  exists invalid,
    BirtFileReader.process_row Samples.strptime Samples.json_dumps
      Samples.utcnow a
    = Ok (BirtFileReader.ReturnList None (Some invalid))
    /\ in_range a.
Proof.
  cbv zeta. eexists. split; [vm_compute; reflexivity|].
  refine (proj1 (proj2 (invalid_record_of_a_row Samples.strptime
                          Samples.json_dumps Samples.utcnow
                          (Samples.taxonomy_args 3 ["Turdus migratorius"; ""])
                          None _ _))).
  vm_compute. reflexivity.
Defined.

(* ================================================================== *)
(** * The run over a file *)
(* ================================================================== *)

Lemma numbered_bounds (verbose : bool) (c : record_class) (h : list string)
      (e : Z) (lines : list (list string)) :
  forall start a,
    In a (numbered verbose c h e lines start) ->
    start <= BirtFileReader.a_row_count a < start + Z.of_nat (List.length lines)
    /\ BirtFileReader.a_provider_type a = c
    /\ BirtFileReader.a_header_row a = Some h
    /\ BirtFileReader.a_end_of_data a = e
    /\ In (BirtFileReader.a_row a) lines.
Proof.
  induction lines as [|row lines IH]; intros start a I; [destruct I|].
  cbn [numbered In List.length] in *. destruct I as [<-|I].
  - cbn. repeat split; auto; lia.
  - destruct (IH _ _ I) as (B & P & H & E & R).
    repeat split; auto; lia.
Qed.

Lemma numbered_unique (verbose : bool) (c : record_class) (h : list string)
      (e : Z) (lines : list (list string)) :
  forall start a a',
    In a (numbered verbose c h e lines start) ->
    In a' (numbered verbose c h e lines start) ->
    BirtFileReader.a_row_count a = BirtFileReader.a_row_count a' ->
    a = a'.
Proof.
  induction lines as [|row lines IH]; intros start a a' I I' E; [destruct I|].
  cbn [numbered In] in *. destruct I as [<-|I], I' as [<-|I'].
  - reflexivity.
  - apply numbered_bounds in I'. cbn in E. lia.
  - apply numbered_bounds in I. cbn in E. lia.
  - eapply IH; eauto.
Qed.

(** Row numbers picked from the rows of a file, at most one for a row,
    come in increasing order and each from a row of the file. *)
Lemma numbered_picks (f : BirtFileReader.args -> list Z) (verbose : bool)
      (c : record_class) (h : list string) (e : Z)
      (lines : list (list string)) :
  (forall a, f a = [] \/ f a = [BirtFileReader.a_row_count a]) ->
  forall start,
    StronglySorted Z.lt (flat_map f (numbered verbose c h e lines start))
    /\ forall k, In k (flat_map f (numbered verbose c h e lines start)) ->
                 exists a, In a (numbered verbose c h e lines start)
                           /\ BirtFileReader.a_row_count a = k
                           /\ f a = [k].
Proof.
  intros F. induction lines as [|row lines IH]; intros start.
  - cbn. split; [constructor | intros k []].
  - cbn [numbered flat_map].
    set (a := BirtFileReader.mk_args start row verbose c (Some h) e).
    destruct (IH (start + 1)) as [S P].
    destruct (F a) as [E | E]; rewrite E; cbn [app].
    + split; [exact S|]. intros k I. destruct (P k I) as (b & Ib & Eb & Fb).
      exists b. split; [right; exact Ib | auto].
    + split.
      * constructor; [exact S|]. apply Forall_forall. intros k I.
        destruct (P k I) as (b & Ib & Eb & _).
        apply numbered_bounds in Ib. cbn. lia.
      * intros k [<-|I].
        -- exists a. split; [left; reflexivity|]. split; [reflexivity|].
           exact E.
        -- destruct (P k I) as (b & Ib & Eb & Fb).
           exists b. split; [right; exact Ib | auto].
Qed.

Section Run.

Variable strptime : string -> string -> option datetime.
Variable json_dumps : ODict.t -> string.
Variable utcnow : Z -> datetime.

Let process_row := BirtFileReader.process_row strptime json_dumps utcnow.
Let chunk_loop := BirtFileReader.chunk_loop strptime json_dumps utcnow.
Let syncprocess_chunk :=
  BirtFileReader.syncprocess_chunk strptime json_dumps utcnow.
Let run_chunks := BirtFileReader.run_chunks strptime json_dumps utcnow.
Let process := BirtFileReader.process strptime json_dumps utcnow.

Lemma process_row_valid_number (a : BirtFileReader.args) (r : record)
      (invalid : option InvalidRecord.t) :
  process_row a = Ok (BirtFileReader.ReturnList (Some r) invalid) ->
  in_range a /\ row_count r = BirtFileReader.a_row_count a.
Proof.
  intros H.
  destruct (in_range_dec a) as [R|R];
    [|unfold process_row in H;
      rewrite (process_row_not_in_range strptime json_dumps utcnow a R) in H;
      discriminate H].
  split; [exact R|]. unfold process_row in H.
  rewrite (process_row_in_range strptime json_dumps utcnow a R) in H.
  destruct (BirtFileReader.create strptime (fresh a) (BirtFileReader.a_row a))
    as [r1|e] eqn:C;
    [|destruct (BirtFileReader.handled e); discriminate H].
  destruct (create_created strptime _ _ _ (fresh_unset a) C)
    as [(_ & _ & _ & S4) _].
  unfold validate in H.
  destruct (_id r1);
    try (destruct (BirtFileReader.validation_errors json_dumps r1);
         discriminate H);
    (destruct (Cerberus.is_empty _);
     [inversion H; subst; exact S4
     |destruct (BirtFileReader.validation_errors json_dumps _);
      discriminate H]).
Qed.

Lemma process_row_invalid_number (a : BirtFileReader.args)
      (valid : option record) (invalid : InvalidRecord.t) :
  process_row a = Ok (BirtFileReader.ReturnList valid (Some invalid)) ->
  in_range a /\ row_number_of invalid = BirtFileReader.a_row_count a.
Proof.
  intros H.
  destruct (in_range_dec a) as [R|R];
    [|unfold process_row in H;
      rewrite (process_row_not_in_range strptime json_dumps utcnow a R) in H;
      discriminate H].
  split; [exact R|]. unfold process_row in H.
  rewrite (process_row_in_range strptime json_dumps utcnow a R) in H.
  destruct (BirtFileReader.create strptime (fresh a) (BirtFileReader.a_row a))
    as [r1|e] eqn:C;
    [|destruct (BirtFileReader.handled e); discriminate H].
  destruct (create_created strptime _ _ _ (fresh_unset a) C)
    as [(_ & _ & _ & S4) _].
  destruct (validate r1) as [[|] r2] eqn:V; [discriminate H|].
  assert (K : row_count r2 = row_count r1).
  { unfold validate in V. destruct (_id r1); inversion V; reflexivity. }
  destruct (BirtFileReader.validation_errors json_dumps r2)
    as [payload r3] eqn:E.
  assert (K3 : row_count r3 = row_count r2).
  { unfold BirtFileReader.validation_errors in E.
    destruct (Nat.ltb 0 _); inversion E; reflexivity. }
  inversion H. subst. unfold row_number_of.
  cbn. now rewrite K3, K, S4.
Qed.

Lemma chunk_loop_batches (chunk : list BirtFileReader.args) :
  forall valid invalid valid' invalid',
    chunk_loop chunk valid invalid = Ok (valid', invalid') ->
    valid' = app valid (flat_map (fun a => valid_of (process_row a)) chunk)
    /\ invalid'
       = app invalid (flat_map (fun a => invalid_of (process_row a)) chunk).
Proof.
  unfold chunk_loop.
  induction chunk as [|a chunk IH]; intros v i v' i' H.
  - cbn in H. inversion H. now rewrite !app_nil_r.
  - cbn [BirtFileReader.chunk_loop flat_map] in H |- *.
    fold process_row in H.
    destruct (process_row a) as [[|va ia]|e]; cbn [bind] in H;
      try discriminate H.
    apply IH in H. destruct H as [-> ->].
    destruct va, ia; cbn [BirtFileReader.append_some valid_of invalid_of app];
      rewrite <- ?app_assoc, ?app_nil_r; auto.
Qed.

(** How the loop over a chunk ends, row by row. *)
Lemma chunk_loop_outcome (bad : BirtFileReader.args -> bool) (e : exn)
      (chunk : list BirtFileReader.args) :
  (forall a, In a chunk -> bad a = false ->
             exists v i, process_row a = Ok (BirtFileReader.ReturnList v i)) ->
  (forall a, In a chunk -> bad a = true ->
             process_row a = Raise e
             \/ (process_row a = Ok BirtFileReader.ReturnNone
                 /\ e = TypeError)) ->
  forall valid invalid,
    (existsb bad chunk = false ->
     exists f, chunk_loop chunk valid invalid = Ok f)
    /\ (existsb bad chunk = true ->
        chunk_loop chunk valid invalid = Raise e).
Proof.
  unfold chunk_loop.
  induction chunk as [|a chunk IH]; intros G B v i.
  - cbn. split; [eauto | discriminate].
  - cbn [existsb BirtFileReader.chunk_loop]. fold process_row.
    assert (G' : forall b, In b chunk -> bad b = false ->
                           exists v i,
                             process_row b = Ok (BirtFileReader.ReturnList v i))
      by (intros b I; apply G; right; exact I).
    assert (B' : forall b, In b chunk -> bad b = true ->
                           process_row b = Raise e
                           \/ (process_row b = Ok BirtFileReader.ReturnNone
                               /\ e = TypeError))
      by (intros b I; apply B; right; exact I).
    destruct (bad a) eqn:Ba.
    + split; [discriminate|]. intros _.
      destruct (B a (or_introl eq_refl) Ba) as [-> | [-> ->]]; reflexivity.
    + destruct (G a (or_introl eq_refl) Ba) as (va & ia & ->). cbn [bind orb].
      apply IH; assumption.
Qed.

Lemma run_chunks_completed (chunks : list (list BirtFileReader.args)) :
  forall acc flushes,
    run_chunks chunks acc = BirtFileReader.Completed flushes ->
    exists fs, flushes = app acc fs
               /\ Forall2 (fun chunk f => syncprocess_chunk chunk = Ok f)
                          chunks fs.
Proof.
  unfold run_chunks.
  induction chunks as [|chunk chunks IH]; intros acc fl H.
  - cbn in H. inversion H. exists []. now rewrite app_nil_r.
  - cbn [BirtFileReader.run_chunks] in H. fold syncprocess_chunk in H.
    destruct (syncprocess_chunk chunk) as [f|e] eqn:S; [|discriminate H].
    destruct (IH _ _ H) as (fs & -> & F).
    exists (f :: fs). rewrite <- app_assoc. split; [reflexivity|].
    constructor; assumption.
Qed.

Lemma run_chunks_failed (chunks : list (list BirtFileReader.args)) :
  forall acc flushes e,
    run_chunks chunks acc = BirtFileReader.ChunkFailed flushes e ->
    exists before failing after fs,
      chunks = app before (failing :: after)
      /\ flushes = app acc fs
      /\ Forall2 (fun chunk f => syncprocess_chunk chunk = Ok f) before fs
      /\ syncprocess_chunk failing = Raise e.
Proof.
  unfold run_chunks.
  induction chunks as [|chunk chunks IH]; intros acc fl e H.
  - cbn in H. discriminate H.
  - cbn [BirtFileReader.run_chunks] in H. fold syncprocess_chunk in H.
    destruct (syncprocess_chunk chunk) as [f|e'] eqn:S.
    + destruct (IH _ _ _ H) as (pre & bad & post & fs & -> & -> & F & R).
      exists (chunk :: pre), bad, post, (f :: fs).
      rewrite <- app_assoc. repeat split; auto.
    + inversion H. subst. exists [], chunk, chunks, [].
      rewrite app_nil_r. repeat split; auto.
Qed.

Lemma flushed_batches (chunks : list (list BirtFileReader.args))
      (fs : list BirtFileReader.flush) :
  Forall2 (fun chunk f => syncprocess_chunk chunk = Ok f) chunks fs ->
  List.concat (map fst fs)
  = flat_map (fun a => valid_of (process_row a)) (List.concat chunks)
  /\ List.concat (map snd fs)
     = flat_map (fun a => invalid_of (process_row a)) (List.concat chunks).
Proof.
  induction 1 as [|chunk [v i] chunks fs S F IH]; [split; reflexivity|].
  cbn [map List.concat fst snd]. rewrite !flat_map_app.
  destruct IH as [-> ->].
  apply chunk_loop_batches in S. cbn [app] in S. destruct S as [-> ->].
  split; reflexivity.
Qed.

Lemma process_scanned (provider_type : record_class) (verbose : bool)
      (lines : list (list string)) :
  (exists position,
      process provider_type verbose lines
      = BirtFileReader.ScanFailed (BirtFileReader.InvalidFileFormat position))
  \/ (process provider_type verbose lines
      = run_chunks (BirtFileReader.gen_chunks lines verbose provider_type
                      (scanned_header lines) (Z.of_nat (List.length lines)))
                   []
      /\ List.concat
           (BirtFileReader.gen_chunks lines verbose provider_type
              (scanned_header lines) (Z.of_nat (List.length lines)))
         = rows_of provider_type verbose lines).
Proof.
  unfold process, BirtFileReader.process,
    BirtFileReader.find_header_and_end_of_data, rows_of.
  replace (BirtFileReader.header_position_of provider_type) with 0
    by now destruct provider_type.
  replace (BirtFileReader.num_empty_rows_eod_of provider_type) with 0
    by now destruct provider_type.
  destruct lines as [|first rest].
  - right. split; reflexivity.
  - rewrite scan_loop_first_row.
    destruct (BirtFileReader.any_stripped first); [|left; eauto].
    right. split; [reflexivity|].
    unfold BirtFileReader.gen_chunks.
    now rewrite (gen_loop_concat settings._CHUNK_SIZE).
Qed.

End Run.

Section Runs.

Variable strptime : string -> string -> option datetime.
Variable json_dumps : ODict.t -> string.
Variable utcnow : Z -> datetime.

Let process_row := BirtFileReader.process_row strptime json_dumps utcnow.
Let syncprocess_chunk :=
  BirtFileReader.syncprocess_chunk strptime json_dumps utcnow.
Let process := BirtFileReader.process strptime json_dumps utcnow.

(** X8. When [process] runs to its end it has made one flush for every
    chunk, and what the flushes have handed over, taken together, is what
    [process_row] gives for the rows of the file one by one: the valid
    records of the rows in the order of the file, none lost and none
    twice, and likewise the invalid records. *)
Theorem completed_run_hands_over_each_row (provider_type : record_class)
        (verbose : bool) (lines : list (list string))
        (flushes : list BirtFileReader.flush) :
  BirtFileReader.process strptime json_dumps utcnow provider_type verbose lines
  = BirtFileReader.Completed flushes ->
  List.length flushes
  = List.length (BirtFileReader.gen_chunks lines verbose provider_type
                   (scanned_header lines) (Z.of_nat (List.length lines)))
  /\ List.concat (map fst flushes)
     = flat_map (fun a => valid_of (process_row a))
                (rows_of provider_type verbose lines)
  /\ List.concat (map snd flushes)
     = flat_map (fun a => invalid_of (process_row a))
                (rows_of provider_type verbose lines).
Proof.
  intros H.
  destruct (process_scanned strptime json_dumps utcnow provider_type verbose
              lines) as [(p & S)|(S & G)];
    [rewrite S in H; discriminate H|].
  rewrite S in H. apply run_chunks_completed in H.
  destruct H as (fs & -> & F). cbn [app].
  split; [symmetry; exact (Forall2_length F)|].
  rewrite <- G. exact (flushed_batches strptime json_dumps utcnow _ _ F).
Qed.

(** X9. In a run that [process] completes, the row numbers of the valid
    records handed over, across all flushes, are strictly increasing, and
    so are those of the invalid records; each is the number of a row after
    the header row; and no row number is in both: a row gives at most one
    document, and the documents keep the order of the file. *)
Theorem completed_run_row_numbers (provider_type : record_class)
        (verbose : bool) (lines : list (list string))
        (flushes : list BirtFileReader.flush) :
  BirtFileReader.process strptime json_dumps utcnow provider_type verbose lines
  = BirtFileReader.Completed flushes ->
  StronglySorted Z.lt (valid_rows flushes)
  /\ StronglySorted Z.lt (invalid_rows flushes)
  /\ (forall k, In k (valid_rows flushes) ->
                1 <= k < Z.of_nat (List.length lines)
                /\ ~ In k (invalid_rows flushes))
  /\ (forall k, In k (invalid_rows flushes) ->
                1 <= k < Z.of_nat (List.length lines)).
Proof.
  intros H.
  destruct (process_scanned strptime json_dumps utcnow provider_type verbose
              lines) as [(p & S)|(S & G)];
    [rewrite S in H; discriminate H|].
  rewrite S in H. apply run_chunks_completed in H.
  destruct H as (fs & -> & F). cbn [app].
  destruct (flushed_batches strptime json_dumps utcnow _ _ F) as [V I].
  rewrite G in V, I. unfold valid_rows, invalid_rows. rewrite V, I.
  clear V I F S G fs.
  set (fv := fun a => map row_count (valid_of (process_row a))).
  set (fi := fun a => map row_number_of (invalid_of (process_row a))).
  assert (EV : forall l, map row_count
                           (flat_map (fun a => valid_of (process_row a)) l)
                         = flat_map fv l).
  { induction l as [|a l IH]; [reflexivity|].
    cbn [flat_map]. now rewrite map_app, IH. }
  assert (EI : forall l, map row_number_of
                           (flat_map (fun a => invalid_of (process_row a)) l)
                         = flat_map fi l).
  { induction l as [|a l IH]; [reflexivity|].
    cbn [flat_map]. now rewrite map_app, IH. }
  rewrite EV, EI. clear EV EI.
  assert (FV : forall a, (fv a = [] \/ fv a = [BirtFileReader.a_row_count a])
                         /\ (fv a <> [] -> in_range a /\ fi a = [])).
  { intros a. unfold fv, fi.
    destruct (process_row a) as [[|[r|] i]|e] eqn:P; cbn [valid_of map];
      try (split; [left; reflexivity | intros N; now contradiction N]).
    destruct (process_row_valid_number strptime json_dumps utcnow a r i P)
      as [R C].
    split; [right; now rewrite C|]. intros _. split; [exact R|].
    destruct i as [inv|]; [|reflexivity].
    destruct (process_row_invalid_validated strptime json_dumps utcnow
                a (Some r) inv P) as [N _]. discriminate N. }
  assert (FI : forall a, (fi a = [] \/ fi a = [BirtFileReader.a_row_count a])
                         /\ (fi a <> [] -> in_range a)).
  { intros a. unfold fi.
    destruct (process_row a) as [[|v [inv|]]|e] eqn:P; cbn [invalid_of map];
      try (split; [left; reflexivity | intros N; now contradiction N]).
    destruct (process_row_invalid_number strptime json_dumps utcnow a v inv P)
      as [R C].
    split; [right; now rewrite C | auto]. }
  unfold rows_of.
  destruct (numbered_picks fv verbose provider_type (scanned_header lines)
              (Z.of_nat (List.length lines)) lines
              (fun a => proj1 (FV a)) 0) as [SV PV].
  destruct (numbered_picks fi verbose provider_type (scanned_header lines)
              (Z.of_nat (List.length lines)) lines
              (fun a => proj1 (FI a)) 0) as [SI PI].
  assert (B : forall a, In a (numbered verbose provider_type
                                (scanned_header lines)
                                (Z.of_nat (List.length lines)) lines 0) ->
                        in_range a ->
                        1 <= BirtFileReader.a_row_count a
                        < Z.of_nat (List.length lines)).
  { intros a Ia (R1 & _). apply numbered_bounds in Ia.
    destruct Ia as (Ba & Pa & _). apply Z.leb_le in R1.
    rewrite Pa in R1. split; [|lia].
    now destruct provider_type. }
  split; [exact SV|]. split; [exact SI|]. split.
  - intros k Ik. destruct (PV k Ik) as (a & Ia & Ea & Fa).
    destruct (proj2 (FV a)) as [Ra Na]; [rewrite Fa; discriminate|].
    split; [rewrite <- Ea; exact (B a Ia Ra)|].
    intros Ik'. destruct (PI k Ik') as (a' & Ia' & Ea' & Fa').
    assert (a = a') by (eapply numbered_unique; eauto; congruence).
    subst a'. rewrite Na in Fa'. discriminate Fa'.
  - intros k Ik. destruct (PI k Ik) as (a & Ia & Ea & Fa).
    rewrite <- Ea. apply (B a Ia). apply (proj2 (FI a)).
    rewrite Fa. discriminate.
Qed.

(** X10. When [process] ends in a chunk, with an exception, the flushes
    made are those of the chunks before that chunk, each complete.  In
    the chunk itself there is a row on which [process_row] has raised that
    exception, or has returned [None], the exception then being the
    [TypeError] of the unpacking; no row of this chunk and of the chunks
    after it is handed over, the rows before the failing one included. *)
Theorem failed_run_keeps_earlier_chunks (provider_type : record_class)
        (verbose : bool) (lines : list (list string))
        (flushes : list BirtFileReader.flush) (e : exn) :
  BirtFileReader.process strptime json_dumps utcnow provider_type verbose lines
  = BirtFileReader.ChunkFailed flushes e ->
  exists before failing after a,
    BirtFileReader.gen_chunks lines verbose provider_type
      (scanned_header lines) (Z.of_nat (List.length lines))
    = app before (failing :: after)
    /\ Forall2 (fun chunk f => syncprocess_chunk chunk = Ok f) before flushes
    /\ In a failing
    /\ (process_row a = Raise e
        \/ (process_row a = Ok BirtFileReader.ReturnNone /\ e = TypeError))
    /\ List.concat (map fst flushes)
       = flat_map (fun a => valid_of (process_row a)) (List.concat before)
    /\ List.concat (map snd flushes)
       = flat_map (fun a => invalid_of (process_row a)) (List.concat before).
Proof.
  intros H.
  destruct (process_scanned strptime json_dumps utcnow provider_type verbose
              lines) as [(p & S)|(S & G)];
    [rewrite S in H; discriminate H|].
  rewrite S in H. apply run_chunks_failed in H.
  destruct H as (pre & bad & post & fs & C & -> & F & R). cbn [app].
  assert (A : exists a, In a bad
                        /\ (process_row a = Raise e
                            \/ (process_row a = Ok BirtFileReader.ReturnNone
                                /\ e = TypeError))).
  { unfold BirtFileReader.syncprocess_chunk in R. clear C F S G. revert R.
    generalize (@nil record) (@nil InvalidRecord.t).
    induction bad as [|a bad IH]; intros v i R; [discriminate R|].
    cbn [BirtFileReader.chunk_loop] in R. fold process_row in R.
    destruct (process_row a) as [[|va ia]|e'] eqn:P; cbn [bind] in R.
    - inversion R. subst. exists a. split; [left; reflexivity | auto].
    - destruct (IH _ _ R) as (b & Ib & Pb).
      exists b. split; [right; exact Ib | exact Pb].
    - inversion R. subst. exists a. split; [left; reflexivity | auto]. }
  destruct A as (a & Ia & Pa).
  exists pre, bad, post, a. split; [exact C|]. split; [exact F|].
  split; [exact Ia|]. split; [exact Pa|].
  exact (flushed_batches strptime json_dumps utcnow _ _ F).
Qed.

End Runs.

Lemma completed_run_hands_over_each_row_example :
  exists flushes,
    BirtFileReader.process Samples.strptime Samples.json_dumps Samples.utcnow
      Taxonomy false taxonomy_file = BirtFileReader.Completed flushes
    /\ List.length flushes = 1%nat
    /\ List.length (List.concat (map fst flushes)) = 1%nat
    /\ List.concat (map fst flushes)
       = flat_map
           (fun a => valid_of (BirtFileReader.process_row Samples.strptime
                                 Samples.json_dumps Samples.utcnow a))
           (rows_of Taxonomy false taxonomy_file).
Proof.
  eexists. split; [vm_compute; reflexivity|].
  split; [reflexivity|]. split; [reflexivity|].
  refine (proj1 (proj2 (completed_run_hands_over_each_row Samples.strptime
                          Samples.json_dumps Samples.utcnow Taxonomy false
                          taxonomy_file _ _))).
  vm_compute. reflexivity.
Defined.

Lemma completed_run_row_numbers_example :
  exists flushes,
    BirtFileReader.process Samples.strptime Samples.json_dumps Samples.utcnow
      Taxonomy false taxonomy_file = BirtFileReader.Completed flushes
    /\ valid_rows flushes = [1]
    /\ invalid_rows flushes = [3; 4]
    /\ StronglySorted Z.lt (invalid_rows flushes).
Proof.
  eexists. split; [vm_compute; reflexivity|].
  split; [reflexivity|]. split; [reflexivity|].
  refine (proj1 (proj2 (completed_run_row_numbers Samples.strptime
                          Samples.json_dumps Samples.utcnow Taxonomy false
                          taxonomy_file _ _))).
  vm_compute. reflexivity.
Defined.

Lemma failed_run_keeps_earlier_chunks_example :
  BirtFileReader.process Samples.strptime Samples.json_dumps Samples.utcnow
    Taxonomy false ragged_taxonomy_file
  = BirtFileReader.ChunkFailed [] TypeError
  /\ exists before failing after a,
      BirtFileReader.gen_chunks ragged_taxonomy_file false Taxonomy
        (scanned_header ragged_taxonomy_file)
        (Z.of_nat (List.length ragged_taxonomy_file))
      = app before (failing :: after)
      /\ In a failing.
Proof.
  split; [vm_compute; reflexivity|].
  destruct (failed_run_keeps_earlier_chunks Samples.strptime
              Samples.json_dumps Samples.utcnow Taxonomy false
              ragged_taxonomy_file [] TypeError)
    as (before & failing & after & a & C & _ & I & _).
  - vm_compute. reflexivity.
  - exists before, failing, after, a. split; [exact C | exact I].
Defined.

(** ** Which files a run gets through *)

(** In a run every row after the header row with a cell that is not
    empty is in the data range: the end of data that the scan has found
    is the number of rows, which no row has as its number. *)
Lemma rows_of_in_range (provider_type : record_class) (verbose : bool)
      (lines : list (list string)) (a : BirtFileReader.args) :
  In a (rows_of provider_type verbose lines) ->
  (in_range a <-> 1 <= BirtFileReader.a_row_count a
                  /\ BirtFileReader.any (BirtFileReader.a_row a) = true).
Proof.
  intros I. apply numbered_bounds in I. destruct I as (B & P & _ & E & _).
  unfold in_range. rewrite P, E.
  replace (data_position_of provider_type) with 1
    by now destruct provider_type.
  rewrite Z.leb_le, Z.eqb_neq. intuition lia.
Qed.

Section Outcome.

Variable strptime : string -> string -> option datetime.
Variable json_dumps : ODict.t -> string.
Variable utcnow : Z -> datetime.

Let process_row := BirtFileReader.process_row strptime json_dumps utcnow.
Let run_chunks := BirtFileReader.run_chunks strptime json_dumps utcnow.
Let process := BirtFileReader.process strptime json_dumps utcnow.

Lemma process_row_created (a : BirtFileReader.args) (r : record) :
  in_range a ->
  BirtFileReader.create strptime (fresh a) (BirtFileReader.a_row a) = Ok r ->
  exists v i, process_row a = Ok (BirtFileReader.ReturnList v i).
Proof.
  intros R C. unfold process_row.
  rewrite (process_row_in_range strptime json_dumps utcnow a R), C.
  destruct (validate r) as [[|] r2]; [eauto|].
  destruct (BirtFileReader.validation_errors json_dumps r2). eauto.
Qed.

Lemma process_row_raised (a : BirtFileReader.args) (e : exn) :
  in_range a ->
  BirtFileReader.create strptime (fresh a) (BirtFileReader.a_row a) = Raise e ->
  BirtFileReader.handled e = false ->
  process_row a = Raise e.
Proof.
  intros R C H. unfold process_row.
  now rewrite (process_row_in_range strptime json_dumps utcnow a R), C, H.
Qed.

Lemma run_chunks_outcome (bad : BirtFileReader.args -> bool) (e : exn)
      (chunks : list (list BirtFileReader.args)) :
  (forall a, In a (List.concat chunks) -> bad a = false ->
             exists v i, process_row a = Ok (BirtFileReader.ReturnList v i)) ->
  (forall a, In a (List.concat chunks) -> bad a = true ->
             process_row a = Raise e
             \/ (process_row a = Ok BirtFileReader.ReturnNone
                 /\ e = TypeError)) ->
  forall acc,
    (existsb bad (List.concat chunks) = false ->
     exists flushes, run_chunks chunks acc = BirtFileReader.Completed flushes)
    /\ (existsb bad (List.concat chunks) = true ->
        exists flushes,
          run_chunks chunks acc = BirtFileReader.ChunkFailed flushes e).
Proof.
  unfold run_chunks.
  induction chunks as [|chunk chunks IH]; intros G B acc.
  - cbn. split; [eauto | discriminate].
  - cbn [List.concat BirtFileReader.run_chunks] in *.
    rewrite existsb_app.
    destruct (chunk_loop_outcome strptime json_dumps utcnow bad e chunk)
      with (valid := @nil record) (invalid := @nil InvalidRecord.t)
      as [CG CB].
    { intros a I. apply G. apply in_or_app. now left. }
    { intros a I. apply B. apply in_or_app. now left. }
    unfold BirtFileReader.syncprocess_chunk.
    destruct (existsb bad chunk).
    + rewrite (CB eq_refl). split; [discriminate | eauto].
    + destruct (CG eq_refl) as (f & ->). cbn [orb].
      apply IH.
      * intros a I. apply G. apply in_or_app. now right.
      * intros a I. apply B. apply in_or_app. now right.
Qed.

Lemma run_chunks_scanned (chunks : list (list BirtFileReader.args)) :
  forall acc e, run_chunks chunks acc <> BirtFileReader.ScanFailed e.
Proof.
  unfold run_chunks.
  induction chunks as [|chunk chunks IH]; intros acc e; cbn; [discriminate|].
  destruct (BirtFileReader.syncprocess_chunk _ _ _ chunk);
    [apply IH | discriminate].
Qed.

Lemma existsb_numbered (bad : BirtFileReader.args -> bool)
      (p : list string -> bool) (verbose : bool) (c : record_class)
      (h : list string) (e : Z) (lines : list (list string)) :
  forall start,
    (forall a, In a (numbered verbose c h e lines start) ->
               bad a = p (BirtFileReader.a_row a)) ->
    existsb bad (numbered verbose c h e lines start) = existsb p lines.
Proof.
  induction lines as [|row lines IH]; intros start H; [reflexivity|].
  cbn [numbered existsb] in *. rewrite (H _ (or_introl eq_refl)).
  cbn [BirtFileReader.a_row]. f_equal. apply IH.
  intros a I. apply H. now right.
Qed.

(** The outcome of a run over a file whose header row is not blank, when
    the rows on which [process_row] does not return a pair are those that
    [p] tells from their cells. *)
Lemma process_outcome (p : list string -> bool) (e : exn)
      (provider_type : record_class) (verbose : bool)
      (header : list string) (rows : list (list string)) :
  BirtFileReader.any_stripped header = true ->
  (forall a, In a (rows_of provider_type verbose (header :: rows)) ->
             in_range a -> p (BirtFileReader.a_row a) = false ->
             exists v i, process_row a = Ok (BirtFileReader.ReturnList v i)) ->
  (forall a, In a (rows_of provider_type verbose (header :: rows)) ->
             in_range a -> p (BirtFileReader.a_row a) = true ->
             process_row a = Raise e
             \/ (process_row a = Ok BirtFileReader.ReturnNone
                 /\ e = TypeError)) ->
  (forall row, p row = true -> BirtFileReader.any row = true) ->
  (existsb p rows = false ->
   exists flushes,
     process provider_type verbose (header :: rows)
     = BirtFileReader.Completed flushes)
  /\ (existsb p rows = true ->
      exists flushes,
        process provider_type verbose (header :: rows)
        = BirtFileReader.ChunkFailed flushes e).
Proof.
  intros A G B N.
  destruct (process_scanned strptime json_dumps utcnow provider_type verbose
              (header :: rows)) as [(q & S)|(S & C)].
  { unfold BirtFileReader.process,
      BirtFileReader.find_header_and_end_of_data in S.
    replace (BirtFileReader.header_position_of provider_type) with 0 in S
      by now destruct provider_type.
    replace (BirtFileReader.num_empty_rows_eod_of provider_type) with 0 in S
      by now destruct provider_type.
    rewrite scan_loop_first_row, A in S.
    now apply run_chunks_scanned in S. }
  unfold process. rewrite S.
  set (bad := fun a => ((1 <=? BirtFileReader.a_row_count a)
                        && p (BirtFileReader.a_row a))%bool).
  assert (E : existsb bad (rows_of provider_type verbose (header :: rows))
              = existsb p rows).
  { unfold rows_of. cbn [numbered existsb]. unfold bad at 1.
    cbn [BirtFileReader.a_row_count Z.leb Z.compare andb orb].
    apply existsb_numbered. intros a I. unfold bad.
    apply numbered_bounds in I. destruct I as (Ba & _).
    replace (1 <=? BirtFileReader.a_row_count a) with true
      by (symmetry; apply Z.leb_le; lia).
    reflexivity. }
  rewrite <- E, <- C.
  apply (run_chunks_outcome bad e).
  - rewrite C. intros a I Ba.
    destruct (in_range_dec a) as [R|R].
    + apply (G a I R). apply (rows_of_in_range _ _ _ _ I) in R.
      destruct R as [R _]. apply Z.leb_le in R. unfold bad in Ba.
      now rewrite R in Ba.
    + exists None, None.
      exact (process_row_not_in_range strptime json_dumps utcnow a R).
  - rewrite C. intros a I Ba. unfold bad in Ba.
    apply andb_true_iff in Ba. destruct Ba as [R P].
    apply B; [exact I | | exact P].
    apply (rows_of_in_range _ _ _ _ I). split; [now apply Z.leb_le|].
    now apply N.
Qed.

End Outcome.

Section Files.

Variable strptime : string -> string -> option datetime.
Variable json_dumps : ODict.t -> string.
Variable utcnow : Z -> datetime.

(** X11. A Taxonomy file whose header row is not blank is processed to
    the end exactly when every row after the header that has a cell that
    is not empty has as many cells as the header.  When one such row has
    not, wherever it is in the file, the run ends in a chunk with
    [TypeError]. *)
Theorem taxonomy_run_outcome (verbose : bool) (header : list string)
        (rows : list (list string)) :
  BirtFileReader.any_stripped header = true ->
  (existsb (misfit header) rows = false ->
   exists flushes,
     BirtFileReader.process strptime json_dumps utcnow Taxonomy verbose
       (header :: rows) = BirtFileReader.Completed flushes)
  /\ (existsb (misfit header) rows = true ->
      exists flushes,
        BirtFileReader.process strptime json_dumps utcnow Taxonomy verbose
          (header :: rows) = BirtFileReader.ChunkFailed flushes TypeError).
Proof.
  intros A.
  apply (process_outcome strptime json_dumps utcnow (misfit header) TypeError
           Taxonomy verbose header rows A).
  - intros a I R M. pose proof R as (_ & _ & Y).
    apply numbered_bounds in I. destruct I as (_ & P & H & _).
    unfold misfit in M. rewrite Y in M. cbn [andb] in M.
    apply negb_false_iff, Nat.eqb_eq in M.
    destruct (taxonomy_create_length strptime (fresh a)
                (scanned_header (header :: rows)) (BirtFileReader.a_row a))
      as [_ L].
    + exact H.
    + cbn [fresh provider_map]. now rewrite P.
    + destruct L as (r & C).
      * cbn [scanned_header]. now rewrite length_map.
      * apply (process_row_created strptime json_dumps utcnow a r R).
        unfold BirtFileReader.create. cbn [fresh cls]. now rewrite P.
  - intros a I R M. right. split; [|reflexivity].
    apply numbered_bounds in I. destruct I as (_ & P & H & _).
    unfold misfit in M. apply andb_true_iff in M. destruct M as [_ M].
    apply negb_true_iff, Nat.eqb_neq in M.
    destruct (taxonomy_create_length strptime (fresh a)
                (scanned_header (header :: rows)) (BirtFileReader.a_row a))
      as [L _].
    + exact H.
    + cbn [fresh provider_map]. now rewrite P.
    + apply (process_row_caught strptime json_dumps utcnow a
               (InvalidRecordLength "Record length does not equal header_row")
               R); [|reflexivity].
      unfold BirtFileReader.create. cbn [fresh cls]. rewrite P.
      apply L. cbn [scanned_header]. now rewrite length_map.
  - intros row M. unfold misfit in M. now apply andb_true_iff in M.
Qed.

(** X12. A Migration-Core file whose header row is not blank is
    processed to the end exactly when no row after the header that has a
    cell that is not empty has a cell in the first column without a
    canonical name or, when every column has one, past the header row;
    shorter rows are accepted.  When one such row goes that far the run
    ends in a chunk, with the [AttributeError] of [Record.sanitize_key]
    when the header row has a column without a canonical name, and with
    [IndexError] otherwise. *)
Theorem core_run_outcome (verbose : bool) (header : list string)
        (rows : list (list string)) :
  BirtFileReader.any_stripped header = true ->
  (existsb (beyond Core (map BirtFileReader.normalize header)) rows = false ->
   exists flushes,
     BirtFileReader.process strptime json_dumps utcnow Core verbose
       (header :: rows) = BirtFileReader.Completed flushes)
  /\ (existsb (beyond Core (map BirtFileReader.normalize header)) rows = true ->
      exists flushes,
        BirtFileReader.process strptime json_dumps utcnow Core verbose
          (header :: rows)
        = BirtFileReader.ChunkFailed flushes
            (overrun Core (map BirtFileReader.normalize header))).
Proof.
  intros A.
  apply (process_outcome strptime json_dumps utcnow
           (beyond Core (map BirtFileReader.normalize header))
           (overrun Core (map BirtFileReader.normalize header))
           Core verbose header rows A).
  - intros a I R M. pose proof R as (_ & _ & Y).
    apply numbered_bounds in I. destruct I as (_ & P & H & _).
    unfold beyond in M. rewrite Y in M. cbn [andb] in M.
    apply Nat.ltb_ge in M.
    destruct (core_create_ragged strptime (fresh a)
                (scanned_header (header :: rows)) (BirtFileReader.a_row a))
      as [L _].
    + exact H.
    + cbn [fresh provider_map]. now rewrite P.
    + destruct (L M) as (r & C).
      apply (process_row_created strptime json_dumps utcnow a r R).
      unfold BirtFileReader.create. cbn [fresh cls]. now rewrite P.
  - intros a I R M. left.
    apply numbered_bounds in I. destruct I as (_ & P & H & _).
    unfold beyond in M. apply andb_true_iff in M. destruct M as [_ M].
    apply Nat.ltb_lt in M.
    destruct (core_create_ragged strptime (fresh a)
                (scanned_header (header :: rows)) (BirtFileReader.a_row a))
      as [_ L].
    + exact H.
    + cbn [fresh provider_map]. now rewrite P.
    + apply (process_row_raised strptime json_dumps utcnow a _ R).
      * unfold BirtFileReader.create. cbn [fresh cls]. rewrite P.
        exact (L M).
      * unfold overrun. now destruct (Nat.ltb _ _).
  - intros row M. unfold beyond in M. now apply andb_true_iff in M.
Qed.

End Files.

Lemma taxonomy_run_outcome_example :
  (exists flushes,
      BirtFileReader.process Samples.strptime Samples.json_dumps
        Samples.utcnow Taxonomy false taxonomy_file
      = BirtFileReader.Completed flushes)
  /\ (exists flushes,
         BirtFileReader.process Samples.strptime Samples.json_dumps
           Samples.utcnow Taxonomy false ragged_taxonomy_file
         = BirtFileReader.ChunkFailed flushes TypeError).
Proof.
  split.
  - apply (proj1 (taxonomy_run_outcome Samples.strptime Samples.json_dumps
                    Samples.utcnow false (hd [] taxonomy_file)
                    (tl taxonomy_file) eq_refl)).
    reflexivity.
  - apply (proj2 (taxonomy_run_outcome Samples.strptime Samples.json_dumps
                    Samples.utcnow false (hd [] ragged_taxonomy_file)
                    (tl ragged_taxonomy_file) eq_refl)).
    reflexivity.
Defined.

Lemma core_run_outcome_example :
  (exists flushes,
      BirtFileReader.process Samples.strptime Samples.json_dumps
        Samples.utcnow Core false
        [["sampling_event_id"; "loc_id"; "NLCD2011_FS_C11"];
         ["S1"; "L1"]; ["S2"]]
      = BirtFileReader.Completed flushes)
  /\ (exists flushes,
         BirtFileReader.process Samples.strptime Samples.json_dumps
           Samples.utcnow Core false
           [["sampling_event_id"; "loc_id"; "NLCD2011_FS_C11"];
            ["S1"; "L1"; "0.25"]]
         = BirtFileReader.ChunkFailed flushes (AttributeError "sanitize_key"))
  /\ (exists flushes,
         BirtFileReader.process Samples.strptime Samples.json_dumps
           Samples.utcnow Core false
           [["sampling_event_id"; "loc_id"; "pop00_sqmi"];
            Samples.core_row_too_long]
         = BirtFileReader.ChunkFailed flushes IndexError).
Proof.
  split; [|split].
  - apply (proj1 (core_run_outcome Samples.strptime Samples.json_dumps
                    Samples.utcnow false
                    ["sampling_event_id"; "loc_id"; "NLCD2011_FS_C11"]
                    [["S1"; "L1"]; ["S2"]] eq_refl)).
    reflexivity.
  - apply (proj2 (core_run_outcome Samples.strptime Samples.json_dumps
                    Samples.utcnow false
                    ["sampling_event_id"; "loc_id"; "NLCD2011_FS_C11"]
                    [["S1"; "L1"; "0.25"]] eq_refl)).
    reflexivity.
  - apply (proj2 (core_run_outcome Samples.strptime Samples.json_dumps
                    Samples.utcnow false
                    ["sampling_event_id"; "loc_id"; "pop00_sqmi"]
                    [Samples.core_row_too_long] eq_refl)).
    reflexivity.
Defined.

(* ================================================================== *)
(** * Coercion, on the schemas of the repository *)
(* ================================================================== *)

(** ** Booleans *)

Lemma is_digit_lower_char (c : ascii) :
  PyStr.is_digit (PyStr.lower_char c) = PyStr.is_digit c.
Proof. destruct c as [[] [] [] [] [] [] [] []]; reflexivity. Qed.

Lemma digit_lower_char (c : ascii) :
  PyStr.is_digit c = true -> PyStr.lower_char c = c.
Proof. destruct c as [[] [] [] [] [] [] [] []]; try reflexivity; discriminate. Qed.

Lemma digits_lower (s : string) :
  forall acc count,
    PyStr.digits (PyStr.lower s) acc count
    = let '(n, k, r) := PyStr.digits s acc count in (n, k, PyStr.lower r).
Proof.
  induction s as [|c s IH]; intros acc count; [reflexivity|].
  cbn [PyStr.lower PyStr.digits]. rewrite is_digit_lower_char.
  destruct (PyStr.is_digit c) eqn:D; [|reflexivity].
  now rewrite (digit_lower_char c D), IH.
Qed.

Lemma sign_lower (s : string) :
  PyStr.sign (PyStr.lower s)
  = (fst (PyStr.sign s), PyStr.lower (snd (PyStr.sign s))).
Proof.
  destruct s as [|c s]; [reflexivity|].
  destruct c as [[] [] [] [] [] [] [] []]; reflexivity.
Qed.

(** [int] reads a string and its lower-case form alike. *)
Lemma int_of_string_lower (s : string) :
  PyNum.int_of_string (PyStr.lower s) = PyNum.int_of_string s.
Proof.
  unfold PyNum.int_of_string. rewrite strip_lower, sign_lower.
  destruct (PyStr.sign (PyStr.strip s)) as [neg r]. cbn [fst snd].
  rewrite digits_lower.
  destruct (PyStr.digits r 0 0) as [[n k] rest].
  now destruct rest.
Qed.

(** X13. On a string [parse_boolean] looks only at the lower-case form:
    it answers [True] for [true] and [1], [False] for [false] and [0],
    in any case of the letters, and null for every other string, among
    them [yes], [01], [1.0] and [true] with white space around it. *)
Theorem parse_boolean_of_a_string (x : string) :
  Record.parse_boolean (PStr x)
  = Ok (let l := PyStr.lower x in
        if (String.eqb l "true" || String.eqb l "1")%bool then PBool true
        else if (String.eqb l "false" || String.eqb l "0")%bool
             then PBool false
             else PNone).
Proof.
  unfold Record.parse_boolean, Record.could_be_boolean, Record.could_be_int,
    Py.int.
  rewrite <- (int_of_string_lower x). cbv zeta.
  destruct (String.eqb (PyStr.lower x) "true") eqn:T.
  { apply String.eqb_eq in T. rewrite T. reflexivity. }
  destruct (String.eqb (PyStr.lower x) "1") eqn:O.
  { apply String.eqb_eq in O. rewrite O. reflexivity. }
  destruct (String.eqb (PyStr.lower x) "false") eqn:F.
  { apply String.eqb_eq in F. rewrite F. reflexivity. }
  destruct (String.eqb (PyStr.lower x) "0") eqn:Z0.
  { apply String.eqb_eq in Z0. rewrite Z0. reflexivity. }
  reflexivity.
Qed.

(** ** The value stored and the rule of the field *)

Lemma schema_get_In (s : schema) (h : string) (r : rule) :
  schema_get s h = Some r -> In (h, r) s.
Proof.
  induction s as [|[k r'] s IH]; cbn [schema_get]; [discriminate|].
  destruct (String.eqb k h) eqn:E.
  - apply String.eqb_eq in E. intros H. inversion H. subst. now left.
  - intros H. right. auto.
Qed.

(** Every field of the three schemas but [loc] is declared, in lower
    case, of one of the five scalar types, without a nested schema. *)
Lemma scalar_rules (c : record_class) (h : string) (r : rule) :
  schema_get (schema_of c) h = Some r -> h <> "loc" ->
  In (r_type r) ["string"; "integer"; "number"; "float"; "boolean"]
  /\ PyStr.lower (r_type r) = r_type r
  /\ r_schema r = None.
Proof.
  intros G N. apply schema_get_In in G.
  destruct c; cbn in G;
    repeat (destruct G as [G|G];
            [inversion G; subst; try (now contradiction N);
             cbn; repeat split; tauto|]);
    destruct G.
Qed.

Section Conformity.

Variable strptime : string -> string -> option datetime.

Lemma coerced_value_conforms (s : schema) (fields fields' : ODict.t)
      (header x : string) (r : rule) :
  schema_get s header = Some r ->
  In (PyStr.lower (r_type r))
     ["string"; "integer"; "number"; "float"; "boolean"] ->
  Record.set_field_by_schema strptime s fields header (PStr x) = Ok fields' ->
  exists v, fields' = ODict.set fields header v
            /\ (v = PNone
                \/ Cerberus.type_ok (PyStr.lower (r_type r)) v = true).
Proof.
  intros G T. unfold Record.set_field_by_schema. rewrite G.
  cbn in T.
  destruct T as [T|[T|[T|[T|[T|[]]]]]]; rewrite <- T.
  - change (String.eqb "string" "string") with true. cbv iota.
    destruct (Record.is_empty_str (PStr x)).
    + intros H. inversion H. eauto.
    + destruct x as [|[[] [] [] [] [] [] [] []] [|c x]];
        intros H; inversion H; eauto.
  - change (String.eqb "integer" "string") with false.
    change (String.eqb "integer" "integer") with true. cbv iota.
    destruct (Record.could_be_int (PStr x)) eqn:I.
    + destruct (could_be_int_str x I) as (n & -> & _). cbn [bind].
      intros H. inversion H. eauto.
    + intros H. inversion H. eauto.
  - change (String.eqb "number" "string") with false.
    change (String.eqb "number" "integer") with false.
    change (String.eqb "number" "datetime") with false.
    change (String.eqb "number" "number") with true. cbv iota.
    destruct (Record.could_be_number (PStr x)) eqn:I.
    + destruct (could_be_number_str x I) as (f & ->). cbn [bind].
      intros H. inversion H. eauto.
    + intros H. inversion H. eauto.
  - change (String.eqb "float" "string") with false.
    change (String.eqb "float" "integer") with false.
    change (String.eqb "float" "datetime") with false.
    change (String.eqb "float" "number") with false.
    change (String.eqb "float" "float") with true. cbv iota.
    destruct (Record.could_be_float (PStr x)) eqn:I.
    + destruct (could_be_float_str x I) as (f & ->). cbn [bind].
      intros H. inversion H. eauto.
    + intros H. inversion H. eauto.
  - change (String.eqb "boolean" "string") with false.
    change (String.eqb "boolean" "integer") with false.
    change (String.eqb "boolean" "datetime") with false.
    change (String.eqb "boolean" "number") with false.
    change (String.eqb "boolean" "float") with false.
    change (String.eqb "boolean" "boolean") with true. cbv iota.
    destruct (parse_boolean_str x) as [->|[b ->]]; cbn [bind];
      intros H; inversion H; eauto.
Qed.

(** X14. Coercion and the schema agree on every field but [loc] of the
    three schemas: the value that [set_field_by_schema] stores for a cell
    is either accepted by the rules of the field, or it is null in a field
    that is not nullable.  A mapped column can make a record invalid only
    by a value that coercion has turned into null, never by a value of
    the wrong type. *)
Theorem coerced_field_passes_unless_null (c : record_class)
        (fields fields' : ODict.t) (h x : string) (r : rule) :
  schema_get (schema_of c) h = Some r ->
  h <> "loc" ->
  Record.set_field_by_schema strptime (schema_of c) fields h (PStr x)
  = Ok fields' ->
  exists v,
    fields' = ODict.set fields h v
    /\ (Cerberus.field_errors (allow_unknown_of c) r v = []
        \/ (v = PNone /\ r_nullable r = false)).
Proof.
  intros G N H.
  destruct (scalar_rules c h r G N) as (T & L & S).
  destruct (coerced_value_conforms (schema_of c) fields fields' h x r G)
    as (v & E & V); [now rewrite L | exact H |].
  exists v. split; [exact E|]. rewrite L in V.
  destruct r as [ty nullable required sch fmt]. cbn in S, V |- *. subst sch.
  destruct V as [->|V].
  - destruct nullable; auto.
  - left. destruct v; rewrite ?V; try reflexivity.
    cbn in T. destruct T as [T|[T|[T|[T|[T|[]]]]]]; subst ty; discriminate V.
Qed.

End Conformity.

Lemma coerced_field_passes_unless_null_example :
  exists v,
    ODict.set ODict.empty "year" (PInt 2021) = ODict.set ODict.empty "year" v
    /\ (Cerberus.field_errors (allow_unknown_of Checklist)
          (plain "integer" false true) v = []
        \/ (v = PNone /\ r_nullable (plain "integer" false true) = false)).
Proof.
  apply (coerced_field_passes_unless_null Samples.strptime Checklist
           ODict.empty (ODict.set ODict.empty "year" (PInt 2021))
           "year" " 2021 " (plain "integer" false true));
    [reflexivity | discriminate | reflexivity].
Defined.

Section Idempotence.

Variable strptime : string -> string -> option datetime.

(** X15. On the schema of each of the three record classes, none of
    which has a field of type datetime, coercion of a cell never raises,
    whatever the header and the text of the cell, and coercing again the
    value it has stored under the header leaves the fields as they
    are. *)
Theorem coercion_total_and_idempotent (c : record_class) (fields : ODict.t)
        (h x : string) :
  exists fields',
    Record.set_field_by_schema strptime (schema_of c) fields h (PStr x)
    = Ok fields'
    /\ forall v, ODict.get fields' h = Some v ->
                 Record.set_field_by_schema strptime (schema_of c) fields' h v
                 = Ok fields'.
Proof.
  destruct (schema_coercion_total strptime c fields h x) as (fields' & E).
  exists fields'. split; [exact E|]. intros v V.
  destruct (schema_get (schema_of c) h) as [r|] eqn:G.
  - apply (coercion_idempotent_without_datetime strptime (schema_of c)
             fields fields' h x r v G); auto.
    exact (no_datetime_get _ _ _ (no_datetime_of c) G).
  - unfold Record.set_field_by_schema. rewrite G. reflexivity.
Qed.

End Idempotence.

Section Coerced.

Variable strptime : string -> string -> option datetime.



End Coerced.

(* ================================================================== *)
(** * The location and the date of a checklist record *)
(* ================================================================== *)

Section Location.

Variable strptime : string -> string -> option datetime.

(** X16. For a Migration-Checklist row with one longitude column and
    one latitude column, the location that [create] leaves is decided by
    the two cells as [float] reads them.  When both read as numbers, not
    NaN, the location is the point with the longitude first and the
    latitude second if the latitude is within -90 and 90 and the
    longitude within -180 and 180, both bounds included, and null
    otherwise.  When a cell does not read as a float the location is
    null. *)
Theorem checklist_location (self r : record) (hs row : list string)
        (i j : nat) (hlon flon hlat flat : string) :
  header_row self = Some hs ->
  provider_map self = MigrationChecklistType.map ->
  nth_error hs i = Some hlon -> nth_error row i = Some flon ->
  Record.map_header MigrationChecklistType.map hlon = Ok (Some "longitude") ->
  only_header MigrationChecklistType.map hs row i "longitude" ->
  nth_error hs j = Some hlat -> nth_error row j = Some flat ->
  Record.map_header MigrationChecklistType.map hlat = Ok (Some "latitude") ->
  only_header MigrationChecklistType.map hs row j "latitude" ->
  MigrationChecklistRecord.create strptime self row = Ok r ->
  (forall lon lat,
      PyNum.float_of_string flon = Some lon ->
      PyNum.float_of_string flat = Some lat ->
      lon <> S754_nan -> lat <> S754_nan ->
      ODict.get (fields r) "loc"
      = Some (if (within (-90) 90 lat && within (-180) 180 lon)%bool
              then PDict [ ("type", PStr "Point");
                           ("coordinates", PList [PFloat lon; PFloat lat]) ]
              else PNone))
  /\ (PyNum.float_of_string flon = None
      \/ PyNum.float_of_string flat = None ->
      ODict.get (fields r) "loc" = Some PNone).
Proof.
  intros H M Hi Fi Ei Oi Hj Fj Ej Oj C.
  rewrite (checklist_loc_spec strptime self r hs row i j hlon flon hlat flat
             H M Hi Fi Ei Oi Hj Fj Ej Oj C).
  split.
  - intros lon lat -> -> Nlon Nlat. unfold loc_of.
    now rewrite (is_valid_coordinate_pair_spec lon lat Nlon Nlat).
  - intros [-> | ->]; f_equal; apply loc_of_missing.
Qed.

End Location.

Lemma checklist_location_example :
  exists r,
    MigrationChecklistRecord.create Samples.strptime Samples.checklist_record
      Samples.row_longitude_200 = Ok r
    /\ ODict.get (fields r) "loc" = Some PNone.
Proof.
  eexists. split; [vm_compute; reflexivity|].
  assert (O : forall i name,
             (i = 1%nat /\ name = "longitude")
             \/ (i = 2%nat /\ name = "latitude") ->
             only_header MigrationChecklistType.map
               ["sampling_event_id"; "longitude"; "latitude"; "year";
                "month"; "day"; "country"]
               Samples.row_longitude_200 i name).
  { intros i name I k h D L N.
    do 7 (destruct k as [|k];
          [cbn in N; inversion N; subst h;
           destruct I as [[-> ->]|[-> ->]];
           solve [congruence | vm_compute; discriminate]|]).
    cbn in L. lia. }
  destruct (PyNum.float_of_string "200") as [lon|] eqn:Flon;
    [|vm_compute in Flon; discriminate Flon].
  destruct (PyNum.float_of_string "40") as [lat|] eqn:Flat;
    [|vm_compute in Flat; discriminate Flat].
  match goal with
  | |- ODict.get (fields ?r) _ = _ =>
      destruct (checklist_location Samples.strptime Samples.checklist_record r
                  ["sampling_event_id"; "longitude"; "latitude"; "year";
                   "month"; "day"; "country"]
                  Samples.row_longitude_200 1%nat 2%nat
                  "longitude" "200" "latitude" "40"
                  eq_refl eq_refl eq_refl eq_refl eq_refl
                  (O 1%nat "longitude" (or_introl (conj eq_refl eq_refl)))
                  eq_refl eq_refl eq_refl
                  (O 2%nat "latitude" (or_intror (conj eq_refl eq_refl))))
        as [W _]; [vm_compute; reflexivity|]
  end.
  rewrite (W lon lat Flon Flat).
  - vm_compute in Flon, Flat. inversion Flon. inversion Flat. reflexivity.
  - vm_compute in Flon. inversion Flon. discriminate.
  - vm_compute in Flat. inversion Flat. discriminate.
Defined.

Section Date.

Variable strptime : string -> string -> option datetime.

(** X17. For a Migration-Checklist record that [create] returns and
    whose fields pass the schema, with a year of the calendar, the date
    is midnight of the first of January of that year plus (day - 1)
    days: the day is read as a day of the year and the month plays no
    part.  For a day from 1 to 365 the date lies in the year of the
    record. *)
Theorem checklist_date (self r : record) (row : list string) (y d : Z) :
  MigrationChecklistRecord.create strptime self row = Ok r ->
  ODict.get (fields r) "year" = Some (PInt y) ->
  ODict.get (fields r) "day" = Some (PInt d) ->
  Cerberus.validate MigrationChecklistRecord.allow_unknown
                    MigrationChecklistRecord.schema (fields r) = true ->
  1 <= y <= 9999 ->
  ODict.get (fields r) "date"
  = Some (PDatetime (mk_datetime (PyDatetime.ymd2ord y 1 1 + (d - 1)) 0))
  /\ (1 <= d <= 365 ->
      PyDatetime.ymd2ord y 1 1 <= PyDatetime.ymd2ord y 1 1 + (d - 1)
      < PyDatetime.ymd2ord (y + 1) 1 1).
Proof.
  intros C Y D V R.
  destruct (date_is_first_of_january_plus_days strptime self r row y d
              C Y D V) as [E _].
  rewrite (E R).
  assert (O : forall z, PyDatetime.ymd2ord z 1 1
                        = PyDatetime.days_before_year z + 1)
    by (intros z; unfold PyDatetime.ymd2ord, PyDatetime.days_before_month;
        cbn [Z.sub Z.add Z.opp Z.pos_sub Z.to_nat
             PyDatetime.days_before_month_aux]; lia).
  rewrite !O. split; [do 3 f_equal; lia|].
  intros B. unfold PyDatetime.days_before_year.
  replace (y + 1 - 1) with y by lia.
  Z.div_mod_to_equations. lia.
Qed.

End Date.

Lemma checklist_date_example :
  exists r,
    MigrationChecklistRecord.create Samples.strptime Samples.checklist_record
      Samples.row_day_400 = Ok r
    /\ ODict.get (fields r) "month" = Some (PInt 2)
    /\ ODict.get (fields r) "date"
       = Some (PDatetime
                 (mk_datetime (PyDatetime.ymd2ord 2021 1 1 + (400 - 1)) 0)).
Proof.
  eexists. split; [vm_compute; reflexivity|]. split; [reflexivity|].
  match goal with
  | |- ODict.get (fields ?r) _ = _ =>
      apply (proj1 (checklist_date Samples.strptime Samples.checklist_record
                      r Samples.row_day_400 2021 400
                      ltac:(vm_compute; reflexivity) eq_refl eq_refl
                      eq_refl ltac:(lia)))
  end.
Defined.

(* ================================================================== *)
(** * Which Migration-Core rows are valid *)
(* ================================================================== *)

Lemma for_fields_invariant_in {S : Type}
      (body : string -> string -> S -> result S) (Inv : S -> Prop)
      (hs : list string) :
  (forall h f st st', In h hs -> Inv st -> body h f st = Ok st' -> Inv st') ->
  forall row pos st st',
    Inv st -> for_fields body hs row pos st = Ok st' -> Inv st'.
Proof.
  intros B row. induction row as [|f row IH]; intros pos st st' I H.
  - simpl in H. now inversion H; subst.
  - simpl in H. destruct (nth_error hs pos) as [h|] eqn:N; [|discriminate].
    destruct (body h f st) as [st1|] eqn:E; [|discriminate]. simpl in H.
    eapply IH; [|exact H]. eapply (B h); eauto.
    eapply nth_error_In; eauto.
Qed.

Lemma accepted_empty (c : record_class) : accepted c ODict.empty.
Proof. intros k r v _ G. discriminate G. Qed.

Lemma accepted_set (c : record_class) (fields : ODict.t) (k : string)
      (v : pyval) :
  accepted c fields ->
  (forall r, schema_get (schema_of c) k = Some r ->
             Cerberus.field_errors (allow_unknown_of c) r v = []) ->
  accepted c (ODict.set fields k v).
Proof.
  intros A K k' r v' S G.
  destruct (String.eqb k k') eqn:E.
  - apply String.eqb_eq in E. subst k'. rewrite get_set_same in G.
    inversion G. subst. auto.
  - apply String.eqb_neq in E. rewrite get_set_other in G by exact E.
    eauto.
Qed.

(** A mapping whose defined fields are accepted and which lacks no
    required field has no error on the fields the schema defines. *)
Lemma known_errors_accepted (check : rule -> pyval -> list pyval)
      (s : schema) (doc : ODict.t) :
  Forall (fun e => match ODict.get doc (fst e) with
                   | Some v => check (snd e) v = []
                   | None => r_required (snd e) = false
                   end) s ->
  Cerberus.known_errors check s doc = [].
Proof.
  induction 1 as [|[k r] s H F IH]; [reflexivity|].
  cbn [Cerberus.known_errors fst snd] in *. rewrite IH, app_nil_r.
  destruct (ODict.get doc k); [now rewrite H | now rewrite H].
Qed.

Lemma core_schema_entries :
  Forall (fun e => schema_get MigrationCoreRecord.schema (fst e) = Some (snd e)
                   /\ r_required (snd e) = false
                   /\ r_nullable (snd e) = true)
         MigrationCoreRecord.schema.
Proof. repeat constructor. Qed.

Lemma core_rule (k : string) (r : rule) :
  schema_get MigrationCoreRecord.schema k = Some r ->
  k <> "loc" /\ r_nullable r = true.
Proof.
  intros G. split.
  - intros ->. discriminate G.
  - apply schema_get_In in G.
    pose proof core_schema_entries as F. rewrite Forall_forall in F.
    now destruct (F _ G) as (_ & _ & N).
Qed.

Lemma core_accepted_validates (fields : ODict.t) :
  accepted Core fields ->
  Cerberus.errors MigrationCoreRecord.allow_unknown MigrationCoreRecord.schema
                  fields = [].
Proof.
  intros A. unfold Cerberus.errors, MigrationCoreRecord.allow_unknown.
  rewrite unknown_errors_allowed, app_nil_r.
  apply known_errors_accepted.
  pose proof core_schema_entries as F.
  eapply Forall_impl; [|exact F]. cbv beta.
  intros [k r] (G & Q & _). cbn [fst snd] in *.
  destruct (ODict.get fields k) as [v|] eqn:E; [|exact Q].
  exact (A k r v G E).
Qed.

Section CoreRows.

Variable strptime : string -> string -> option datetime.
Variable json_dumps : ODict.t -> string.
Variable utcnow : Z -> datetime.

Lemma core_body_accepted (h f : string) (self self' : record) :
  provider_map self = MigrationCoreType.map ->
  accepted Core (fields self) ->
  MigrationCoreRecord.body strptime h f self = Ok self' ->
  accepted Core (fields self').
Proof.
  intros M A. unfold MigrationCoreRecord.body. rewrite M.
  destruct (Record.map_header MigrationCoreType.map h) as [[c|]|e];
    cbn [bind]; [| discriminate | discriminate].
  - destruct (Record.is_empty_str (PStr c));
      [intros H; inversion H; subst; exact A|].
    destruct (String.eqb (PyStr.lower c) "sampling_event_id").
    { destruct (negb _); intros H; inversion H; subst; exact A. }
    destruct (Record.set_field_by_schema strptime MigrationCoreRecord.schema
                (fields self) c (PStr f)) as [fields'|e] eqn:E;
      cbn [bind]; [|discriminate].
    intros H. inversion H. subst self'. cbn [fields with_fields].
    destruct (schema_get MigrationCoreRecord.schema c) as [r|] eqn:G.
    + destruct (core_rule c r G) as [L Nu].
      destruct (scalar_rules Core c r G L) as (T & Lo & Sc).
      destruct (coerced_value_conforms strptime MigrationCoreRecord.schema
                  (fields self) fields' c f r G)
        as (v & -> & V); [now rewrite Lo | exact E |].
      apply accepted_set; [exact A|].
      intros r' G'. cbn [schema_of] in G'. rewrite G in G'.
      inversion G'. subst r'. rewrite Lo in V.
      destruct r as [ty nullable required sch fmt]. cbn in Nu, Sc, V |- *.
      subst nullable sch.
      destruct V as [->|V]; [reflexivity|].
      destruct v; rewrite ?V; reflexivity.
    + unfold Record.set_field_by_schema in E. rewrite G in E.
      cbn in E. inversion E. subst. exact A.
Qed.

(** The fields of a Migration-Core record pass the schema after
    [create], whatever the cells hold. *)
Lemma core_create_accepted (self r : record) (hs row : list string) :
  header_row self = Some hs ->
  provider_map self = MigrationCoreType.map ->
  fields self = ODict.empty ->
  MigrationCoreRecord.create strptime self row = Ok r ->
  Cerberus.errors MigrationCoreRecord.allow_unknown MigrationCoreRecord.schema
                  (fields r) = [].
Proof.
  intros H M F. unfold MigrationCoreRecord.create, header_row_of.
  rewrite H. cbn [bind]. intros C.
  apply core_accepted_validates.
  apply (for_fields_invariant_in (MigrationCoreRecord.body strptime)
           (fun st => provider_map st = MigrationCoreType.map
                      /\ accepted Core (fields st)) hs)
    with (st := self) (st' := r) in C.
  - exact (proj2 C).
  - intros h f st st' I [Pm Ac] B. split.
    + exact (core_body_map strptime h f st st' Pm B).
    + apply (core_body_accepted h f st st'); auto.
  - split; [exact M|]. rewrite F. apply accepted_empty.
Qed.

(** X18. A Migration-Core row of the data range on which [create]
    returns a record can fail validation in one way only, by the lack of
    an identifier: whatever its cells hold, the record either has an
    identifier and goes to the valid batch, or has none and gives an
    invalid record whose error payload is empty. *)
Theorem core_row_is_valid_when_identified (a : BirtFileReader.args)
        (hs : list string) (r : record) :
  BirtFileReader.a_provider_type a = Core ->
  BirtFileReader.a_header_row a = Some hs ->
  in_range a ->
  BirtFileReader.create strptime (fresh a) (BirtFileReader.a_row a) = Ok r ->
  BirtFileReader.process_row strptime json_dumps utcnow a
  = Ok (match _id r with
        | PNone =>
            BirtFileReader.ReturnList None
              (Some (InvalidRecord.init
                       (utcnow (BirtFileReader.a_row_count a)) (PDict [])
                       (PStr "MigrationCoreRecord")
                       (PInt (BirtFileReader.a_row_count a))))
        | _ => BirtFileReader.ReturnList (Some (with_errors r [])) None
        end).
Proof.
  intros P H R C.
  rewrite (process_row_in_range strptime json_dumps utcnow a R), C.
  destruct (create_created strptime _ _ _ (fresh_unset a) C)
    as [(S1 & _ & _ & S4) I].
  cbn [fresh cls row_count] in S1, S4. rewrite P in S1.
  assert (E : errors r = []).
  { rewrite (create_errors strptime (fresh a) r (BirtFileReader.a_row a));
      [reflexivity | cbn [fresh cls]; rewrite P; discriminate | exact C]. }
  assert (V : Cerberus.errors (allow_unknown_of (cls r)) (schema_of (cls r))
                              (fields r) = []).
  { rewrite S1. cbn [allow_unknown_of schema_of].
    apply (core_create_accepted (fresh a) r hs (BirtFileReader.a_row a));
      auto.
    - cbn [fresh provider_map]. now rewrite P.
    - unfold BirtFileReader.create in C. cbn [fresh cls] in C.
      now rewrite P in C. }
  unfold validate. destruct I as [I|(s & I & _)]; rewrite I.
  - unfold BirtFileReader.validation_errors. rewrite E.
    cbn [ODict.keys map List.length Nat.ltb Nat.leb].
    now rewrite S1, S4.
  - now rewrite V.
Qed.

End CoreRows.

Lemma core_row_is_valid_when_identified_example :
  exists r,
    BirtFileReader.create Samples.strptime
      (fresh (Samples.core_args ["S1"; "?"; "n/a"]))
      ["S1"; "?"; "n/a"] = Ok r
    /\ BirtFileReader.process_row Samples.strptime Samples.json_dumps
         Samples.utcnow (Samples.core_args ["S1"; "?"; "n/a"])
       = Ok (BirtFileReader.ReturnList (Some (with_errors r [])) None).
Proof.
  eexists. split; [vm_compute; reflexivity|].
  match goal with
  | |- _ = Ok (BirtFileReader.ReturnList (Some (with_errors ?r [])) None) =>
      exact (core_row_is_valid_when_identified Samples.strptime
               Samples.json_dumps Samples.utcnow
               (Samples.core_args ["S1"; "?"; "n/a"])
               ["sampling_event_id"; "loc_id"; "pop00_sqmi"]
               r eq_refl eq_refl
               (conj eq_refl (conj eq_refl eq_refl)) eq_refl)
  end.
Defined.

(* ================================================================== *)
(** * The identifier of a record *)
(* ================================================================== *)

Lemma mapped_lower (c : record_class) (h x : string) :
  Record.map_header (map_of c) h = Ok (Some x) -> PyStr.lower x = x.
Proof.
  destruct (lower_case_keys_of c) as (keys & -> & L).
  rewrite (map_header_identity_map keys h L).
  destruct (existsb _ keys) eqn:X; [|discriminate].
  intros H. inversion H. subst x. apply lower_idempotent.
Qed.

Section Identifier.

Variable strptime : string -> string -> option datetime.

Lemma taxonomy_body_map (h f : string) (self self' : record) :
  provider_map self = TaxonomyType.map ->
  TaxonomyRecord.body strptime h f self = Ok self' ->
  provider_map self' = TaxonomyType.map.
Proof.
  intros M H. destruct (taxonomy_body_total strptime h f self M) as (s & E & P).
  congruence.
Qed.

Lemma taxonomy_id_frame (h f : string) (self self' : record) :
  provider_map self = TaxonomyType.map ->
  Record.map_header TaxonomyType.map h <> Ok (Some "sci_name") ->
  TaxonomyRecord.body strptime h f self = Ok self' ->
  _id self' = _id self.
Proof.
  intros M N. unfold TaxonomyRecord.body. rewrite M.
  destruct (Record.map_header TaxonomyType.map h) as [[c|]|e] eqn:E;
    cbn [bind]; intros H; [| now inversion H | discriminate H].
  destruct (Record.is_empty_str (PStr c)); [now inversion H|].
  destruct (String.eqb (PyStr.lower c) "sci_name") eqn:X.
  { apply String.eqb_eq in X. rewrite (mapped_lower Taxonomy h c E) in X.
    congruence. }
  destruct (Record.set_field_by_schema _ _ _ _ _); [|discriminate H].
  cbn [bind] in H. now inversion H.
Qed.

Lemma taxonomy_id_column (h f : string) (self self' : record) :
  provider_map self = TaxonomyType.map ->
  Record.map_header TaxonomyType.map h = Ok (Some "sci_name") ->
  TaxonomyRecord.body strptime h f self = Ok self' ->
  _id self' = if PyStr.blank f then _id self else PStr (PyStr.lower f).
Proof.
  intros M E. unfold TaxonomyRecord.body. rewrite M, E. cbn.
  destruct (PyStr.blank f); cbn; intros H; now inversion H.
Qed.

Lemma core_id_frame (h f : string) (self self' : record) :
  provider_map self = MigrationCoreType.map ->
  Record.map_header MigrationCoreType.map h <> Ok (Some "sampling_event_id") ->
  MigrationCoreRecord.body strptime h f self = Ok self' ->
  _id self' = _id self.
Proof.
  intros M N. unfold MigrationCoreRecord.body. rewrite M.
  destruct (Record.map_header MigrationCoreType.map h) as [[c|]|e] eqn:E;
    cbn [bind]; intros H; [| | discriminate H].
  - destruct (Record.is_empty_str (PStr c)); [now inversion H|].
    destruct (String.eqb (PyStr.lower c) "sampling_event_id") eqn:X.
    { apply String.eqb_eq in X. rewrite (mapped_lower Core h c E) in X.
      congruence. }
    destruct (Record.set_field_by_schema _ _ _ _ _); [|discriminate H].
    cbn [bind] in H. now inversion H.
  - discriminate H.
Qed.

Lemma core_id_column (h f : string) (self self' : record) :
  provider_map self = MigrationCoreType.map ->
  Record.map_header MigrationCoreType.map h = Ok (Some "sampling_event_id") ->
  MigrationCoreRecord.body strptime h f self = Ok self' ->
  _id self' = if PyStr.blank f then _id self else PStr f.
Proof.
  intros M E. unfold MigrationCoreRecord.body. rewrite M, E. cbn.
  destruct (PyStr.blank f); cbn; intros H; now inversion H.
Qed.

Lemma checklist_id_frame (h f : string)
      (st st' : record * MigrationChecklistRecord.coordinates) :
  provider_map (fst st) = MigrationChecklistType.map ->
  Record.map_header MigrationChecklistType.map h
  <> Ok (Some "sampling_event_id") ->
  MigrationChecklistRecord.body strptime h f st = Ok st' ->
  _id (fst st') = _id (fst st).
Proof.
  destruct st as [self coords]. cbn [fst]. intros M N.
  unfold MigrationChecklistRecord.body. rewrite M.
  destruct (Record.map_header MigrationChecklistType.map h)
    as [[c|]|e] eqn:E; cbn [bind]; intros H; [| |discriminate H].
  - destruct (Record.is_empty_str (PStr c)); [now inversion H|].
    destruct (String.eqb (PyStr.lower c) "sampling_event_id") eqn:X.
    { apply String.eqb_eq in X. rewrite (mapped_lower Checklist h c E) in X.
      congruence. }
    destruct (String.eqb (PyStr.lower c) "longitude").
    { destruct (Record.could_be_float (PStr f)); [|now inversion H].
      destruct (Py.float (PStr f)); cbn [bind] in H; [|discriminate H].
      now inversion H. }
    destruct (String.eqb (PyStr.lower c) "latitude").
    { destruct (Record.could_be_float (PStr f)); [|now inversion H].
      destruct (Py.float (PStr f)); cbn [bind] in H; [|discriminate H].
      now inversion H. }
    destruct (Record.set_field_by_schema _ _ _ _ _); [|discriminate H].
    cbn [bind] in H. now inversion H.
  - discriminate H.
Qed.

Lemma checklist_id_column (h f : string)
      (st st' : record * MigrationChecklistRecord.coordinates) :
  provider_map (fst st) = MigrationChecklistType.map ->
  Record.map_header MigrationChecklistType.map h
  = Ok (Some "sampling_event_id") ->
  MigrationChecklistRecord.body strptime h f st = Ok st' ->
  _id (fst st') = if PyStr.blank f then _id (fst st) else PStr f.
Proof.
  destruct st as [self coords]. cbn [fst]. intros M E.
  unfold MigrationChecklistRecord.body. rewrite M, E. cbn.
  destruct (PyStr.blank f); cbn; intros H; now inversion H.
Qed.

(** X19. When one column of the row is the identifier column of the
    class ([sci_name] for Taxonomy, [sampling_event_id] for the two
    Migration variants, in any case of the letters), the identifier of
    the record that [create] returns is decided by the cell of that
    column alone: it stays unset when the cell is blank, and is otherwise
    the text of the cell as it stands, white space around it included,
    in lower case for Taxonomy and unchanged for the other two. *)
Theorem record_identifier (self r : record) (hs row : list string)
        (i : nat) (h f : string) :
  header_row self = Some hs ->
  provider_map self = map_of (cls self) ->
  _id self = PNone ->
  nth_error hs i = Some h ->
  nth_error row i = Some f ->
  Record.map_header (map_of (cls self)) h = Ok (Some (id_header (cls self))) ->
  only_header (map_of (cls self)) hs row i (id_header (cls self)) ->
  BirtFileReader.create strptime self row = Ok r ->
  _id r = id_of (cls self) f.
Proof.
  intros H M U Hi Fi E O C. unfold BirtFileReader.create in C.
  unfold id_of. destruct (cls self) eqn:K; cbn [map_of id_header] in *.
  - unfold TaxonomyRecord.create, header_row_of in C. rewrite H in C.
    cbn [bind] in C.
    destruct (negb (Nat.eqb _ _)); [discriminate C|].
    destruct (for_fields_at (TaxonomyRecord.body strptime) _id
                (fun s => provider_map s = TaxonomyType.map)
                (fun h' => Record.map_header TaxonomyType.map h'
                           = Ok (Some "sci_name"))
                taxonomy_body_map
                (fun h' f' st st' I T B => taxonomy_id_frame h' f' st st' I T B)
                hs row 0%nat self r i f h M C Fi Hi)
      as (s1 & s2 & I1 & O1 & B1 & O2).
    { intros k h' R D G. apply (O k h'); [exact D | lia | exact G]. }
    rewrite O2, (taxonomy_id_column h f s1 s2 I1 E B1), O1, U. reflexivity.
  - destruct (checklist_create_inv _ _ _ _ C)
      as (hs' & self1 & coords & date & self3 & H' & L & G & ->).
    rewrite H in H'. inversion H'. subst hs'.
    apply gen_date_fields in G. destruct G as (_ & GI & _).
    cbn [_id with_fields] in GI |- *. rewrite GI.
    destruct (for_fields_at (MigrationChecklistRecord.body strptime)
                (fun s : record * MigrationChecklistRecord.coordinates =>
                   _id (fst s))
                (fun s => provider_map (fst s) = MigrationChecklistType.map)
                (fun h' => Record.map_header MigrationChecklistType.map h'
                           = Ok (Some "sampling_event_id"))
                (checklist_body_map strptime)
                (fun h' f' st st' I T B => checklist_id_frame h' f' st st' I T B)
                hs row 0%nat (self, (None, None)) (self1, coords) i f h
                M L Fi Hi)
      as (s1 & s2 & I1 & O1 & B1 & O2).
    { intros k h' R D G. apply (O k h'); [exact D | lia | exact G]. }
    cbn [fst] in O1, O2.
    rewrite O2, (checklist_id_column h f s1 s2 I1 E B1), O1, U. reflexivity.
  - unfold MigrationCoreRecord.create, header_row_of in C. rewrite H in C.
    cbn [bind] in C.
    destruct (for_fields_at (MigrationCoreRecord.body strptime) _id
                (fun s => provider_map s = MigrationCoreType.map)
                (fun h' => Record.map_header MigrationCoreType.map h'
                           = Ok (Some "sampling_event_id"))
                (core_body_map strptime)
                (fun h' f' st st' I T B => core_id_frame h' f' st st' I T B)
                hs row 0%nat self r i f h M C Fi Hi)
      as (s1 & s2 & I1 & O1 & B1 & O2).
    { intros k h' R D G. apply (O k h'); [exact D | lia | exact G]. }
    rewrite O2, (core_id_column h f s1 s2 I1 E B1), O1, U. reflexivity.
Qed.

End Identifier.

Lemma record_identifier_example :
  exists r,
    BirtFileReader.create Samples.strptime
      (fresh (Samples.taxonomy_args 1 [" Turdus Migratorius"; "American Robin"]))
      [" Turdus Migratorius"; "American Robin"] = Ok r
    /\ _id r = PStr " turdus migratorius".
Proof.
  eexists. split; [vm_compute; reflexivity|].
  match goal with
  | |- _id ?r = _ =>
      apply (record_identifier Samples.strptime
               (fresh (Samples.taxonomy_args 1
                         [" Turdus Migratorius"; "American Robin"]))
               r ["sci_name"; "primary_com_name"]
               [" Turdus Migratorius"; "American Robin"]
               0%nat "sci_name" " Turdus Migratorius"
               eq_refl eq_refl eq_refl eq_refl eq_refl eq_refl)
  end.
  - intros k h D L N.
    do 2 (destruct k as [|k];
          [cbn in N; inversion N; subst h;
           solve [congruence | vm_compute; discriminate]|]).
    cbn in L. lia.
  - vm_compute. reflexivity.
Defined.

(* ================================================================== *)
(** * The exceptions of a checklist row *)
(* ================================================================== *)

Lemma known_errors_nil (check : rule -> pyval -> list pyval) (s : schema)
      (doc : ODict.t) :
  Cerberus.known_errors check s doc = [] ->
  forall k r, In (k, r) s ->
              match ODict.get doc k with
              | Some v => check r v = []
              | None => r_required r = false
              end.
Proof.
  induction s as [|[k0 r0] s IH]; intros E k r I; [destruct I|].
  cbn [Cerberus.known_errors] in E. apply app_eq_nil in E.
  destruct E as [E0 E]. destruct I as [I|I].
  - inversion I. subst k0 r0. clear I.
    destruct (ODict.get doc k) as [v|].
    + destruct (check r v) as [|m [|m' ms]]; [reflexivity | | ];
        discriminate E0.
    + destruct (r_required r); [discriminate E0 | reflexivity].
  - now apply IH.
Qed.

(** A field declared an integer, required and not nullable, holds an
    integer or a boolean in a mapping without errors. *)
Lemma integer_field_of_valid (fields : ODict.t) (k : string) :
  Cerberus.errors MigrationChecklistRecord.allow_unknown
                  MigrationChecklistRecord.schema fields = [] ->
  In (k, plain "integer" false true) MigrationChecklistRecord.schema ->
  exists v, ODict.get fields k = Some v
            /\ ((exists n, v = PInt n) \/ (exists b, v = PBool b)).
Proof.
  unfold Cerberus.errors. intros E I. apply app_eq_nil in E.
  destruct E as [E _].
  pose proof (known_errors_nil _ _ _ E k _ I) as K.
  destruct (ODict.get fields k) as [v|]; [|discriminate K].
  exists v. split; [reflexivity|].
  destruct v; try discriminate K; eauto.
Qed.

(** [gen_date] raises nothing but [OverflowError]. *)
Lemma gen_date_raises_overflow_only (self : record) :
  (exists d self', MigrationChecklistRecord.gen_date self = Ok (d, self'))
  \/ MigrationChecklistRecord.gen_date self = Raise OverflowError.
Proof.
  unfold MigrationChecklistRecord.gen_date.
  destruct (Nat.eqb _ 0); [left; eauto|].
  destruct (Cerberus.errors _ _ _) as [|e0 errs] eqn:E;
    cbn [Cerberus.is_empty negb]; [|left; eauto].
  destruct (integer_field_of_valid (fields self) "year" E)
    as (vy & Gy & Ty); [cbn; tauto|].
  destruct (integer_field_of_valid (fields self) "day" E)
    as (vd & Gd & Td); [cbn; tauto|].
  unfold MigrationChecklistRecord.getitem. rewrite Gy, Gd. cbn [bind].
  assert (N : exists o, PyDatetime.new vy 1 1 = o
                        /\ ((exists t, o = Ok t) \/ o = Raise ValueError
                            \/ o = Raise OverflowError)).
  { eexists. split; [reflexivity|]. unfold PyDatetime.new.
    destruct Ty as [[n ->]|[b ->]]; cbn [PyDatetime.as_c_int].
    - destruct (_ && _)%bool; cbn [bind]; [|auto].
      destruct (_ && _)%bool; eauto.
    - cbn [bind]. destruct (_ && _)%bool; eauto. }
  destruct N as (o & -> & [[t ->]|[->| ->]]); cbn [bind]; eauto.
  assert (M : exists n, MigrationChecklistRecord.minus_one vd = Ok n)
    by (destruct Td as [[n ->]|[b ->]]; cbn; eauto).
  destruct M as (n & ->). cbn [bind].
  unfold PyDatetime.timedelta_days.
  destruct (Z.abs n <=? 999999999); cbn [bind]; [|auto].
  unfold PyDatetime.add.
  destruct (_ && _)%bool; cbn [bind]; eauto.
Qed.

Section ChecklistExceptions.

Variable strptime : string -> string -> option datetime.

(** X20. [create] of a Migration-Checklist record raises three
    exceptions only, whatever the cells hold.  On a row that has a cell
    in the first column without a canonical name it raises the
    [AttributeError] of [Record.sanitize_key]; when every column has a
    canonical name, on a row longer than the header row it raises
    [IndexError]; on a row that stops before, it returns or raises
    [OverflowError], from the computation of the date.  It never raises
    one of the two exceptions that [process_row] catches. *)
Theorem checklist_create_raises (self : record) (hs row : list string) :
  header_row self = Some hs ->
  provider_map self = MigrationChecklistType.map ->
  ((limit Checklist hs < List.length row)%nat ->
   MigrationChecklistRecord.create strptime self row
   = Raise (if Nat.ltb (limit Checklist hs) (List.length hs)
            then AttributeError "sanitize_key" else IndexError))
  /\ ((List.length row <= limit Checklist hs)%nat ->
      (exists r, MigrationChecklistRecord.create strptime self row = Ok r)
      \/ MigrationChecklistRecord.create strptime self row
         = Raise OverflowError).
Proof.
  intros H M.
  destruct (checklist_create_ragged strptime self hs row H M) as [S L].
  split; [exact L|]. intros B. destruct (S B) as ([self1 coords] & F).
  unfold MigrationChecklistRecord.create, header_row_of. rewrite H.
  cbn [bind]. rewrite F. cbn [bind].
  match goal with
  | |- context [MigrationChecklistRecord.gen_date ?s] =>
      destruct (gen_date_raises_overflow_only s) as [(d & self' & ->)| ->]
  end; cbn [bind]; eauto.
Qed.

End ChecklistExceptions.

Lemma checklist_create_raises_example :
  MigrationChecklistRecord.create Samples.strptime Samples.checklist_record
    Samples.checklist_row_too_long = Raise IndexError
  /\ MigrationChecklistRecord.create Samples.strptime
       Samples.wide_checklist_record Samples.wide_checklist_row
     = Raise (AttributeError "sanitize_key")
  /\ ((exists r,
          MigrationChecklistRecord.create Samples.strptime
            Samples.checklist_record Samples.row_year_9999 = Ok r)
      \/ MigrationChecklistRecord.create Samples.strptime
           Samples.checklist_record Samples.row_year_9999
         = Raise OverflowError).
Proof.
  split; [|split].
  - apply (proj1 (checklist_create_raises Samples.strptime
                    Samples.checklist_record
                    ["sampling_event_id"; "longitude"; "latitude"; "year";
                     "month"; "day"; "country"]
                    Samples.checklist_row_too_long eq_refl eq_refl)).
    apply Nat.ltb_lt. reflexivity.
  - apply (proj1 (checklist_create_raises Samples.strptime
                    Samples.wide_checklist_record
                    ["sampling_event_id"; "year"; "zenaida macroura";
                     "turdus.migratorius"; "passer domesticus"]
                    Samples.wide_checklist_row eq_refl eq_refl)).
    apply Nat.ltb_lt. reflexivity.
  - apply (proj2 (checklist_create_raises Samples.strptime
                    Samples.checklist_record
                    ["sampling_event_id"; "longitude"; "latitude"; "year";
                     "month"; "day"; "country"]
                    Samples.row_year_9999 eq_refl eq_refl)).
    apply Nat.leb_le. reflexivity.
Defined.

(* ================================================================== *)
(** * Which Taxonomy rows are valid *)
(* ================================================================== *)

Lemma keys_set (d : ODict.t) (k k' : string) (v : pyval) :
  In k' (ODict.keys (ODict.set d k v)) -> k' = k \/ In k' (ODict.keys d).
Proof.
  unfold ODict.keys. induction d as [|[k0 v0] d IH]; cbn [ODict.set map In].
  - intros [<-|[]]. now left.
  - destruct (String.eqb k0 k) eqn:E; cbn [map In fst].
    + intros [<-|I]; [now left | now right; right].
    + intros [<-|I]; [right; now left|].
      destruct (IH I) as [->|J]; [now left | right; now right].
Qed.

Lemma conforming_set (c : record_class) (fields : ODict.t) (k : string)
      (v : pyval) :
  conforming c fields ->
  (forall r, schema_get (schema_of c) k = Some r ->
             v = PNone \/ Cerberus.type_ok (r_type r) v = true) ->
  conforming c (ODict.set fields k v).
Proof.
  intros A K k' r v' S G.
  destruct (String.eqb k k') eqn:E.
  - apply String.eqb_eq in E. subst k'. rewrite get_set_same in G.
    inversion G. subst. auto.
  - apply String.eqb_neq in E. rewrite get_set_other in G by exact E.
    eauto.
Qed.

(** A value of the declared type, or null where null is allowed, has no
    error in a field without a nested schema. *)
Lemma conforming_field_errors (allow_unknown : bool) (r : rule) (v : pyval) :
  r_schema r = None ->
  (v = PNone -> r_nullable r = true) ->
  v = PNone \/ Cerberus.type_ok (r_type r) v = true ->
  Cerberus.field_errors allow_unknown r v = [].
Proof.
  destruct r as [ty nullable required sch fmt]. cbn. intros -> N T.
  destruct v; try (destruct T as [T|T]; [discriminate T|]; now rewrite T).
  now rewrite N.
Qed.

Lemma taxonomy_schema_entries :
  Forall (fun e => schema_get TaxonomyRecord.schema (fst e) = Some (snd e)
                   /\ r_schema (snd e) = None
                   /\ (fst e = "primary_com_name"
                       \/ (r_nullable (snd e) = true
                           /\ r_required (snd e) = false)))
         TaxonomyRecord.schema.
Proof. repeat constructor; cbn; tauto. Qed.

(** The fields of a Taxonomy record that [create] has filled pass the
    schema exactly when the common name is a string. *)
Lemma taxonomy_errors (fields : ODict.t) :
  known_keys Taxonomy fields ->
  conforming Taxonomy fields ->
  (Cerberus.errors TaxonomyRecord.allow_unknown TaxonomyRecord.schema fields
   = []
   <-> exists s, ODict.get fields "primary_com_name" = Some (PStr s)).
Proof.
  intros K C. unfold Cerberus.errors, TaxonomyRecord.allow_unknown.
  assert (U : Cerberus.unknown_errors false TaxonomyRecord.schema fields = [])
    by (apply unknown_errors_nil; exact K).
  rewrite U, app_nil_r. split.
  - intros E.
    pose proof (known_errors_nil _ _ _ E "primary_com_name"
                  (plain "string" false true)) as P.
    cbn [In TaxonomyRecord.schema] in P.
    specialize (P (or_intror (or_introl eq_refl))).
    destruct (ODict.get fields "primary_com_name") as [v|]; [|discriminate P].
    destruct v; try discriminate P. eauto.
  - intros (s & G). apply known_errors_accepted.
    pose proof taxonomy_schema_entries as F.
    eapply Forall_impl; [|exact F]. cbv beta.
    intros [k r] (S & N & [Pk|[Nu Rq]]); cbn [fst snd] in *.
    + subst k. rewrite G. cbn in S. inversion S. reflexivity.
    + destruct (ODict.get fields k) as [v|] eqn:E; [|exact Rq].
      apply conforming_field_errors; [exact N | auto |].
      exact (C k r v S E).
Qed.

Section TaxonomyRows.

Variable strptime : string -> string -> option datetime.
Variable json_dumps : ODict.t -> string.
Variable utcnow : Z -> datetime.

Lemma taxonomy_body_fields (h f : string) (self self' : record) :
  known_keys Taxonomy (fields self) /\ conforming Taxonomy (fields self) ->
  TaxonomyRecord.body strptime h f self = Ok self' ->
  known_keys Taxonomy (fields self') /\ conforming Taxonomy (fields self').
Proof.
  intros [K C]. unfold TaxonomyRecord.body.
  destruct (Record.map_header (provider_map self) h) as [[c|]|e];
    cbn [bind]; [|intros H; inversion H; subst; auto|discriminate].
  destruct (Record.is_empty_str (PStr c));
    [intros H; inversion H; subst; auto|].
  destruct (String.eqb (PyStr.lower c) "sci_name").
  { destruct (negb _); intros H; inversion H; subst; auto. }
  destruct (Record.set_field_by_schema strptime TaxonomyRecord.schema
              (fields self) c (PStr f)) as [fields'|e] eqn:E;
    cbn [bind]; [|discriminate].
  intros H. inversion H. subst self'. cbn [fields with_fields].
  destruct (schema_get TaxonomyRecord.schema c) as [r|] eqn:G.
  - assert (L : c <> "loc") by (intros ->; discriminate G).
    destruct (scalar_rules Taxonomy c r G L) as (T & Lo & Sc).
    destruct (coerced_value_conforms strptime TaxonomyRecord.schema
                (fields self) fields' c f r G)
      as (v & -> & V); [now rewrite Lo | exact E |].
    rewrite Lo in V. split.
    + intros k I. apply keys_set in I. destruct I as [->|I]; [|auto].
      cbn [schema_of]. congruence.
    + apply conforming_set; [exact C|].
      intros r' G'. cbn [schema_of] in G'. rewrite G in G'.
      inversion G'. subst r'. exact V.
  - unfold Record.set_field_by_schema in E. rewrite G in E.
    cbn in E. inversion E. subst. auto.
Qed.

(** X21. A Taxonomy row of the data range on which [create] returns is
    valid exactly when the record has an identifier and its common name
    is a string: then the record goes to the valid batch.  Without
    identifier, or with a common name that is missing or null, an invalid
    record is returned.  No other cell of the row can make the row
    invalid. *)
Theorem taxonomy_row_validity (a : BirtFileReader.args) (r : record) :
  BirtFileReader.a_provider_type a = Taxonomy ->
  in_range a ->
  BirtFileReader.create strptime (fresh a) (BirtFileReader.a_row a) = Ok r ->
  (identified (_id r)
   /\ (exists s, ODict.get (fields r) "primary_com_name" = Some (PStr s)) ->
   BirtFileReader.process_row strptime json_dumps utcnow a
   = Ok (BirtFileReader.ReturnList (Some (with_errors r [])) None))
  /\ (_id r = PNone
      \/ (forall s, ODict.get (fields r) "primary_com_name" <> Some (PStr s)) ->
      exists invalid,
        BirtFileReader.process_row strptime json_dumps utcnow a
        = Ok (BirtFileReader.ReturnList None (Some invalid))).
Proof.
  intros P R C.
  rewrite (process_row_in_range strptime json_dumps utcnow a R), C.
  destruct (create_created strptime _ _ _ (fresh_unset a) C)
    as [(S1 & _ & _ & _) I].
  cbn [fresh cls] in S1. rewrite P in S1.
  assert (F : known_keys Taxonomy (fields r)
              /\ conforming Taxonomy (fields r)).
  { unfold BirtFileReader.create in C. cbn [fresh cls] in C.
    rewrite P in C. unfold TaxonomyRecord.create in C. break_ok C.
    eapply (for_fields_invariant (TaxonomyRecord.body strptime)
              (fun st => known_keys Taxonomy (fields st)
                         /\ conforming Taxonomy (fields st)));
      [| |exact C].
    - intros h f st st'. apply taxonomy_body_fields.
    - split.
      + intros k [].
      + intros k r0 v _ G. discriminate G. }
  destruct F as [K Cf].
  pose proof (taxonomy_errors (fields r) K Cf) as V.
  unfold validate. rewrite S1. cbn [allow_unknown_of schema_of].
  split.
  - intros ((s & -> & _) & N). apply V in N. rewrite N. reflexivity.
  - intros [N|N].
    + rewrite N.
      destruct (BirtFileReader.validation_errors json_dumps r). eauto.
    + destruct I as [I|(s & I & _)]; rewrite I.
      * destruct (BirtFileReader.validation_errors json_dumps r). eauto.
      * destruct (Cerberus.errors TaxonomyRecord.allow_unknown
                    TaxonomyRecord.schema (fields r)) eqn:E.
        -- exfalso. destruct (proj1 V eq_refl) as (s' & G).
           exact (N s' G).
        -- cbn [Cerberus.is_empty].
           destruct (BirtFileReader.validation_errors json_dumps _). eauto.
Qed.

End TaxonomyRows.

Lemma taxonomy_row_validity_example :
  let a := Samples.taxonomy_args 1 ["Turdus migratorius"; "American Robin"] in
  exists r,
    BirtFileReader.create Samples.strptime (fresh a) (BirtFileReader.a_row a)
    = Ok r
    /\ BirtFileReader.process_row Samples.strptime Samples.json_dumps
         Samples.utcnow a
       = Ok (BirtFileReader.ReturnList (Some (with_errors r [])) None).
Proof.
  cbv zeta. eexists. split; [vm_compute; reflexivity|].
  match goal with
  | |- _ = Ok (BirtFileReader.ReturnList (Some (with_errors ?r [])) None) =>
      apply (proj1 (taxonomy_row_validity Samples.strptime Samples.json_dumps
                      Samples.utcnow
                      (Samples.taxonomy_args 1
                         ["Turdus migratorius"; "American Robin"])
                      r eq_refl (conj eq_refl (conj eq_refl eq_refl))
                      eq_refl))
  end.
  split.
  - exists "turdus migratorius". split; reflexivity.
  - exists "American Robin". reflexivity.
Defined.

(* ================================================================== *)
(** * Which Migration-Checklist rows are valid *)
(* ================================================================== *)

Lemma checklist_schema_entries :
  Forall (fun e =>
            schema_get MigrationChecklistRecord.schema (fst e) = Some (snd e)
            /\ (fst e = "loc"
                \/ (r_schema (snd e) = None
                    /\ ((In (fst e) ["year"; "month"; "day"]
                         /\ snd e = plain "integer" false true)
                        \/ (r_nullable (snd e) = true
                            /\ r_required (snd e) = false)))))
         MigrationChecklistRecord.schema.
Proof.
  unfold MigrationChecklistRecord.schema.
  repeat (apply Forall_cons;
          [split;
           [reflexivity
           |first [left; reflexivity
                  |right; split;
                   [reflexivity
                   |first [right; split; reflexivity
                          |left; split; [cbn [In]; tauto | reflexivity]]]]]|]).
  apply Forall_nil.
Qed.

(** A location that is not null passes the rules of [loc]. *)
Lemma location_passes (c : MigrationChecklistRecord.coordinates) (r : rule) :
  schema_get MigrationChecklistRecord.schema "loc" = Some r ->
  loc_of c <> PNone ->
  Cerberus.field_errors MigrationChecklistRecord.allow_unknown r (loc_of c)
  = [].
Proof.
  intros G N. cbn in G. inversion G. subst r. clear G.
  unfold loc_of in *.
  destruct (MigrationChecklistRecord.is_valid_coordinate_pair c);
    [|now contradiction N].
  reflexivity.
Qed.

(** The fields of a Migration-Checklist record whose scalar fields hold
    null or a value of their type pass the schema exactly when the
    location is not null and the year, the month and the day are
    filled. *)
Lemma checklist_errors (fields : ODict.t)
      (c : MigrationChecklistRecord.coordinates) :
  conforming Checklist fields ->
  ODict.get fields "loc" = Some (loc_of c) ->
  (Cerberus.errors MigrationChecklistRecord.allow_unknown
                   MigrationChecklistRecord.schema fields = []
   <-> Forall (filled fields) ["loc"; "year"; "month"; "day"]).
Proof.
  intros C L. unfold Cerberus.errors, MigrationChecklistRecord.allow_unknown.
  rewrite unknown_errors_allowed, app_nil_r.
  pose proof checklist_schema_entries as F. split.
  - intros E.
    assert (K : forall k r, In (k, r) MigrationChecklistRecord.schema ->
                            r_nullable r = false ->
                            (r_required r = true \/ ODict.get fields k <> None) ->
                            filled fields k).
    { intros k r I Nu Rq.
      pose proof (known_errors_nil _ _ _ E k r I) as P.
      destruct (ODict.get fields k) as [v|] eqn:G.
      - exists v. split; [exact G|]. intros ->.
        destruct r as [ty nullable required sch fmt]. cbn in Nu, P.
        subst nullable. discriminate P.
      - destruct Rq as [Rq|Rq]; [congruence | now contradiction Rq]. }
    repeat constructor.
    + apply (K "loc" (Rule "dict" false false
                        (Some [ ("type", plain "string" false false);
                                ("coordinates", plain "list" false false) ])
                        None)); [cbn; tauto | reflexivity |].
      right. rewrite L. discriminate.
    + apply (K "year" (plain "integer" false true));
        [cbn; tauto | reflexivity | now left].
    + apply (K "month" (plain "integer" false true));
        [cbn; tauto | reflexivity | now left].
    + apply (K "day" (plain "integer" false true));
        [cbn; tauto | reflexivity | now left].
  - intros V. rewrite Forall_forall in V.
    apply known_errors_accepted.
    eapply Forall_impl; [|exact F]. cbv beta.
    intros [k r] (S & [Pk|(N & [(I & Pr)|(Nu & Rq)])]); cbn [fst snd] in *.
    + subst k. rewrite L. apply location_passes; [exact S|].
      destruct (V "loc") as (v & G & Nv); [cbn; tauto|].
      rewrite L in G. inversion G. subst v. exact Nv.
    + destruct (V k) as (v & G & Nv); [cbn in I |- *; tauto|].
      rewrite G. apply conforming_field_errors; [exact N | |].
      * intros ->. now contradiction Nv.
      * exact (C k r v S G).
    + destruct (ODict.get fields k) as [v|] eqn:E; [|exact Rq].
      apply conforming_field_errors; [exact N | auto |].
      exact (C k r v S E).
Qed.

Section ChecklistRows.

Variable strptime : string -> string -> option datetime.
Variable json_dumps : ODict.t -> string.
Variable utcnow : Z -> datetime.

Lemma checklist_body_conforming (h f : string)
      (st st' : record * MigrationChecklistRecord.coordinates) :
  provider_map (fst st) = MigrationChecklistType.map ->
  conforming Checklist (fields (fst st)) ->
  MigrationChecklistRecord.body strptime h f st = Ok st' ->
  conforming Checklist (fields (fst st')).
Proof.
  destruct st as [self coords]. cbn [fst]. intros M A.
  unfold MigrationChecklistRecord.body. rewrite M.
  destruct (Record.map_header MigrationChecklistType.map h) as [[c|]|e];
    cbn [bind]; [| discriminate | discriminate].
  - destruct (Record.is_empty_str (PStr c));
      [intros H; inversion H; subst; exact A|].
    destruct (String.eqb (PyStr.lower c) "sampling_event_id").
    { destruct (negb _); intros H; inversion H; subst; exact A. }
    destruct (String.eqb (PyStr.lower c) "longitude").
    { destruct (Record.could_be_float (PStr f));
        [|intros H; inversion H; subst; exact A].
      destruct (Py.float (PStr f)); cbn [bind]; [|discriminate].
      intros H; inversion H; subst; exact A. }
    destruct (String.eqb (PyStr.lower c) "latitude").
    { destruct (Record.could_be_float (PStr f));
        [|intros H; inversion H; subst; exact A].
      destruct (Py.float (PStr f)); cbn [bind]; [|discriminate].
      intros H; inversion H; subst; exact A. }
    destruct (Record.set_field_by_schema strptime
                MigrationChecklistRecord.schema (fields self) c (PStr f))
      as [fields'|e] eqn:E; cbn [bind]; [|discriminate].
    intros H. inversion H. subst st'. cbn [fst fields with_fields].
    destruct (String.eqb c "loc") eqn:Lc.
    { apply String.eqb_eq in Lc. subst c. cbn in E. inversion E. subst.
      exact A. }
    apply String.eqb_neq in Lc.
    destruct (schema_get MigrationChecklistRecord.schema c) as [r|] eqn:G.
    + destruct (scalar_rules Checklist c r G Lc) as (T & Lo & Sc).
      destruct (coerced_value_conforms strptime
                  MigrationChecklistRecord.schema (fields self) fields' c f r G)
        as (v & -> & V); [now rewrite Lo | exact E |].
      rewrite Lo in V. apply conforming_set; [exact A|].
      intros r' G'. cbn [schema_of] in G'. rewrite G in G'.
      inversion G'. subst r'. exact V.
    + unfold Record.set_field_by_schema in E. rewrite G in E.
      cbn in E. inversion E. subst. exact A.
Qed.

(** The fields of a checklist record after [create]: the scalar fields
    conform, and the location is the one of the pending coordinates. *)
Lemma checklist_create_conforming (self r : record) (hs row : list string) :
  header_row self = Some hs ->
  provider_map self = MigrationChecklistType.map ->
  fields self = ODict.empty ->
  MigrationChecklistRecord.create strptime self row = Ok r ->
  conforming Checklist (fields r)
  /\ exists c, ODict.get (fields r) "loc" = Some (loc_of c).
Proof.
  intros H M F C.
  destruct (checklist_create_inv _ _ _ _ C)
    as (hs' & self1 & coords & date & self3 & H' & L & G & ->).
  rewrite H in H'. inversion H'. subst hs'. cbn [fields with_fields].
  assert (I : provider_map (fst (self1, coords)) = MigrationChecklistType.map
              /\ conforming Checklist (fields (fst (self1, coords)))).
  { apply (for_fields_invariant_in (MigrationChecklistRecord.body strptime)
             (fun st => provider_map (fst st) = MigrationChecklistType.map
                        /\ conforming Checklist (fields (fst st))) hs)
      with (st := (self, (None, None))) (st' := (self1, coords)) in L;
      [exact L | |].
    - intros h f st st' Ih [Pm Ac] B. split.
      + exact (checklist_body_map strptime h f st st' Pm B).
      + apply (checklist_body_conforming h f st st'); auto.
    - split; [exact M|]. cbn [fst]. rewrite F.
      intros k r0 v _ G0. discriminate G0. }
  destruct I as [_ I]. cbn [fst] in I. split.
  - apply conforming_set.
    + apply conforming_set; [exact I|].
      intros r0 G0. cbn in G0. inversion G0. subst r0.
      unfold loc_of.
      destruct (MigrationChecklistRecord.is_valid_coordinate_pair coords);
        [now right | now left].
    + intros r0 G0. discriminate G0.
  - exists coords. rewrite get_set_other by discriminate.
    apply get_set_same.
Qed.

(** X22. A Migration-Checklist row of the data range on which [create]
    returns is valid exactly when the record has an identifier, its
    location is not null, and its year, month and day are present and not
    null: then the record goes to the valid batch, and otherwise an
    invalid record is returned.  No other cell of the row can make the
    row invalid. *)
Theorem checklist_row_validity (a : BirtFileReader.args) (hs : list string)
        (r : record) :
  BirtFileReader.a_provider_type a = Checklist ->
  BirtFileReader.a_header_row a = Some hs ->
  in_range a ->
  BirtFileReader.create strptime (fresh a) (BirtFileReader.a_row a) = Ok r ->
  (identified (_id r)
   /\ Forall (filled (fields r)) ["loc"; "year"; "month"; "day"] ->
   BirtFileReader.process_row strptime json_dumps utcnow a
   = Ok (BirtFileReader.ReturnList (Some (with_errors r [])) None))
  /\ (_id r = PNone
      \/ Exists (fun k => ~ filled (fields r) k)
                ["loc"; "year"; "month"; "day"] ->
      exists invalid,
        BirtFileReader.process_row strptime json_dumps utcnow a
        = Ok (BirtFileReader.ReturnList None (Some invalid))).
Proof.
  intros P H R C.
  rewrite (process_row_in_range strptime json_dumps utcnow a R), C.
  destruct (create_created strptime _ _ _ (fresh_unset a) C)
    as [(S1 & _ & _ & _) I].
  cbn [fresh cls] in S1. rewrite P in S1.
  assert (V : Cerberus.errors MigrationChecklistRecord.allow_unknown
                MigrationChecklistRecord.schema (fields r) = []
              <-> Forall (filled (fields r)) ["loc"; "year"; "month"; "day"]).
  { unfold BirtFileReader.create in C. cbn [fresh cls] in C. rewrite P in C.
    destruct (checklist_create_conforming (fresh a) r hs
                (BirtFileReader.a_row a) H) as (Cf & c & L); auto.
    - cbn [fresh provider_map]. now rewrite P.
    - exact (checklist_errors (fields r) c Cf L). }
  unfold validate. rewrite S1. cbn [allow_unknown_of schema_of].
  split.
  - intros ((s & -> & _) & F). apply V in F. rewrite F. reflexivity.
  - intros [E|E].
    + rewrite E.
      destruct (BirtFileReader.validation_errors json_dumps r). eauto.
    + destruct I as [I|(s & I & _)]; rewrite I.
      * destruct (BirtFileReader.validation_errors json_dumps r). eauto.
      * destruct (Cerberus.errors MigrationChecklistRecord.allow_unknown
                    MigrationChecklistRecord.schema (fields r)) eqn:Q.
        -- exfalso. pose proof (proj1 V eq_refl) as F.
           rewrite Forall_forall in F. apply Exists_exists in E.
           destruct E as (k & Ik & Nk). exact (Nk (F k Ik)).
        -- cbn [Cerberus.is_empty].
           destruct (BirtFileReader.validation_errors json_dumps _). eauto.
Qed.

End ChecklistRows.

Lemma checklist_row_validity_example :
  let a := Samples.checklist_args Samples.row_day_400 in
  exists r,
    BirtFileReader.create Samples.strptime (fresh a) (BirtFileReader.a_row a)
    = Ok r
    /\ BirtFileReader.process_row Samples.strptime Samples.json_dumps
         Samples.utcnow a
       = Ok (BirtFileReader.ReturnList (Some (with_errors r [])) None).
Proof.
  cbv zeta. eexists. split; [vm_compute; reflexivity|].
  match goal with
  | |- _ = Ok (BirtFileReader.ReturnList (Some (with_errors ?r [])) None) =>
      apply (proj1 (checklist_row_validity Samples.strptime Samples.json_dumps
                      Samples.utcnow
                      (Samples.checklist_args Samples.row_day_400)
                      ["sampling_event_id"; "longitude"; "latitude"; "year";
                       "month"; "day"; "country"]
                      r eq_refl eq_refl
                      (conj eq_refl (conj eq_refl eq_refl)) eq_refl))
  end.
  split.
  - exists "S1". split; reflexivity.
  - repeat (apply Forall_cons;
            [eexists; split; [vm_compute; reflexivity | discriminate]|]).
    apply Forall_nil.
Defined.

(* ================================================================== *)
(** * Runs over checklist files, and over files without data *)
(* ================================================================== *)

Lemma Forall2_In_left {A B : Type} (P : A -> B -> Prop) (l : list A)
      (l' : list B) (x : A) :
  Forall2 P l l' -> In x l -> exists y, In y l' /\ P x y.
Proof.
  induction 1 as [|a b l l' Pab F IH]; intros I; [destruct I|].
  destruct I as [<-|I].
  - exists b. split; [now left | exact Pab].
  - destruct (IH I) as (y & Iy & Py). exists y. split; [now right | exact Py].
Qed.

Section ChecklistRuns.

Variable strptime : string -> string -> option datetime.
Variable json_dumps : ODict.t -> string.
Variable utcnow : Z -> datetime.

Let process_row := BirtFileReader.process_row strptime json_dumps utcnow.

(** A loop over a chunk that ends without exception has had a pair from
    every row. *)
Lemma chunk_loop_returned (chunk : list BirtFileReader.args) :
  forall valid invalid f,
    BirtFileReader.chunk_loop strptime json_dumps utcnow chunk valid invalid
    = Ok f ->
    forall a, In a chunk ->
              exists v i, process_row a = Ok (BirtFileReader.ReturnList v i).
Proof.
  induction chunk as [|b chunk IH]; intros valid invalid f H a I;
    [destruct I|].
  cbn [BirtFileReader.chunk_loop] in H. fold process_row in H.
  destruct (process_row b) as [[|vb ib]|e] eqn:P; cbn [bind] in H;
    try discriminate H.
  destruct I as [<-|I]; [eauto|]. eapply IH; eauto.
Qed.

(** A loop over a chunk that ends with an exception has met a row on
    which [process_row] raised it, or returned [None]. *)
Lemma chunk_loop_raised (chunk : list BirtFileReader.args) :
  forall valid invalid e,
    BirtFileReader.chunk_loop strptime json_dumps utcnow chunk valid invalid
    = Raise e ->
    exists a, In a chunk
              /\ (process_row a = Raise e
                  \/ (process_row a = Ok BirtFileReader.ReturnNone
                      /\ e = TypeError)).
Proof.
  induction chunk as [|b chunk IH]; intros valid invalid e H;
    [discriminate H|].
  cbn [BirtFileReader.chunk_loop] in H. fold process_row in H.
  destruct (process_row b) as [[|vb ib]|e'] eqn:P; cbn [bind] in H.
  - inversion H. subst. exists b. split; [now left | auto].
  - destruct (IH _ _ _ H) as (a & Ia & Pa).
    exists a. split; [now right | exact Pa].
  - inversion H. subst. exists b. split; [now left | auto].
Qed.

(** What [process_row] gives for a row of a checklist file. *)
Lemma checklist_process_row (a : BirtFileReader.args) (hs : list string) :
  BirtFileReader.a_provider_type a = Checklist ->
  BirtFileReader.a_header_row a = Some hs ->
  ((in_range a
    /\ (limit Checklist hs < List.length (BirtFileReader.a_row a))%nat) ->
   process_row a = Raise (overrun Checklist hs))
  /\ ((exists v i, process_row a = Ok (BirtFileReader.ReturnList v i))
      \/ process_row a = Raise (overrun Checklist hs)
      \/ process_row a = Raise OverflowError).
Proof.
  intros P H.
  assert (C : BirtFileReader.create strptime (fresh a) (BirtFileReader.a_row a)
              = MigrationChecklistRecord.create strptime (fresh a)
                  (BirtFileReader.a_row a)).
  { unfold BirtFileReader.create. cbn [fresh cls]. now rewrite P. }
  assert (U : BirtFileReader.handled (overrun Checklist hs) = false).
  { unfold overrun. now destruct (Nat.ltb _ _). }
  destruct (checklist_create_ragged strptime (fresh a) hs
              (BirtFileReader.a_row a) H) as [S L];
    [cbn [fresh provider_map]; now rewrite P|].
  split.
  - intros [R T]. apply (process_row_raised strptime json_dumps utcnow a
                           (overrun Checklist hs) R); [|exact U].
    rewrite C. now apply L.
  - destruct (in_range_dec a) as [R|R].
    + destruct (Nat.le_gt_cases (List.length (BirtFileReader.a_row a))
                                (limit Checklist hs)) as [B|B].
      * destruct (S B) as ([self1 coords] & F).
        assert (G : (exists r, MigrationChecklistRecord.create strptime
                                 (fresh a) (BirtFileReader.a_row a) = Ok r)
                    \/ MigrationChecklistRecord.create strptime (fresh a)
                         (BirtFileReader.a_row a) = Raise OverflowError).
        { unfold MigrationChecklistRecord.create, header_row_of.
          cbn [fresh header_row]. rewrite H. cbn [bind].
          change (mk_record (BirtFileReader.a_provider_type a)
                            (BirtFileReader.a_header_row a)
                            (map_of (BirtFileReader.a_provider_type a))
                            (BirtFileReader.a_row_count a) PNone ODict.empty [])
            with (fresh a).
          rewrite F. cbn [bind].
          match goal with
          | |- context [MigrationChecklistRecord.gen_date ?s] =>
              destruct (gen_date_raises_overflow_only s)
                as [(d & self' & ->)| ->]
          end; cbn [bind]; eauto. }
        destruct G as [(r & G)|G].
        -- left. apply (process_row_created strptime json_dumps utcnow a r R).
           now rewrite C.
        -- right. right.
           apply (process_row_raised strptime json_dumps utcnow a
                    OverflowError R); [|reflexivity].
           now rewrite C.
      * right. left.
        apply (process_row_raised strptime json_dumps utcnow a
                 (overrun Checklist hs) R); [|exact U].
        rewrite C. now apply L.
    + left. exists None, None.
      exact (process_row_not_in_range strptime json_dumps utcnow a R).
Qed.

(** X23. A run over a Migration-Checklist file whose header row is not
    blank either completes, or ends in a chunk with [OverflowError] or
    with the one exception of a row that goes too far, which is the
    [AttributeError] of [Record.sanitize_key] when the header row has a
    column without a canonical name and [IndexError] otherwise: it never
    ends with the [TypeError] of a row that [process_row] has dropped.
    It does not complete when a row after the header that has a cell that
    is not empty has a cell in the first column without a canonical name
    or, when every column has one, past the header row. *)
Theorem checklist_run_outcome (verbose : bool) (header : list string)
        (rows : list (list string)) :
  BirtFileReader.any_stripped header = true ->
  ((exists flushes,
       BirtFileReader.process strptime json_dumps utcnow Checklist verbose
         (header :: rows) = BirtFileReader.Completed flushes)
   \/ (exists flushes e,
          BirtFileReader.process strptime json_dumps utcnow Checklist verbose
            (header :: rows) = BirtFileReader.ChunkFailed flushes e
          /\ (e = overrun Checklist (map BirtFileReader.normalize header)
              \/ e = OverflowError)))
  /\ (existsb (beyond Checklist (map BirtFileReader.normalize header)) rows
      = true ->
      forall flushes,
        BirtFileReader.process strptime json_dumps utcnow Checklist verbose
          (header :: rows) <> BirtFileReader.Completed flushes).
Proof.
  intros A.
  destruct (process_scanned strptime json_dumps utcnow Checklist verbose
              (header :: rows)) as [(q & S)|(S & C)].
  { unfold BirtFileReader.process,
      BirtFileReader.find_header_and_end_of_data in S.
    cbn [BirtFileReader.header_position_of
           BirtFileReader.num_empty_rows_eod_of] in S.
    rewrite scan_loop_first_row, A in S.
    now apply run_chunks_scanned in S. }
  assert (Rows : forall a, In a (rows_of Checklist verbose (header :: rows)) ->
                           BirtFileReader.a_provider_type a = Checklist
                           /\ BirtFileReader.a_header_row a
                              = Some (map BirtFileReader.normalize header)).
  { intros a I. apply numbered_bounds in I.
    destruct I as (_ & P & H & _). auto. }
  split.
  - rewrite S.
    destruct (BirtFileReader.run_chunks strptime json_dumps utcnow
                (BirtFileReader.gen_chunks (header :: rows) verbose Checklist
                   (scanned_header (header :: rows))
                   (Z.of_nat (List.length (header :: rows)))) [])
      as [fl|e|fl e] eqn:Q.
    + left. eauto.
    + now apply run_chunks_scanned in Q.
    + right. exists fl, e. split; [reflexivity|].
      apply run_chunks_failed in Q.
      destruct Q as (pre & bad & post & fs & G & _ & _ & R).
      apply chunk_loop_raised in R. destruct R as (a & Ia & Pa).
      assert (I : In a (rows_of Checklist verbose (header :: rows))).
      { rewrite <- C, G, concat_app. apply in_or_app. right.
        cbn [List.concat]. apply in_or_app. now left. }
      destruct (Rows a I) as [P H].
      destruct (checklist_process_row a _ P H) as [_ [(v & i & O)|[O|O]]];
        fold process_row in O;
        destruct Pa as [Pa|[Pa _]]; rewrite O in Pa;
        try discriminate Pa; inversion Pa; auto.
  - intros T fl Q. rewrite S in Q. apply run_chunks_completed in Q.
    destruct Q as (fs & _ & F).
    apply existsb_exists in T. destruct T as (row & Ir & Tr).
    unfold beyond in Tr. apply andb_true_iff in Tr.
    destruct Tr as [Y Tr]. apply Nat.ltb_lt in Tr.
    assert (E : exists a, In a (rows_of Checklist verbose (header :: rows))
                          /\ BirtFileReader.a_row a = row
                          /\ 1 <= BirtFileReader.a_row_count a).
    { unfold rows_of. cbn [numbered].
      generalize (scanned_header (header :: rows))
                 (Z.of_nat (List.length (header :: rows))).
      intros hd n. clear - Ir.
      assert (G : forall start, 1 <= start ->
                                exists a, In a (numbered verbose Checklist hd n
                                                  rows start)
                                          /\ BirtFileReader.a_row a = row
                                          /\ 1 <= BirtFileReader.a_row_count a).
      { induction rows as [|r0 rows IH]; [destruct Ir|]. intros start B.
        destruct Ir as [->|Ir].
        - eexists. split; [left; reflexivity|]. split; [reflexivity | exact B].
        - destruct (IH Ir (start + 1)) as (a & Ia & Ra & Ba); [lia|].
          exists a. split; [right; exact Ia | auto]. }
      destruct (G (0 + 1)) as (a & Ia & Ra & Ba); [lia|].
      exists a. split; [right; exact Ia | auto]. }
    destruct E as (a & Ia & Ra & Ba).
    destruct (Rows a Ia) as [P H].
    assert (R : in_range a).
    { apply (rows_of_in_range Checklist verbose (header :: rows) a Ia).
      split; [exact Ba | now rewrite Ra]. }
    destruct (checklist_process_row a _ P H) as [X _].
    assert (O : process_row a
                = Raise (overrun Checklist
                           (map BirtFileReader.normalize header))).
    { apply X. split; [exact R|]. now rewrite Ra. }
    rewrite <- C in Ia. apply in_concat in Ia.
    destruct Ia as (chunk & Ic & Iac).
    destruct (Forall2_In_left _ _ _ _ F Ic) as (f & _ & Sy).
    destruct (chunk_loop_returned chunk [] [] f Sy a Iac) as (v & i & O').
    fold process_row in O'. rewrite O in O'. discriminate O'.
Qed.

End ChecklistRuns.

Lemma checklist_run_outcome_example :
  ((exists flushes,
       BirtFileReader.process Samples.strptime Samples.json_dumps Samples.utcnow
         Checklist false
         [ ["sampling_event_id"; "longitude"; "latitude"; "year"; "month";
            "day"; "country"];
           Samples.row_year_9999 ]
       = BirtFileReader.Completed flushes)
   \/ (exists flushes e,
          BirtFileReader.process Samples.strptime Samples.json_dumps
            Samples.utcnow Checklist false
            [ ["sampling_event_id"; "longitude"; "latitude"; "year"; "month";
               "day"; "country"];
              Samples.row_year_9999 ]
          = BirtFileReader.ChunkFailed flushes e
          /\ (e = IndexError \/ e = OverflowError)))
  /\ (forall flushes,
         BirtFileReader.process Samples.strptime Samples.json_dumps
           Samples.utcnow Checklist false
           [ ["sampling_event_id"; "year"; "Zenaida macroura"];
             ["S1"; "2021"; "3"] ]
         <> BirtFileReader.Completed flushes).
Proof.
  split.
  - exact (proj1 (checklist_run_outcome Samples.strptime Samples.json_dumps
                    Samples.utcnow false
                    ["sampling_event_id"; "longitude"; "latitude"; "year";
                     "month"; "day"; "country"]
                    [Samples.row_year_9999] eq_refl)).
  - exact (proj2 (checklist_run_outcome Samples.strptime Samples.json_dumps
                    Samples.utcnow false
                    ["sampling_event_id"; "year"; "Zenaida macroura"]
                    [["S1"; "2021"; "3"]] eq_refl) eq_refl).
Defined.

(* ================================================================== *)
(** * Files without data, and cells that read as integers *)
(* ================================================================== *)

Section EmptyFiles.

Variable strptime : string -> string -> option datetime.
Variable json_dumps : ODict.t -> string.
Variable utcnow : Z -> datetime.

(** X24. A file without rows and a file that has a header row only are
    processed to the end with one flush whose two batches are empty, so
    that nothing is handed over.  A file whose first row is blank is
    refused by the scan with [InvalidFileFormat] for position 0 before
    any row is processed, whatever its other rows hold. *)
Theorem run_over_a_file_without_data (provider_type : record_class)
        (verbose : bool) (header : list string) (rows : list (list string)) :
  BirtFileReader.process strptime json_dumps utcnow provider_type verbose []
  = BirtFileReader.Completed [([], [])]
  /\ (BirtFileReader.any_stripped header = true ->
      BirtFileReader.process strptime json_dumps utcnow provider_type verbose
        [header] = BirtFileReader.Completed [([], [])])
  /\ (BirtFileReader.any_stripped header = false ->
      BirtFileReader.process strptime json_dumps utcnow provider_type verbose
        (header :: rows)
      = BirtFileReader.ScanFailed (BirtFileReader.InvalidFileFormat 0)).
Proof.
  unfold BirtFileReader.process, BirtFileReader.find_header_and_end_of_data.
  replace (BirtFileReader.header_position_of provider_type) with 0
    by now destruct provider_type.
  replace (BirtFileReader.num_empty_rows_eod_of provider_type) with 0
    by now destruct provider_type.
  split; [reflexivity|]. split; intros A.
  - rewrite scan_loop_first_row, A.
    cbn [BirtFileReader.gen_chunks BirtFileReader.gen_loop
           BirtFileReader.run_chunks BirtFileReader.syncprocess_chunk
           BirtFileReader.chunk_loop Z.modulo Z.div_eucl Z.eqb Z.ltb
           Z.compare andb app].
    rewrite (process_row_not_in_range strptime json_dumps utcnow).
    + reflexivity.
    + intros (R & _). cbn [BirtFileReader.a_row_count
                             BirtFileReader.a_provider_type] in R.
      now destruct provider_type.
  - now rewrite scan_loop_first_row, A.
Qed.

End EmptyFiles.

Lemma run_over_a_file_without_data_example :
  BirtFileReader.process Samples.strptime Samples.json_dumps Samples.utcnow
    Taxonomy false [["sci_name"; "primary_com_name"]]
  = BirtFileReader.Completed [([], [])]
  /\ BirtFileReader.process Samples.strptime Samples.json_dumps Samples.utcnow
       Taxonomy false [[""; " "]; ["Turdus migratorius"; "American Robin"]]
     = BirtFileReader.ScanFailed (BirtFileReader.InvalidFileFormat 0).
Proof.
  split.
  - exact (proj1 (proj2 (run_over_a_file_without_data Samples.strptime
                           Samples.json_dumps Samples.utcnow Taxonomy false
                           ["sci_name"; "primary_com_name"] []))
                 eq_refl).
  - exact (proj2 (proj2 (run_over_a_file_without_data Samples.strptime
                           Samples.json_dumps Samples.utcnow Taxonomy false
                           [""; " "]
                           [["Turdus migratorius"; "American Robin"]]))
                 eq_refl).
Defined.

(** X25. Every string that [could_be_int] accepts is accepted by
    [could_be_number] and by [could_be_float] as well: a cell that reads
    as an integer under the type integer reads as a number under the
    types number and float. *)
Theorem integer_cells_are_numbers (x : string) :
  Record.could_be_int (PStr x) = true ->
  Record.could_be_number (PStr x) = true
  /\ Record.could_be_float (PStr x) = true.
Proof.
  cbn [Record.could_be_int Record.could_be_number Record.could_be_float].
  unfold PyNum.int_of_string, PyNum.float_of_string.
  destruct (PyStr.sign (PyStr.strip x)) as [neg r].
  destruct (PyStr.digits r 0 0) as [[n count] rest] eqn:D.
  destruct rest; [|discriminate].
  destruct (0 <? count) eqn:C; [|discriminate]. intros _.
  cbv beta iota zeta.
  destruct (_ || _)%bool; [split; reflexivity|].
  destruct (String.eqb _ "nan"); [split; reflexivity|].
  unfold PyNum.decimal. rewrite D, Z.add_0_r, C. cbn [PyNum.exponent].
  split; reflexivity.
Qed.

Lemma integer_cells_are_numbers_example :
  Record.could_be_number (PStr " -42 ") = true
  /\ Record.could_be_float (PStr " -42 ") = true.
Proof. apply (integer_cells_are_numbers " -42 "). reflexivity. Defined.
